(** * tinkerbms: the battery control engine ([src/tinkerbms/battery.py])

    A shallow embedding of the [Battery] base class and of the methods that
    compute the charge-voltage limit (CVL), the charge/discharge current
    limits (CCL/DCL) and the coulomb-counted state of charge.

    Modelling conventions.
    - Python numbers ([int] and [float]) that carry physical quantities are
      exact rationals [Q]; numeric comparison is the decidable order of [Q]
      and numeric equality is [Qeq] (so [1 == 1.0], as in Python);
      [round(x, n)] is the round-half-to-even of the exact decimal
      expansion.  The rounding error of binary64 is not computed: where the
      source compares numbers it has computed, or rounds one to decimals,
      the doubles can fall on the other side of an equality or of a tie
      that the rationals hit exactly (four cells at 3.425 V add up to
      13.7 V, and [13.8 - 0.1] is 13.700000000000001 in binary64).  The
      statements that follow such a test assume that its operands are
      [apart], or the rounded number [off_ties], by more than that error can
      bridge; the packs on the boundary are named next to each statement.
    - Fields annotated [int] that hold clock readings or counts are [Z].
    - A field that may hold [None] is an [option]; attributes that a driver
      may or may not create ([hasattr]) are [option]s as well.
    - A method that mutates [self] and may raise is a function
      [Battery -> res A * Battery]: the mutations made before an exception
      is raised stay visible, exactly as in Python.
    - [time()] is an input: every reading the source takes is a parameter.
    - The module [utils] (configuration constants and the two interpolation
      helpers) is not part of the sources at hand: the constants are the
      fields of the records [Config] (the engine) and [Readout] (the methods
      that publish the state), the helpers are section variables. *)

From Stdlib Require Import ZArith QArith Qround Qabs List String Bool Lia Lqa.
From Stdlib Require Import Ascii DecimalString.
Import ListNotations.

Local Open Scope Q_scope.

(** ** Python numerics *)

Definition Qltb (x y : Q) : bool := negb (Qle_bool y x).
Definition Qleb (x y : Q) : bool := Qle_bool x y.
Definition Qeqb (x y : Q) : bool := Qeq_bool x y.

(** [min(a, b)] and [max(a, b)]: the first argument wins ties. *)
Definition py_min (a b : Q) : Q := if Qltb b a then b else a.
Definition py_max (a b : Q) : Q := if Qltb a b then b else a.

Definition py_abs (a : Q) : Q := Qabs a.

(** [int(x)] truncates toward zero. *)
Definition py_int (x : Q) : Z := if Qleb 0 x then Qfloor x else Qceiling x.

Definition round_half_even (q : Q) : Z :=
  let f := Qfloor q in
  match Qcompare (q - inject_Z f) (1 # 2) with
  | Lt => f
  | Gt => (f + 1)%Z
  | Eq => if Z.even f then f else (f + 1)%Z
  end.

Definition pow10 (ndigits : nat) : Q := inject_Z (10 ^ Z.of_nat ndigits).

(** [round(x, ndigits)] *)
Definition py_round (x : Q) (ndigits : nat) : Q :=
  inject_Z (round_half_even (x * pow10 ndigits)) / pow10 ndigits.

(** Truthiness of an optional number: [None] and [0] are falsy. *)
Definition truthy (o : option Q) : bool :=
  match o with
  | Some q => negb (Qeqb q 0)
  | None => false
  end.

Definition truthyZ (o : option Z) : bool :=
  match o with
  | Some z => negb (Z.eqb z 0)
  | None => false
  end.

(** [a == b] and [a != b] on values that may be [None]; never raises. *)
Definition py_eq (a b : option Q) : bool :=
  match a, b with
  | Some x, Some y => Qeqb x y
  | None, None => true
  | _, _ => false
  end.

Definition py_ne (a b : option Q) : bool := negb (py_eq a b).

(** ** Exceptions *)

Inductive exn : Set :=
| TypeError
| ValueError
| AttributeError
| KeyError
| ZeroDivisionError
| OtherException.

Inductive res (A : Type) : Type :=
| Ok (a : A)
| Raise (e : exn).
Arguments Ok {A} a.
Arguments Raise {A} e.

Definition rbind {A B} (r : res A) (k : A -> res B) : res B :=
  match r with
  | Ok a => k a
  | Raise e => Raise e
  end.

(** Arithmetic on [None] raises [TypeError]. *)
Definition num (o : option Q) : res Q :=
  match o with
  | Some q => Ok q
  | None => Raise TypeError
  end.

Definition int (o : option Z) : res Z :=
  match o with
  | Some z => Ok z
  | None => Raise TypeError
  end.

(** ** The data model *)

(** class [Protection] *)
Record Protection : Set := mkProtection {
  voltage_high : option Z;
  voltage_low : option Z;
  voltage_cell_low : option Z;
  soc_low : option Z;
  current_over : option Z;
  current_under : option Z;
  cell_imbalance : option Z;
  internal_failure : option Z;
  temp_high_charge : option Z;
  temp_low_charge : option Z;
  temp_high_discharge : option Z;
  temp_low_discharge : option Z;
  temp_high_internal : option Z
}.

Definition ALARM : Z := 2.
Definition WARNING : Z := 1.
Definition OK : Z := 0.

(** [Protection()] *)
Definition Protection_new : Protection :=
  mkProtection None None None None None None None None None None None None None.

(** class [Cell] *)
Record Cell : Set := mkCell {
  cell_voltage : option Q;
  cell_balance : option bool;
  cell_temp : option Q
}.

(** class [Battery].  The first block of fields is created by [__init__]
    only, the second block by [init_values]; the last three are attributes
    that exist only once somebody assigned them ([initial_control_voltage]
    by the Float transition, [cell_min_voltage] / [cell_max_voltage] by a
    driver): [None] stands for "absent or [None]". *)
Record Battery : Type := mkBattery {
  (* __init__ *)
  port : string;
  baud_rate : Z;
  role : string;
  type : string;
  poll_interval : Z;
  online : bool;
  hardware_version : option string;
  cell_count : option Z;
  max_battery_charge_current : option Q;
  max_battery_discharge_current : option Q;
  has_settings : bool;
  soc_calc_capacity_remain : option Q;
  soc_calc_capacity_remain_lasttime : option Q;
  soc_calc_reset_starttime : option Z;
  soc_calc : option Q;
  soc : option Q;
  charge_fet : option bool;
  discharge_fet : option bool;
  balance_fet : option bool;
  block_because_disconnect : bool;
  control_charge_current : option Q;
  control_discharge_current : option Q;
  control_allow_charge : option bool;
  control_allow_discharge : option bool;
  custom_field : option string;
  (* init_values *)
  voltage : option Q;
  current : option Q;
  current_avg : option Q;
  current_avg_lst : list Q;
  current_corrected : option Q;
  capacity_remain : option Q;
  capacity : option Q;
  cycles : option Q;
  total_ah_drawn : option Q;
  production : option string;
  protection : Protection;
  version : option string;
  time_to_soc_update : Z;
  temp_sensors : option Z;
  temp1 : option Q;
  temp2 : option Q;
  temp3 : option Q;
  temp4 : option Q;
  temp_mos : option Q;
  cells : list Cell;
  control_voltage : option Q;
  soc_reset_requested : bool;
  soc_reset_last_reached : Z;
  soc_reset_battery_voltage : option Q;
  max_battery_voltage : option Q;
  min_battery_voltage : option Q;
  allow_max_voltage : bool;
  max_voltage_start_time : option Z;
  transition_start_time : option Z;
  charge_mode : option string;
  charge_mode_debug : string;
  charge_limitation : option string;
  discharge_limitation : option string;
  linear_cvl_last_set : Z;
  linear_ccl_last_set : Z;
  linear_dcl_last_set : Z;
  available_callbacks : list string;
  (* created on demand *)
  initial_control_voltage : option Q;
  cell_min_voltage : option Q;
  cell_max_voltage : option Q
}.

(** Field updates [self.f = v]: the record with one field replaced. *)
Definition set_current_corrected (v : option Q) (b : Battery) : Battery :=
  mkBattery
    (port b) (baud_rate b) (role b) (type b) (poll_interval b) (online b)
    (hardware_version b) (cell_count b) (max_battery_charge_current b)
    (max_battery_discharge_current b) (has_settings b)
    (soc_calc_capacity_remain b) (soc_calc_capacity_remain_lasttime b)
    (soc_calc_reset_starttime b) (soc_calc b) (soc b) (charge_fet b)
    (discharge_fet b) (balance_fet b) (block_because_disconnect b)
    (control_charge_current b) (control_discharge_current b)
    (control_allow_charge b) (control_allow_discharge b) (custom_field b)
    (voltage b) (current b) (current_avg b) (current_avg_lst b) v
    (capacity_remain b) (capacity b) (cycles b) (total_ah_drawn b)
    (production b) (protection b) (version b) (time_to_soc_update b)
    (temp_sensors b) (temp1 b) (temp2 b) (temp3 b) (temp4 b) (temp_mos b)
    (cells b) (control_voltage b) (soc_reset_requested b)
    (soc_reset_last_reached b) (soc_reset_battery_voltage b)
    (max_battery_voltage b) (min_battery_voltage b) (allow_max_voltage b)
    (max_voltage_start_time b) (transition_start_time b) (charge_mode b)
    (charge_mode_debug b) (charge_limitation b) (discharge_limitation b)
    (linear_cvl_last_set b) (linear_ccl_last_set b) (linear_dcl_last_set b)
    (available_callbacks b) (initial_control_voltage b) (cell_min_voltage b)
    (cell_max_voltage b).

Definition set_soc_calc_capacity_remain (v : option Q) (b : Battery) : Battery :=
  mkBattery
    (port b) (baud_rate b) (role b) (type b) (poll_interval b) (online b)
    (hardware_version b) (cell_count b) (max_battery_charge_current b)
    (max_battery_discharge_current b) (has_settings b) v
    (soc_calc_capacity_remain_lasttime b) (soc_calc_reset_starttime b)
    (soc_calc b) (soc b) (charge_fet b) (discharge_fet b) (balance_fet b)
    (block_because_disconnect b) (control_charge_current b)
    (control_discharge_current b) (control_allow_charge b)
    (control_allow_discharge b) (custom_field b) (voltage b) (current b)
    (current_avg b) (current_avg_lst b) (current_corrected b)
    (capacity_remain b) (capacity b) (cycles b) (total_ah_drawn b)
    (production b) (protection b) (version b) (time_to_soc_update b)
    (temp_sensors b) (temp1 b) (temp2 b) (temp3 b) (temp4 b) (temp_mos b)
    (cells b) (control_voltage b) (soc_reset_requested b)
    (soc_reset_last_reached b) (soc_reset_battery_voltage b)
    (max_battery_voltage b) (min_battery_voltage b) (allow_max_voltage b)
    (max_voltage_start_time b) (transition_start_time b) (charge_mode b)
    (charge_mode_debug b) (charge_limitation b) (discharge_limitation b)
    (linear_cvl_last_set b) (linear_ccl_last_set b) (linear_dcl_last_set b)
    (available_callbacks b) (initial_control_voltage b) (cell_min_voltage b)
    (cell_max_voltage b).

Definition set_soc_calc_capacity_remain_lasttime (v : option Q) (b : Battery) : Battery :=
  mkBattery
    (port b) (baud_rate b) (role b) (type b) (poll_interval b) (online b)
    (hardware_version b) (cell_count b) (max_battery_charge_current b)
    (max_battery_discharge_current b) (has_settings b)
    (soc_calc_capacity_remain b) v (soc_calc_reset_starttime b) (soc_calc b)
    (soc b) (charge_fet b) (discharge_fet b) (balance_fet b)
    (block_because_disconnect b) (control_charge_current b)
    (control_discharge_current b) (control_allow_charge b)
    (control_allow_discharge b) (custom_field b) (voltage b) (current b)
    (current_avg b) (current_avg_lst b) (current_corrected b)
    (capacity_remain b) (capacity b) (cycles b) (total_ah_drawn b)
    (production b) (protection b) (version b) (time_to_soc_update b)
    (temp_sensors b) (temp1 b) (temp2 b) (temp3 b) (temp4 b) (temp_mos b)
    (cells b) (control_voltage b) (soc_reset_requested b)
    (soc_reset_last_reached b) (soc_reset_battery_voltage b)
    (max_battery_voltage b) (min_battery_voltage b) (allow_max_voltage b)
    (max_voltage_start_time b) (transition_start_time b) (charge_mode b)
    (charge_mode_debug b) (charge_limitation b) (discharge_limitation b)
    (linear_cvl_last_set b) (linear_ccl_last_set b) (linear_dcl_last_set b)
    (available_callbacks b) (initial_control_voltage b) (cell_min_voltage b)
    (cell_max_voltage b).

Definition set_soc_calc_reset_starttime (v : option Z) (b : Battery) : Battery :=
  mkBattery
    (port b) (baud_rate b) (role b) (type b) (poll_interval b) (online b)
    (hardware_version b) (cell_count b) (max_battery_charge_current b)
    (max_battery_discharge_current b) (has_settings b)
    (soc_calc_capacity_remain b) (soc_calc_capacity_remain_lasttime b) v
    (soc_calc b) (soc b) (charge_fet b) (discharge_fet b) (balance_fet b)
    (block_because_disconnect b) (control_charge_current b)
    (control_discharge_current b) (control_allow_charge b)
    (control_allow_discharge b) (custom_field b) (voltage b) (current b)
    (current_avg b) (current_avg_lst b) (current_corrected b)
    (capacity_remain b) (capacity b) (cycles b) (total_ah_drawn b)
    (production b) (protection b) (version b) (time_to_soc_update b)
    (temp_sensors b) (temp1 b) (temp2 b) (temp3 b) (temp4 b) (temp_mos b)
    (cells b) (control_voltage b) (soc_reset_requested b)
    (soc_reset_last_reached b) (soc_reset_battery_voltage b)
    (max_battery_voltage b) (min_battery_voltage b) (allow_max_voltage b)
    (max_voltage_start_time b) (transition_start_time b) (charge_mode b)
    (charge_mode_debug b) (charge_limitation b) (discharge_limitation b)
    (linear_cvl_last_set b) (linear_ccl_last_set b) (linear_dcl_last_set b)
    (available_callbacks b) (initial_control_voltage b) (cell_min_voltage b)
    (cell_max_voltage b).

Definition set_soc_calc (v : option Q) (b : Battery) : Battery :=
  mkBattery
    (port b) (baud_rate b) (role b) (type b) (poll_interval b) (online b)
    (hardware_version b) (cell_count b) (max_battery_charge_current b)
    (max_battery_discharge_current b) (has_settings b)
    (soc_calc_capacity_remain b) (soc_calc_capacity_remain_lasttime b)
    (soc_calc_reset_starttime b) v (soc b) (charge_fet b) (discharge_fet b)
    (balance_fet b) (block_because_disconnect b) (control_charge_current b)
    (control_discharge_current b) (control_allow_charge b)
    (control_allow_discharge b) (custom_field b) (voltage b) (current b)
    (current_avg b) (current_avg_lst b) (current_corrected b)
    (capacity_remain b) (capacity b) (cycles b) (total_ah_drawn b)
    (production b) (protection b) (version b) (time_to_soc_update b)
    (temp_sensors b) (temp1 b) (temp2 b) (temp3 b) (temp4 b) (temp_mos b)
    (cells b) (control_voltage b) (soc_reset_requested b)
    (soc_reset_last_reached b) (soc_reset_battery_voltage b)
    (max_battery_voltage b) (min_battery_voltage b) (allow_max_voltage b)
    (max_voltage_start_time b) (transition_start_time b) (charge_mode b)
    (charge_mode_debug b) (charge_limitation b) (discharge_limitation b)
    (linear_cvl_last_set b) (linear_ccl_last_set b) (linear_dcl_last_set b)
    (available_callbacks b) (initial_control_voltage b) (cell_min_voltage b)
    (cell_max_voltage b).

Definition set_soc_reset_requested (v : bool) (b : Battery) : Battery :=
  mkBattery
    (port b) (baud_rate b) (role b) (type b) (poll_interval b) (online b)
    (hardware_version b) (cell_count b) (max_battery_charge_current b)
    (max_battery_discharge_current b) (has_settings b)
    (soc_calc_capacity_remain b) (soc_calc_capacity_remain_lasttime b)
    (soc_calc_reset_starttime b) (soc_calc b) (soc b) (charge_fet b)
    (discharge_fet b) (balance_fet b) (block_because_disconnect b)
    (control_charge_current b) (control_discharge_current b)
    (control_allow_charge b) (control_allow_discharge b) (custom_field b)
    (voltage b) (current b) (current_avg b) (current_avg_lst b)
    (current_corrected b) (capacity_remain b) (capacity b) (cycles b)
    (total_ah_drawn b) (production b) (protection b) (version b)
    (time_to_soc_update b) (temp_sensors b) (temp1 b) (temp2 b) (temp3 b)
    (temp4 b) (temp_mos b) (cells b) (control_voltage b) v
    (soc_reset_last_reached b) (soc_reset_battery_voltage b)
    (max_battery_voltage b) (min_battery_voltage b) (allow_max_voltage b)
    (max_voltage_start_time b) (transition_start_time b) (charge_mode b)
    (charge_mode_debug b) (charge_limitation b) (discharge_limitation b)
    (linear_cvl_last_set b) (linear_ccl_last_set b) (linear_dcl_last_set b)
    (available_callbacks b) (initial_control_voltage b) (cell_min_voltage b)
    (cell_max_voltage b).

Definition set_soc_reset_battery_voltage (v : option Q) (b : Battery) : Battery :=
  mkBattery
    (port b) (baud_rate b) (role b) (type b) (poll_interval b) (online b)
    (hardware_version b) (cell_count b) (max_battery_charge_current b)
    (max_battery_discharge_current b) (has_settings b)
    (soc_calc_capacity_remain b) (soc_calc_capacity_remain_lasttime b)
    (soc_calc_reset_starttime b) (soc_calc b) (soc b) (charge_fet b)
    (discharge_fet b) (balance_fet b) (block_because_disconnect b)
    (control_charge_current b) (control_discharge_current b)
    (control_allow_charge b) (control_allow_discharge b) (custom_field b)
    (voltage b) (current b) (current_avg b) (current_avg_lst b)
    (current_corrected b) (capacity_remain b) (capacity b) (cycles b)
    (total_ah_drawn b) (production b) (protection b) (version b)
    (time_to_soc_update b) (temp_sensors b) (temp1 b) (temp2 b) (temp3 b)
    (temp4 b) (temp_mos b) (cells b) (control_voltage b)
    (soc_reset_requested b) (soc_reset_last_reached b) v
    (max_battery_voltage b) (min_battery_voltage b) (allow_max_voltage b)
    (max_voltage_start_time b) (transition_start_time b) (charge_mode b)
    (charge_mode_debug b) (charge_limitation b) (discharge_limitation b)
    (linear_cvl_last_set b) (linear_ccl_last_set b) (linear_dcl_last_set b)
    (available_callbacks b) (initial_control_voltage b) (cell_min_voltage b)
    (cell_max_voltage b).

Definition set_max_battery_voltage (v : option Q) (b : Battery) : Battery :=
  mkBattery
    (port b) (baud_rate b) (role b) (type b) (poll_interval b) (online b)
    (hardware_version b) (cell_count b) (max_battery_charge_current b)
    (max_battery_discharge_current b) (has_settings b)
    (soc_calc_capacity_remain b) (soc_calc_capacity_remain_lasttime b)
    (soc_calc_reset_starttime b) (soc_calc b) (soc b) (charge_fet b)
    (discharge_fet b) (balance_fet b) (block_because_disconnect b)
    (control_charge_current b) (control_discharge_current b)
    (control_allow_charge b) (control_allow_discharge b) (custom_field b)
    (voltage b) (current b) (current_avg b) (current_avg_lst b)
    (current_corrected b) (capacity_remain b) (capacity b) (cycles b)
    (total_ah_drawn b) (production b) (protection b) (version b)
    (time_to_soc_update b) (temp_sensors b) (temp1 b) (temp2 b) (temp3 b)
    (temp4 b) (temp_mos b) (cells b) (control_voltage b)
    (soc_reset_requested b) (soc_reset_last_reached b)
    (soc_reset_battery_voltage b) v (min_battery_voltage b)
    (allow_max_voltage b) (max_voltage_start_time b) (transition_start_time
    b) (charge_mode b) (charge_mode_debug b) (charge_limitation b)
    (discharge_limitation b) (linear_cvl_last_set b) (linear_ccl_last_set b)
    (linear_dcl_last_set b) (available_callbacks b) (initial_control_voltage
    b) (cell_min_voltage b) (cell_max_voltage b).

Definition set_min_battery_voltage (v : option Q) (b : Battery) : Battery :=
  mkBattery
    (port b) (baud_rate b) (role b) (type b) (poll_interval b) (online b)
    (hardware_version b) (cell_count b) (max_battery_charge_current b)
    (max_battery_discharge_current b) (has_settings b)
    (soc_calc_capacity_remain b) (soc_calc_capacity_remain_lasttime b)
    (soc_calc_reset_starttime b) (soc_calc b) (soc b) (charge_fet b)
    (discharge_fet b) (balance_fet b) (block_because_disconnect b)
    (control_charge_current b) (control_discharge_current b)
    (control_allow_charge b) (control_allow_discharge b) (custom_field b)
    (voltage b) (current b) (current_avg b) (current_avg_lst b)
    (current_corrected b) (capacity_remain b) (capacity b) (cycles b)
    (total_ah_drawn b) (production b) (protection b) (version b)
    (time_to_soc_update b) (temp_sensors b) (temp1 b) (temp2 b) (temp3 b)
    (temp4 b) (temp_mos b) (cells b) (control_voltage b)
    (soc_reset_requested b) (soc_reset_last_reached b)
    (soc_reset_battery_voltage b) (max_battery_voltage b) v
    (allow_max_voltage b) (max_voltage_start_time b) (transition_start_time
    b) (charge_mode b) (charge_mode_debug b) (charge_limitation b)
    (discharge_limitation b) (linear_cvl_last_set b) (linear_ccl_last_set b)
    (linear_dcl_last_set b) (available_callbacks b) (initial_control_voltage
    b) (cell_min_voltage b) (cell_max_voltage b).

Definition set_max_voltage_start_time (v : option Z) (b : Battery) : Battery :=
  mkBattery
    (port b) (baud_rate b) (role b) (type b) (poll_interval b) (online b)
    (hardware_version b) (cell_count b) (max_battery_charge_current b)
    (max_battery_discharge_current b) (has_settings b)
    (soc_calc_capacity_remain b) (soc_calc_capacity_remain_lasttime b)
    (soc_calc_reset_starttime b) (soc_calc b) (soc b) (charge_fet b)
    (discharge_fet b) (balance_fet b) (block_because_disconnect b)
    (control_charge_current b) (control_discharge_current b)
    (control_allow_charge b) (control_allow_discharge b) (custom_field b)
    (voltage b) (current b) (current_avg b) (current_avg_lst b)
    (current_corrected b) (capacity_remain b) (capacity b) (cycles b)
    (total_ah_drawn b) (production b) (protection b) (version b)
    (time_to_soc_update b) (temp_sensors b) (temp1 b) (temp2 b) (temp3 b)
    (temp4 b) (temp_mos b) (cells b) (control_voltage b)
    (soc_reset_requested b) (soc_reset_last_reached b)
    (soc_reset_battery_voltage b) (max_battery_voltage b)
    (min_battery_voltage b) (allow_max_voltage b) v (transition_start_time
    b) (charge_mode b) (charge_mode_debug b) (charge_limitation b)
    (discharge_limitation b) (linear_cvl_last_set b) (linear_ccl_last_set b)
    (linear_dcl_last_set b) (available_callbacks b) (initial_control_voltage
    b) (cell_min_voltage b) (cell_max_voltage b).

Definition set_allow_max_voltage (v : bool) (b : Battery) : Battery :=
  mkBattery
    (port b) (baud_rate b) (role b) (type b) (poll_interval b) (online b)
    (hardware_version b) (cell_count b) (max_battery_charge_current b)
    (max_battery_discharge_current b) (has_settings b)
    (soc_calc_capacity_remain b) (soc_calc_capacity_remain_lasttime b)
    (soc_calc_reset_starttime b) (soc_calc b) (soc b) (charge_fet b)
    (discharge_fet b) (balance_fet b) (block_because_disconnect b)
    (control_charge_current b) (control_discharge_current b)
    (control_allow_charge b) (control_allow_discharge b) (custom_field b)
    (voltage b) (current b) (current_avg b) (current_avg_lst b)
    (current_corrected b) (capacity_remain b) (capacity b) (cycles b)
    (total_ah_drawn b) (production b) (protection b) (version b)
    (time_to_soc_update b) (temp_sensors b) (temp1 b) (temp2 b) (temp3 b)
    (temp4 b) (temp_mos b) (cells b) (control_voltage b)
    (soc_reset_requested b) (soc_reset_last_reached b)
    (soc_reset_battery_voltage b) (max_battery_voltage b)
    (min_battery_voltage b) v (max_voltage_start_time b)
    (transition_start_time b) (charge_mode b) (charge_mode_debug b)
    (charge_limitation b) (discharge_limitation b) (linear_cvl_last_set b)
    (linear_ccl_last_set b) (linear_dcl_last_set b) (available_callbacks b)
    (initial_control_voltage b) (cell_min_voltage b) (cell_max_voltage b).

Definition set_control_voltage (v : option Q) (b : Battery) : Battery :=
  mkBattery
    (port b) (baud_rate b) (role b) (type b) (poll_interval b) (online b)
    (hardware_version b) (cell_count b) (max_battery_charge_current b)
    (max_battery_discharge_current b) (has_settings b)
    (soc_calc_capacity_remain b) (soc_calc_capacity_remain_lasttime b)
    (soc_calc_reset_starttime b) (soc_calc b) (soc b) (charge_fet b)
    (discharge_fet b) (balance_fet b) (block_because_disconnect b)
    (control_charge_current b) (control_discharge_current b)
    (control_allow_charge b) (control_allow_discharge b) (custom_field b)
    (voltage b) (current b) (current_avg b) (current_avg_lst b)
    (current_corrected b) (capacity_remain b) (capacity b) (cycles b)
    (total_ah_drawn b) (production b) (protection b) (version b)
    (time_to_soc_update b) (temp_sensors b) (temp1 b) (temp2 b) (temp3 b)
    (temp4 b) (temp_mos b) (cells b) v (soc_reset_requested b)
    (soc_reset_last_reached b) (soc_reset_battery_voltage b)
    (max_battery_voltage b) (min_battery_voltage b) (allow_max_voltage b)
    (max_voltage_start_time b) (transition_start_time b) (charge_mode b)
    (charge_mode_debug b) (charge_limitation b) (discharge_limitation b)
    (linear_cvl_last_set b) (linear_ccl_last_set b) (linear_dcl_last_set b)
    (available_callbacks b) (initial_control_voltage b) (cell_min_voltage b)
    (cell_max_voltage b).

Definition set_charge_mode (v : option string) (b : Battery) : Battery :=
  mkBattery
    (port b) (baud_rate b) (role b) (type b) (poll_interval b) (online b)
    (hardware_version b) (cell_count b) (max_battery_charge_current b)
    (max_battery_discharge_current b) (has_settings b)
    (soc_calc_capacity_remain b) (soc_calc_capacity_remain_lasttime b)
    (soc_calc_reset_starttime b) (soc_calc b) (soc b) (charge_fet b)
    (discharge_fet b) (balance_fet b) (block_because_disconnect b)
    (control_charge_current b) (control_discharge_current b)
    (control_allow_charge b) (control_allow_discharge b) (custom_field b)
    (voltage b) (current b) (current_avg b) (current_avg_lst b)
    (current_corrected b) (capacity_remain b) (capacity b) (cycles b)
    (total_ah_drawn b) (production b) (protection b) (version b)
    (time_to_soc_update b) (temp_sensors b) (temp1 b) (temp2 b) (temp3 b)
    (temp4 b) (temp_mos b) (cells b) (control_voltage b)
    (soc_reset_requested b) (soc_reset_last_reached b)
    (soc_reset_battery_voltage b) (max_battery_voltage b)
    (min_battery_voltage b) (allow_max_voltage b) (max_voltage_start_time b)
    (transition_start_time b) v (charge_mode_debug b) (charge_limitation b)
    (discharge_limitation b) (linear_cvl_last_set b) (linear_ccl_last_set b)
    (linear_dcl_last_set b) (available_callbacks b) (initial_control_voltage
    b) (cell_min_voltage b) (cell_max_voltage b).

Definition set_soc_reset_last_reached (v : Z) (b : Battery) : Battery :=
  mkBattery
    (port b) (baud_rate b) (role b) (type b) (poll_interval b) (online b)
    (hardware_version b) (cell_count b) (max_battery_charge_current b)
    (max_battery_discharge_current b) (has_settings b)
    (soc_calc_capacity_remain b) (soc_calc_capacity_remain_lasttime b)
    (soc_calc_reset_starttime b) (soc_calc b) (soc b) (charge_fet b)
    (discharge_fet b) (balance_fet b) (block_because_disconnect b)
    (control_charge_current b) (control_discharge_current b)
    (control_allow_charge b) (control_allow_discharge b) (custom_field b)
    (voltage b) (current b) (current_avg b) (current_avg_lst b)
    (current_corrected b) (capacity_remain b) (capacity b) (cycles b)
    (total_ah_drawn b) (production b) (protection b) (version b)
    (time_to_soc_update b) (temp_sensors b) (temp1 b) (temp2 b) (temp3 b)
    (temp4 b) (temp_mos b) (cells b) (control_voltage b)
    (soc_reset_requested b) v (soc_reset_battery_voltage b)
    (max_battery_voltage b) (min_battery_voltage b) (allow_max_voltage b)
    (max_voltage_start_time b) (transition_start_time b) (charge_mode b)
    (charge_mode_debug b) (charge_limitation b) (discharge_limitation b)
    (linear_cvl_last_set b) (linear_ccl_last_set b) (linear_dcl_last_set b)
    (available_callbacks b) (initial_control_voltage b) (cell_min_voltage b)
    (cell_max_voltage b).

Definition set_transition_start_time (v : option Z) (b : Battery) : Battery :=
  mkBattery
    (port b) (baud_rate b) (role b) (type b) (poll_interval b) (online b)
    (hardware_version b) (cell_count b) (max_battery_charge_current b)
    (max_battery_discharge_current b) (has_settings b)
    (soc_calc_capacity_remain b) (soc_calc_capacity_remain_lasttime b)
    (soc_calc_reset_starttime b) (soc_calc b) (soc b) (charge_fet b)
    (discharge_fet b) (balance_fet b) (block_because_disconnect b)
    (control_charge_current b) (control_discharge_current b)
    (control_allow_charge b) (control_allow_discharge b) (custom_field b)
    (voltage b) (current b) (current_avg b) (current_avg_lst b)
    (current_corrected b) (capacity_remain b) (capacity b) (cycles b)
    (total_ah_drawn b) (production b) (protection b) (version b)
    (time_to_soc_update b) (temp_sensors b) (temp1 b) (temp2 b) (temp3 b)
    (temp4 b) (temp_mos b) (cells b) (control_voltage b)
    (soc_reset_requested b) (soc_reset_last_reached b)
    (soc_reset_battery_voltage b) (max_battery_voltage b)
    (min_battery_voltage b) (allow_max_voltage b) (max_voltage_start_time b)
    v (charge_mode b) (charge_mode_debug b) (charge_limitation b)
    (discharge_limitation b) (linear_cvl_last_set b) (linear_ccl_last_set b)
    (linear_dcl_last_set b) (available_callbacks b) (initial_control_voltage
    b) (cell_min_voltage b) (cell_max_voltage b).

Definition set_initial_control_voltage (v : option Q) (b : Battery) : Battery :=
  mkBattery
    (port b) (baud_rate b) (role b) (type b) (poll_interval b) (online b)
    (hardware_version b) (cell_count b) (max_battery_charge_current b)
    (max_battery_discharge_current b) (has_settings b)
    (soc_calc_capacity_remain b) (soc_calc_capacity_remain_lasttime b)
    (soc_calc_reset_starttime b) (soc_calc b) (soc b) (charge_fet b)
    (discharge_fet b) (balance_fet b) (block_because_disconnect b)
    (control_charge_current b) (control_discharge_current b)
    (control_allow_charge b) (control_allow_discharge b) (custom_field b)
    (voltage b) (current b) (current_avg b) (current_avg_lst b)
    (current_corrected b) (capacity_remain b) (capacity b) (cycles b)
    (total_ah_drawn b) (production b) (protection b) (version b)
    (time_to_soc_update b) (temp_sensors b) (temp1 b) (temp2 b) (temp3 b)
    (temp4 b) (temp_mos b) (cells b) (control_voltage b)
    (soc_reset_requested b) (soc_reset_last_reached b)
    (soc_reset_battery_voltage b) (max_battery_voltage b)
    (min_battery_voltage b) (allow_max_voltage b) (max_voltage_start_time b)
    (transition_start_time b) (charge_mode b) (charge_mode_debug b)
    (charge_limitation b) (discharge_limitation b) (linear_cvl_last_set b)
    (linear_ccl_last_set b) (linear_dcl_last_set b) (available_callbacks b)
    v (cell_min_voltage b) (cell_max_voltage b).

Definition set_linear_cvl_last_set (v : Z) (b : Battery) : Battery :=
  mkBattery
    (port b) (baud_rate b) (role b) (type b) (poll_interval b) (online b)
    (hardware_version b) (cell_count b) (max_battery_charge_current b)
    (max_battery_discharge_current b) (has_settings b)
    (soc_calc_capacity_remain b) (soc_calc_capacity_remain_lasttime b)
    (soc_calc_reset_starttime b) (soc_calc b) (soc b) (charge_fet b)
    (discharge_fet b) (balance_fet b) (block_because_disconnect b)
    (control_charge_current b) (control_discharge_current b)
    (control_allow_charge b) (control_allow_discharge b) (custom_field b)
    (voltage b) (current b) (current_avg b) (current_avg_lst b)
    (current_corrected b) (capacity_remain b) (capacity b) (cycles b)
    (total_ah_drawn b) (production b) (protection b) (version b)
    (time_to_soc_update b) (temp_sensors b) (temp1 b) (temp2 b) (temp3 b)
    (temp4 b) (temp_mos b) (cells b) (control_voltage b)
    (soc_reset_requested b) (soc_reset_last_reached b)
    (soc_reset_battery_voltage b) (max_battery_voltage b)
    (min_battery_voltage b) (allow_max_voltage b) (max_voltage_start_time b)
    (transition_start_time b) (charge_mode b) (charge_mode_debug b)
    (charge_limitation b) (discharge_limitation b) v (linear_ccl_last_set b)
    (linear_dcl_last_set b) (available_callbacks b) (initial_control_voltage
    b) (cell_min_voltage b) (cell_max_voltage b).

Definition set_charge_mode_debug (v : string) (b : Battery) : Battery :=
  mkBattery
    (port b) (baud_rate b) (role b) (type b) (poll_interval b) (online b)
    (hardware_version b) (cell_count b) (max_battery_charge_current b)
    (max_battery_discharge_current b) (has_settings b)
    (soc_calc_capacity_remain b) (soc_calc_capacity_remain_lasttime b)
    (soc_calc_reset_starttime b) (soc_calc b) (soc b) (charge_fet b)
    (discharge_fet b) (balance_fet b) (block_because_disconnect b)
    (control_charge_current b) (control_discharge_current b)
    (control_allow_charge b) (control_allow_discharge b) (custom_field b)
    (voltage b) (current b) (current_avg b) (current_avg_lst b)
    (current_corrected b) (capacity_remain b) (capacity b) (cycles b)
    (total_ah_drawn b) (production b) (protection b) (version b)
    (time_to_soc_update b) (temp_sensors b) (temp1 b) (temp2 b) (temp3 b)
    (temp4 b) (temp_mos b) (cells b) (control_voltage b)
    (soc_reset_requested b) (soc_reset_last_reached b)
    (soc_reset_battery_voltage b) (max_battery_voltage b)
    (min_battery_voltage b) (allow_max_voltage b) (max_voltage_start_time b)
    (transition_start_time b) (charge_mode b) v (charge_limitation b)
    (discharge_limitation b) (linear_cvl_last_set b) (linear_ccl_last_set b)
    (linear_dcl_last_set b) (available_callbacks b) (initial_control_voltage
    b) (cell_min_voltage b) (cell_max_voltage b).

Definition set_linear_ccl_last_set (v : Z) (b : Battery) : Battery :=
  mkBattery
    (port b) (baud_rate b) (role b) (type b) (poll_interval b) (online b)
    (hardware_version b) (cell_count b) (max_battery_charge_current b)
    (max_battery_discharge_current b) (has_settings b)
    (soc_calc_capacity_remain b) (soc_calc_capacity_remain_lasttime b)
    (soc_calc_reset_starttime b) (soc_calc b) (soc b) (charge_fet b)
    (discharge_fet b) (balance_fet b) (block_because_disconnect b)
    (control_charge_current b) (control_discharge_current b)
    (control_allow_charge b) (control_allow_discharge b) (custom_field b)
    (voltage b) (current b) (current_avg b) (current_avg_lst b)
    (current_corrected b) (capacity_remain b) (capacity b) (cycles b)
    (total_ah_drawn b) (production b) (protection b) (version b)
    (time_to_soc_update b) (temp_sensors b) (temp1 b) (temp2 b) (temp3 b)
    (temp4 b) (temp_mos b) (cells b) (control_voltage b)
    (soc_reset_requested b) (soc_reset_last_reached b)
    (soc_reset_battery_voltage b) (max_battery_voltage b)
    (min_battery_voltage b) (allow_max_voltage b) (max_voltage_start_time b)
    (transition_start_time b) (charge_mode b) (charge_mode_debug b)
    (charge_limitation b) (discharge_limitation b) (linear_cvl_last_set b) v
    (linear_dcl_last_set b) (available_callbacks b) (initial_control_voltage
    b) (cell_min_voltage b) (cell_max_voltage b).

Definition set_control_charge_current (v : option Q) (b : Battery) : Battery :=
  mkBattery
    (port b) (baud_rate b) (role b) (type b) (poll_interval b) (online b)
    (hardware_version b) (cell_count b) (max_battery_charge_current b)
    (max_battery_discharge_current b) (has_settings b)
    (soc_calc_capacity_remain b) (soc_calc_capacity_remain_lasttime b)
    (soc_calc_reset_starttime b) (soc_calc b) (soc b) (charge_fet b)
    (discharge_fet b) (balance_fet b) (block_because_disconnect b) v
    (control_discharge_current b) (control_allow_charge b)
    (control_allow_discharge b) (custom_field b) (voltage b) (current b)
    (current_avg b) (current_avg_lst b) (current_corrected b)
    (capacity_remain b) (capacity b) (cycles b) (total_ah_drawn b)
    (production b) (protection b) (version b) (time_to_soc_update b)
    (temp_sensors b) (temp1 b) (temp2 b) (temp3 b) (temp4 b) (temp_mos b)
    (cells b) (control_voltage b) (soc_reset_requested b)
    (soc_reset_last_reached b) (soc_reset_battery_voltage b)
    (max_battery_voltage b) (min_battery_voltage b) (allow_max_voltage b)
    (max_voltage_start_time b) (transition_start_time b) (charge_mode b)
    (charge_mode_debug b) (charge_limitation b) (discharge_limitation b)
    (linear_cvl_last_set b) (linear_ccl_last_set b) (linear_dcl_last_set b)
    (available_callbacks b) (initial_control_voltage b) (cell_min_voltage b)
    (cell_max_voltage b).

Definition set_charge_limitation (v : option string) (b : Battery) : Battery :=
  mkBattery
    (port b) (baud_rate b) (role b) (type b) (poll_interval b) (online b)
    (hardware_version b) (cell_count b) (max_battery_charge_current b)
    (max_battery_discharge_current b) (has_settings b)
    (soc_calc_capacity_remain b) (soc_calc_capacity_remain_lasttime b)
    (soc_calc_reset_starttime b) (soc_calc b) (soc b) (charge_fet b)
    (discharge_fet b) (balance_fet b) (block_because_disconnect b)
    (control_charge_current b) (control_discharge_current b)
    (control_allow_charge b) (control_allow_discharge b) (custom_field b)
    (voltage b) (current b) (current_avg b) (current_avg_lst b)
    (current_corrected b) (capacity_remain b) (capacity b) (cycles b)
    (total_ah_drawn b) (production b) (protection b) (version b)
    (time_to_soc_update b) (temp_sensors b) (temp1 b) (temp2 b) (temp3 b)
    (temp4 b) (temp_mos b) (cells b) (control_voltage b)
    (soc_reset_requested b) (soc_reset_last_reached b)
    (soc_reset_battery_voltage b) (max_battery_voltage b)
    (min_battery_voltage b) (allow_max_voltage b) (max_voltage_start_time b)
    (transition_start_time b) (charge_mode b) (charge_mode_debug b) v
    (discharge_limitation b) (linear_cvl_last_set b) (linear_ccl_last_set b)
    (linear_dcl_last_set b) (available_callbacks b) (initial_control_voltage
    b) (cell_min_voltage b) (cell_max_voltage b).

Definition set_control_allow_charge (v : option bool) (b : Battery) : Battery :=
  mkBattery
    (port b) (baud_rate b) (role b) (type b) (poll_interval b) (online b)
    (hardware_version b) (cell_count b) (max_battery_charge_current b)
    (max_battery_discharge_current b) (has_settings b)
    (soc_calc_capacity_remain b) (soc_calc_capacity_remain_lasttime b)
    (soc_calc_reset_starttime b) (soc_calc b) (soc b) (charge_fet b)
    (discharge_fet b) (balance_fet b) (block_because_disconnect b)
    (control_charge_current b) (control_discharge_current b) v
    (control_allow_discharge b) (custom_field b) (voltage b) (current b)
    (current_avg b) (current_avg_lst b) (current_corrected b)
    (capacity_remain b) (capacity b) (cycles b) (total_ah_drawn b)
    (production b) (protection b) (version b) (time_to_soc_update b)
    (temp_sensors b) (temp1 b) (temp2 b) (temp3 b) (temp4 b) (temp_mos b)
    (cells b) (control_voltage b) (soc_reset_requested b)
    (soc_reset_last_reached b) (soc_reset_battery_voltage b)
    (max_battery_voltage b) (min_battery_voltage b) (allow_max_voltage b)
    (max_voltage_start_time b) (transition_start_time b) (charge_mode b)
    (charge_mode_debug b) (charge_limitation b) (discharge_limitation b)
    (linear_cvl_last_set b) (linear_ccl_last_set b) (linear_dcl_last_set b)
    (available_callbacks b) (initial_control_voltage b) (cell_min_voltage b)
    (cell_max_voltage b).

Definition set_linear_dcl_last_set (v : Z) (b : Battery) : Battery :=
  mkBattery
    (port b) (baud_rate b) (role b) (type b) (poll_interval b) (online b)
    (hardware_version b) (cell_count b) (max_battery_charge_current b)
    (max_battery_discharge_current b) (has_settings b)
    (soc_calc_capacity_remain b) (soc_calc_capacity_remain_lasttime b)
    (soc_calc_reset_starttime b) (soc_calc b) (soc b) (charge_fet b)
    (discharge_fet b) (balance_fet b) (block_because_disconnect b)
    (control_charge_current b) (control_discharge_current b)
    (control_allow_charge b) (control_allow_discharge b) (custom_field b)
    (voltage b) (current b) (current_avg b) (current_avg_lst b)
    (current_corrected b) (capacity_remain b) (capacity b) (cycles b)
    (total_ah_drawn b) (production b) (protection b) (version b)
    (time_to_soc_update b) (temp_sensors b) (temp1 b) (temp2 b) (temp3 b)
    (temp4 b) (temp_mos b) (cells b) (control_voltage b)
    (soc_reset_requested b) (soc_reset_last_reached b)
    (soc_reset_battery_voltage b) (max_battery_voltage b)
    (min_battery_voltage b) (allow_max_voltage b) (max_voltage_start_time b)
    (transition_start_time b) (charge_mode b) (charge_mode_debug b)
    (charge_limitation b) (discharge_limitation b) (linear_cvl_last_set b)
    (linear_ccl_last_set b) v (available_callbacks b)
    (initial_control_voltage b) (cell_min_voltage b) (cell_max_voltage b).

Definition set_control_discharge_current (v : option Q) (b : Battery) : Battery :=
  mkBattery
    (port b) (baud_rate b) (role b) (type b) (poll_interval b) (online b)
    (hardware_version b) (cell_count b) (max_battery_charge_current b)
    (max_battery_discharge_current b) (has_settings b)
    (soc_calc_capacity_remain b) (soc_calc_capacity_remain_lasttime b)
    (soc_calc_reset_starttime b) (soc_calc b) (soc b) (charge_fet b)
    (discharge_fet b) (balance_fet b) (block_because_disconnect b)
    (control_charge_current b) v (control_allow_charge b)
    (control_allow_discharge b) (custom_field b) (voltage b) (current b)
    (current_avg b) (current_avg_lst b) (current_corrected b)
    (capacity_remain b) (capacity b) (cycles b) (total_ah_drawn b)
    (production b) (protection b) (version b) (time_to_soc_update b)
    (temp_sensors b) (temp1 b) (temp2 b) (temp3 b) (temp4 b) (temp_mos b)
    (cells b) (control_voltage b) (soc_reset_requested b)
    (soc_reset_last_reached b) (soc_reset_battery_voltage b)
    (max_battery_voltage b) (min_battery_voltage b) (allow_max_voltage b)
    (max_voltage_start_time b) (transition_start_time b) (charge_mode b)
    (charge_mode_debug b) (charge_limitation b) (discharge_limitation b)
    (linear_cvl_last_set b) (linear_ccl_last_set b) (linear_dcl_last_set b)
    (available_callbacks b) (initial_control_voltage b) (cell_min_voltage b)
    (cell_max_voltage b).

Definition set_discharge_limitation (v : option string) (b : Battery) : Battery :=
  mkBattery
    (port b) (baud_rate b) (role b) (type b) (poll_interval b) (online b)
    (hardware_version b) (cell_count b) (max_battery_charge_current b)
    (max_battery_discharge_current b) (has_settings b)
    (soc_calc_capacity_remain b) (soc_calc_capacity_remain_lasttime b)
    (soc_calc_reset_starttime b) (soc_calc b) (soc b) (charge_fet b)
    (discharge_fet b) (balance_fet b) (block_because_disconnect b)
    (control_charge_current b) (control_discharge_current b)
    (control_allow_charge b) (control_allow_discharge b) (custom_field b)
    (voltage b) (current b) (current_avg b) (current_avg_lst b)
    (current_corrected b) (capacity_remain b) (capacity b) (cycles b)
    (total_ah_drawn b) (production b) (protection b) (version b)
    (time_to_soc_update b) (temp_sensors b) (temp1 b) (temp2 b) (temp3 b)
    (temp4 b) (temp_mos b) (cells b) (control_voltage b)
    (soc_reset_requested b) (soc_reset_last_reached b)
    (soc_reset_battery_voltage b) (max_battery_voltage b)
    (min_battery_voltage b) (allow_max_voltage b) (max_voltage_start_time b)
    (transition_start_time b) (charge_mode b) (charge_mode_debug b)
    (charge_limitation b) v (linear_cvl_last_set b) (linear_ccl_last_set b)
    (linear_dcl_last_set b) (available_callbacks b) (initial_control_voltage
    b) (cell_min_voltage b) (cell_max_voltage b).

Definition set_control_allow_discharge (v : option bool) (b : Battery) : Battery :=
  mkBattery
    (port b) (baud_rate b) (role b) (type b) (poll_interval b) (online b)
    (hardware_version b) (cell_count b) (max_battery_charge_current b)
    (max_battery_discharge_current b) (has_settings b)
    (soc_calc_capacity_remain b) (soc_calc_capacity_remain_lasttime b)
    (soc_calc_reset_starttime b) (soc_calc b) (soc b) (charge_fet b)
    (discharge_fet b) (balance_fet b) (block_because_disconnect b)
    (control_charge_current b) (control_discharge_current b)
    (control_allow_charge b) v (custom_field b) (voltage b) (current b)
    (current_avg b) (current_avg_lst b) (current_corrected b)
    (capacity_remain b) (capacity b) (cycles b) (total_ah_drawn b)
    (production b) (protection b) (version b) (time_to_soc_update b)
    (temp_sensors b) (temp1 b) (temp2 b) (temp3 b) (temp4 b) (temp_mos b)
    (cells b) (control_voltage b) (soc_reset_requested b)
    (soc_reset_last_reached b) (soc_reset_battery_voltage b)
    (max_battery_voltage b) (min_battery_voltage b) (allow_max_voltage b)
    (max_voltage_start_time b) (transition_start_time b) (charge_mode b)
    (charge_mode_debug b) (charge_limitation b) (discharge_limitation b)
    (linear_cvl_last_set b) (linear_ccl_last_set b) (linear_dcl_last_set b)
    (available_callbacks b) (initial_control_voltage b) (cell_min_voltage b)
    (cell_max_voltage b).

(** Assignments made by the driver ([get_settings], [refresh_data]) and by
    the supervisor that latches a disconnect. *)
Definition set_cell_count (v : option Z) (b : Battery) : Battery :=
  mkBattery
    (port b) (baud_rate b) (role b) (type b) (poll_interval b) (online b)
    (hardware_version b) v (max_battery_charge_current b)
    (max_battery_discharge_current b) (has_settings b)
    (soc_calc_capacity_remain b) (soc_calc_capacity_remain_lasttime b)
    (soc_calc_reset_starttime b) (soc_calc b) (soc b) (charge_fet b)
    (discharge_fet b) (balance_fet b) (block_because_disconnect b)
    (control_charge_current b) (control_discharge_current b)
    (control_allow_charge b) (control_allow_discharge b) (custom_field b)
    (voltage b) (current b) (current_avg b) (current_avg_lst b)
    (current_corrected b) (capacity_remain b) (capacity b) (cycles b)
    (total_ah_drawn b) (production b) (protection b) (version b)
    (time_to_soc_update b) (temp_sensors b) (temp1 b) (temp2 b) (temp3 b)
    (temp4 b) (temp_mos b) (cells b) (control_voltage b)
    (soc_reset_requested b) (soc_reset_last_reached b)
    (soc_reset_battery_voltage b) (max_battery_voltage b)
    (min_battery_voltage b) (allow_max_voltage b) (max_voltage_start_time b)
    (transition_start_time b) (charge_mode b) (charge_mode_debug b)
    (charge_limitation b) (discharge_limitation b) (linear_cvl_last_set b)
    (linear_ccl_last_set b) (linear_dcl_last_set b) (available_callbacks b)
    (initial_control_voltage b) (cell_min_voltage b) (cell_max_voltage b).

Definition set_capacity (v : option Q) (b : Battery) : Battery :=
  mkBattery
    (port b) (baud_rate b) (role b) (type b) (poll_interval b) (online b)
    (hardware_version b) (cell_count b) (max_battery_charge_current b)
    (max_battery_discharge_current b) (has_settings b)
    (soc_calc_capacity_remain b) (soc_calc_capacity_remain_lasttime b)
    (soc_calc_reset_starttime b) (soc_calc b) (soc b) (charge_fet b)
    (discharge_fet b) (balance_fet b) (block_because_disconnect b)
    (control_charge_current b) (control_discharge_current b)
    (control_allow_charge b) (control_allow_discharge b) (custom_field b)
    (voltage b) (current b) (current_avg b) (current_avg_lst b)
    (current_corrected b) (capacity_remain b) v (cycles b) (total_ah_drawn
    b) (production b) (protection b) (version b) (time_to_soc_update b)
    (temp_sensors b) (temp1 b) (temp2 b) (temp3 b) (temp4 b) (temp_mos b)
    (cells b) (control_voltage b) (soc_reset_requested b)
    (soc_reset_last_reached b) (soc_reset_battery_voltage b)
    (max_battery_voltage b) (min_battery_voltage b) (allow_max_voltage b)
    (max_voltage_start_time b) (transition_start_time b) (charge_mode b)
    (charge_mode_debug b) (charge_limitation b) (discharge_limitation b)
    (linear_cvl_last_set b) (linear_ccl_last_set b) (linear_dcl_last_set b)
    (available_callbacks b) (initial_control_voltage b) (cell_min_voltage b)
    (cell_max_voltage b).

Definition set_cells (v : list Cell) (b : Battery) : Battery :=
  mkBattery
    (port b) (baud_rate b) (role b) (type b) (poll_interval b) (online b)
    (hardware_version b) (cell_count b) (max_battery_charge_current b)
    (max_battery_discharge_current b) (has_settings b)
    (soc_calc_capacity_remain b) (soc_calc_capacity_remain_lasttime b)
    (soc_calc_reset_starttime b) (soc_calc b) (soc b) (charge_fet b)
    (discharge_fet b) (balance_fet b) (block_because_disconnect b)
    (control_charge_current b) (control_discharge_current b)
    (control_allow_charge b) (control_allow_discharge b) (custom_field b)
    (voltage b) (current b) (current_avg b) (current_avg_lst b)
    (current_corrected b) (capacity_remain b) (capacity b) (cycles b)
    (total_ah_drawn b) (production b) (protection b) (version b)
    (time_to_soc_update b) (temp_sensors b) (temp1 b) (temp2 b) (temp3 b)
    (temp4 b) (temp_mos b) v (control_voltage b) (soc_reset_requested b)
    (soc_reset_last_reached b) (soc_reset_battery_voltage b)
    (max_battery_voltage b) (min_battery_voltage b) (allow_max_voltage b)
    (max_voltage_start_time b) (transition_start_time b) (charge_mode b)
    (charge_mode_debug b) (charge_limitation b) (discharge_limitation b)
    (linear_cvl_last_set b) (linear_ccl_last_set b) (linear_dcl_last_set b)
    (available_callbacks b) (initial_control_voltage b) (cell_min_voltage b)
    (cell_max_voltage b).

Definition set_current (v : option Q) (b : Battery) : Battery :=
  mkBattery
    (port b) (baud_rate b) (role b) (type b) (poll_interval b) (online b)
    (hardware_version b) (cell_count b) (max_battery_charge_current b)
    (max_battery_discharge_current b) (has_settings b)
    (soc_calc_capacity_remain b) (soc_calc_capacity_remain_lasttime b)
    (soc_calc_reset_starttime b) (soc_calc b) (soc b) (charge_fet b)
    (discharge_fet b) (balance_fet b) (block_because_disconnect b)
    (control_charge_current b) (control_discharge_current b)
    (control_allow_charge b) (control_allow_discharge b) (custom_field b)
    (voltage b) v (current_avg b) (current_avg_lst b) (current_corrected b)
    (capacity_remain b) (capacity b) (cycles b) (total_ah_drawn b)
    (production b) (protection b) (version b) (time_to_soc_update b)
    (temp_sensors b) (temp1 b) (temp2 b) (temp3 b) (temp4 b) (temp_mos b)
    (cells b) (control_voltage b) (soc_reset_requested b)
    (soc_reset_last_reached b) (soc_reset_battery_voltage b)
    (max_battery_voltage b) (min_battery_voltage b) (allow_max_voltage b)
    (max_voltage_start_time b) (transition_start_time b) (charge_mode b)
    (charge_mode_debug b) (charge_limitation b) (discharge_limitation b)
    (linear_cvl_last_set b) (linear_ccl_last_set b) (linear_dcl_last_set b)
    (available_callbacks b) (initial_control_voltage b) (cell_min_voltage b)
    (cell_max_voltage b).

Definition set_voltage (v : option Q) (b : Battery) : Battery :=
  mkBattery
    (port b) (baud_rate b) (role b) (type b) (poll_interval b) (online b)
    (hardware_version b) (cell_count b) (max_battery_charge_current b)
    (max_battery_discharge_current b) (has_settings b)
    (soc_calc_capacity_remain b) (soc_calc_capacity_remain_lasttime b)
    (soc_calc_reset_starttime b) (soc_calc b) (soc b) (charge_fet b)
    (discharge_fet b) (balance_fet b) (block_because_disconnect b)
    (control_charge_current b) (control_discharge_current b)
    (control_allow_charge b) (control_allow_discharge b) (custom_field b) v
    (current b) (current_avg b) (current_avg_lst b) (current_corrected b)
    (capacity_remain b) (capacity b) (cycles b) (total_ah_drawn b)
    (production b) (protection b) (version b) (time_to_soc_update b)
    (temp_sensors b) (temp1 b) (temp2 b) (temp3 b) (temp4 b) (temp_mos b)
    (cells b) (control_voltage b) (soc_reset_requested b)
    (soc_reset_last_reached b) (soc_reset_battery_voltage b)
    (max_battery_voltage b) (min_battery_voltage b) (allow_max_voltage b)
    (max_voltage_start_time b) (transition_start_time b) (charge_mode b)
    (charge_mode_debug b) (charge_limitation b) (discharge_limitation b)
    (linear_cvl_last_set b) (linear_ccl_last_set b) (linear_dcl_last_set b)
    (available_callbacks b) (initial_control_voltage b) (cell_min_voltage b)
    (cell_max_voltage b).

Definition set_soc (v : option Q) (b : Battery) : Battery :=
  mkBattery
    (port b) (baud_rate b) (role b) (type b) (poll_interval b) (online b)
    (hardware_version b) (cell_count b) (max_battery_charge_current b)
    (max_battery_discharge_current b) (has_settings b)
    (soc_calc_capacity_remain b) (soc_calc_capacity_remain_lasttime b)
    (soc_calc_reset_starttime b) (soc_calc b) v (charge_fet b)
    (discharge_fet b) (balance_fet b) (block_because_disconnect b)
    (control_charge_current b) (control_discharge_current b)
    (control_allow_charge b) (control_allow_discharge b) (custom_field b)
    (voltage b) (current b) (current_avg b) (current_avg_lst b)
    (current_corrected b) (capacity_remain b) (capacity b) (cycles b)
    (total_ah_drawn b) (production b) (protection b) (version b)
    (time_to_soc_update b) (temp_sensors b) (temp1 b) (temp2 b) (temp3 b)
    (temp4 b) (temp_mos b) (cells b) (control_voltage b)
    (soc_reset_requested b) (soc_reset_last_reached b)
    (soc_reset_battery_voltage b) (max_battery_voltage b)
    (min_battery_voltage b) (allow_max_voltage b) (max_voltage_start_time b)
    (transition_start_time b) (charge_mode b) (charge_mode_debug b)
    (charge_limitation b) (discharge_limitation b) (linear_cvl_last_set b)
    (linear_ccl_last_set b) (linear_dcl_last_set b) (available_callbacks b)
    (initial_control_voltage b) (cell_min_voltage b) (cell_max_voltage b).

Definition set_max_battery_charge_current (v : option Q) (b : Battery) : Battery :=
  mkBattery
    (port b) (baud_rate b) (role b) (type b) (poll_interval b) (online b)
    (hardware_version b) (cell_count b) v (max_battery_discharge_current b)
    (has_settings b) (soc_calc_capacity_remain b)
    (soc_calc_capacity_remain_lasttime b) (soc_calc_reset_starttime b)
    (soc_calc b) (soc b) (charge_fet b) (discharge_fet b) (balance_fet b)
    (block_because_disconnect b) (control_charge_current b)
    (control_discharge_current b) (control_allow_charge b)
    (control_allow_discharge b) (custom_field b) (voltage b) (current b)
    (current_avg b) (current_avg_lst b) (current_corrected b)
    (capacity_remain b) (capacity b) (cycles b) (total_ah_drawn b)
    (production b) (protection b) (version b) (time_to_soc_update b)
    (temp_sensors b) (temp1 b) (temp2 b) (temp3 b) (temp4 b) (temp_mos b)
    (cells b) (control_voltage b) (soc_reset_requested b)
    (soc_reset_last_reached b) (soc_reset_battery_voltage b)
    (max_battery_voltage b) (min_battery_voltage b) (allow_max_voltage b)
    (max_voltage_start_time b) (transition_start_time b) (charge_mode b)
    (charge_mode_debug b) (charge_limitation b) (discharge_limitation b)
    (linear_cvl_last_set b) (linear_ccl_last_set b) (linear_dcl_last_set b)
    (available_callbacks b) (initial_control_voltage b) (cell_min_voltage b)
    (cell_max_voltage b).

Definition set_max_battery_discharge_current (v : option Q) (b : Battery) : Battery :=
  mkBattery
    (port b) (baud_rate b) (role b) (type b) (poll_interval b) (online b)
    (hardware_version b) (cell_count b) (max_battery_charge_current b) v
    (has_settings b) (soc_calc_capacity_remain b)
    (soc_calc_capacity_remain_lasttime b) (soc_calc_reset_starttime b)
    (soc_calc b) (soc b) (charge_fet b) (discharge_fet b) (balance_fet b)
    (block_because_disconnect b) (control_charge_current b)
    (control_discharge_current b) (control_allow_charge b)
    (control_allow_discharge b) (custom_field b) (voltage b) (current b)
    (current_avg b) (current_avg_lst b) (current_corrected b)
    (capacity_remain b) (capacity b) (cycles b) (total_ah_drawn b)
    (production b) (protection b) (version b) (time_to_soc_update b)
    (temp_sensors b) (temp1 b) (temp2 b) (temp3 b) (temp4 b) (temp_mos b)
    (cells b) (control_voltage b) (soc_reset_requested b)
    (soc_reset_last_reached b) (soc_reset_battery_voltage b)
    (max_battery_voltage b) (min_battery_voltage b) (allow_max_voltage b)
    (max_voltage_start_time b) (transition_start_time b) (charge_mode b)
    (charge_mode_debug b) (charge_limitation b) (discharge_limitation b)
    (linear_cvl_last_set b) (linear_ccl_last_set b) (linear_dcl_last_set b)
    (available_callbacks b) (initial_control_voltage b) (cell_min_voltage b)
    (cell_max_voltage b).

Definition set_charge_fet (v : option bool) (b : Battery) : Battery :=
  mkBattery
    (port b) (baud_rate b) (role b) (type b) (poll_interval b) (online b)
    (hardware_version b) (cell_count b) (max_battery_charge_current b)
    (max_battery_discharge_current b) (has_settings b)
    (soc_calc_capacity_remain b) (soc_calc_capacity_remain_lasttime b)
    (soc_calc_reset_starttime b) (soc_calc b) (soc b) v (discharge_fet b)
    (balance_fet b) (block_because_disconnect b) (control_charge_current b)
    (control_discharge_current b) (control_allow_charge b)
    (control_allow_discharge b) (custom_field b) (voltage b) (current b)
    (current_avg b) (current_avg_lst b) (current_corrected b)
    (capacity_remain b) (capacity b) (cycles b) (total_ah_drawn b)
    (production b) (protection b) (version b) (time_to_soc_update b)
    (temp_sensors b) (temp1 b) (temp2 b) (temp3 b) (temp4 b) (temp_mos b)
    (cells b) (control_voltage b) (soc_reset_requested b)
    (soc_reset_last_reached b) (soc_reset_battery_voltage b)
    (max_battery_voltage b) (min_battery_voltage b) (allow_max_voltage b)
    (max_voltage_start_time b) (transition_start_time b) (charge_mode b)
    (charge_mode_debug b) (charge_limitation b) (discharge_limitation b)
    (linear_cvl_last_set b) (linear_ccl_last_set b) (linear_dcl_last_set b)
    (available_callbacks b) (initial_control_voltage b) (cell_min_voltage b)
    (cell_max_voltage b).

Definition set_discharge_fet (v : option bool) (b : Battery) : Battery :=
  mkBattery
    (port b) (baud_rate b) (role b) (type b) (poll_interval b) (online b)
    (hardware_version b) (cell_count b) (max_battery_charge_current b)
    (max_battery_discharge_current b) (has_settings b)
    (soc_calc_capacity_remain b) (soc_calc_capacity_remain_lasttime b)
    (soc_calc_reset_starttime b) (soc_calc b) (soc b) (charge_fet b) v
    (balance_fet b) (block_because_disconnect b) (control_charge_current b)
    (control_discharge_current b) (control_allow_charge b)
    (control_allow_discharge b) (custom_field b) (voltage b) (current b)
    (current_avg b) (current_avg_lst b) (current_corrected b)
    (capacity_remain b) (capacity b) (cycles b) (total_ah_drawn b)
    (production b) (protection b) (version b) (time_to_soc_update b)
    (temp_sensors b) (temp1 b) (temp2 b) (temp3 b) (temp4 b) (temp_mos b)
    (cells b) (control_voltage b) (soc_reset_requested b)
    (soc_reset_last_reached b) (soc_reset_battery_voltage b)
    (max_battery_voltage b) (min_battery_voltage b) (allow_max_voltage b)
    (max_voltage_start_time b) (transition_start_time b) (charge_mode b)
    (charge_mode_debug b) (charge_limitation b) (discharge_limitation b)
    (linear_cvl_last_set b) (linear_ccl_last_set b) (linear_dcl_last_set b)
    (available_callbacks b) (initial_control_voltage b) (cell_min_voltage b)
    (cell_max_voltage b).

Definition set_block_because_disconnect (v : bool) (b : Battery) : Battery :=
  mkBattery
    (port b) (baud_rate b) (role b) (type b) (poll_interval b) (online b)
    (hardware_version b) (cell_count b) (max_battery_charge_current b)
    (max_battery_discharge_current b) (has_settings b)
    (soc_calc_capacity_remain b) (soc_calc_capacity_remain_lasttime b)
    (soc_calc_reset_starttime b) (soc_calc b) (soc b) (charge_fet b)
    (discharge_fet b) (balance_fet b) v (control_charge_current b)
    (control_discharge_current b) (control_allow_charge b)
    (control_allow_discharge b) (custom_field b) (voltage b) (current b)
    (current_avg b) (current_avg_lst b) (current_corrected b)
    (capacity_remain b) (capacity b) (cycles b) (total_ah_drawn b)
    (production b) (protection b) (version b) (time_to_soc_update b)
    (temp_sensors b) (temp1 b) (temp2 b) (temp3 b) (temp4 b) (temp_mos b)
    (cells b) (control_voltage b) (soc_reset_requested b)
    (soc_reset_last_reached b) (soc_reset_battery_voltage b)
    (max_battery_voltage b) (min_battery_voltage b) (allow_max_voltage b)
    (max_voltage_start_time b) (transition_start_time b) (charge_mode b)
    (charge_mode_debug b) (charge_limitation b) (discharge_limitation b)
    (linear_cvl_last_set b) (linear_ccl_last_set b) (linear_dcl_last_set b)
    (available_callbacks b) (initial_control_voltage b) (cell_min_voltage b)
    (cell_max_voltage b).

Definition set_temp1 (v : option Q) (b : Battery) : Battery :=
  mkBattery
    (port b) (baud_rate b) (role b) (type b) (poll_interval b) (online b)
    (hardware_version b) (cell_count b) (max_battery_charge_current b)
    (max_battery_discharge_current b) (has_settings b)
    (soc_calc_capacity_remain b) (soc_calc_capacity_remain_lasttime b)
    (soc_calc_reset_starttime b) (soc_calc b) (soc b) (charge_fet b)
    (discharge_fet b) (balance_fet b) (block_because_disconnect b)
    (control_charge_current b) (control_discharge_current b)
    (control_allow_charge b) (control_allow_discharge b) (custom_field b)
    (voltage b) (current b) (current_avg b) (current_avg_lst b)
    (current_corrected b) (capacity_remain b) (capacity b) (cycles b)
    (total_ah_drawn b) (production b) (protection b) (version b)
    (time_to_soc_update b) (temp_sensors b) v (temp2 b) (temp3 b) (temp4 b)
    (temp_mos b) (cells b) (control_voltage b) (soc_reset_requested b)
    (soc_reset_last_reached b) (soc_reset_battery_voltage b)
    (max_battery_voltage b) (min_battery_voltage b) (allow_max_voltage b)
    (max_voltage_start_time b) (transition_start_time b) (charge_mode b)
    (charge_mode_debug b) (charge_limitation b) (discharge_limitation b)
    (linear_cvl_last_set b) (linear_ccl_last_set b) (linear_dcl_last_set b)
    (available_callbacks b) (initial_control_voltage b) (cell_min_voltage b)
    (cell_max_voltage b).

Definition set_temp2 (v : option Q) (b : Battery) : Battery :=
  mkBattery
    (port b) (baud_rate b) (role b) (type b) (poll_interval b) (online b)
    (hardware_version b) (cell_count b) (max_battery_charge_current b)
    (max_battery_discharge_current b) (has_settings b)
    (soc_calc_capacity_remain b) (soc_calc_capacity_remain_lasttime b)
    (soc_calc_reset_starttime b) (soc_calc b) (soc b) (charge_fet b)
    (discharge_fet b) (balance_fet b) (block_because_disconnect b)
    (control_charge_current b) (control_discharge_current b)
    (control_allow_charge b) (control_allow_discharge b) (custom_field b)
    (voltage b) (current b) (current_avg b) (current_avg_lst b)
    (current_corrected b) (capacity_remain b) (capacity b) (cycles b)
    (total_ah_drawn b) (production b) (protection b) (version b)
    (time_to_soc_update b) (temp_sensors b) (temp1 b) v (temp3 b) (temp4 b)
    (temp_mos b) (cells b) (control_voltage b) (soc_reset_requested b)
    (soc_reset_last_reached b) (soc_reset_battery_voltage b)
    (max_battery_voltage b) (min_battery_voltage b) (allow_max_voltage b)
    (max_voltage_start_time b) (transition_start_time b) (charge_mode b)
    (charge_mode_debug b) (charge_limitation b) (discharge_limitation b)
    (linear_cvl_last_set b) (linear_ccl_last_set b) (linear_dcl_last_set b)
    (available_callbacks b) (initial_control_voltage b) (cell_min_voltage b)
    (cell_max_voltage b).

(** ** The state-and-exception monad of a method call *)

Definition M (A : Type) : Type := Battery -> res A * Battery.

Definition ret {A} (a : A) : M A := fun s => (Ok a, s).

Definition bind {A B} (m : M A) (k : A -> M B) : M B :=
  fun s =>
    match m s with
    | (Ok a, s') => k a s'
    | (Raise e, s') => (Raise e, s')
    end.

Definition raise {A} (e : exn) : M A := fun s => (Raise e, s).

(** Read an attribute, evaluate a pure expression on [self], assign. *)
Definition gets {A} (f : Battery -> A) : M A := fun s => (Ok (f s), s).
Definition eval {A} (f : Battery -> res A) : M A := fun s => (f s, s).
Definition lift {A} (r : res A) : M A := fun s => (r, s).
Definition modify (f : Battery -> Battery) : M unit := fun s => (Ok tt, f s).

Definition when (b : bool) (m : M unit) : M unit := if b then m else ret tt.

(** [try: body except TypeError: handler] *)
Definition try_except_TypeError {A} (body handler : M A) : M A :=
  fun s =>
    match body s with
    | (Raise TypeError, s') => handler s'
    | r => r
    end.

(** [try: body except Exception: handler], for an expression on [self] *)
Definition try_except_Exception {A} (body : res A) (handler : res A) : res A :=
  match body with
  | Ok a => Ok a
  | Raise _ => handler
  end.

Notation "x <- m ;; k" := (bind m (fun x => k))
  (at level 61, m at next level, right associativity).
Notation "m ;; k" := (bind m (fun _ => k))
  (at level 61, right associativity).
Notation "'let?' x := r 'in' k" := (rbind r (fun x => k))
  (at level 10, x name, r at level 100, k at level 200).

(** [a / b] *)
Definition py_div (a b : Q) : res Q :=
  if Qeqb b 0 then Raise ZeroDivisionError else Ok (a / b).

(** ** Loops and dictionaries *)

(** [range(n)] *)
Definition range (n : Z) : list nat := seq 0 (Z.to_nat n).

(** [for x in l: acc = f(acc, x)] where the body may raise *)
Fixpoint for_each {A B} (f : B -> A -> res B) (l : list A) (acc : B) : res B :=
  match l with
  | [] => Ok acc
  | x :: l' => let? acc' := f acc x in for_each f l' acc'
  end.

(** A dictionary from limits to the names of the rules that give them.
    Keys are compared with [==]; a key may be [None].  Insertion order is
    kept, and updating a present key keeps the key and its position. *)
Definition dict : Type := list (option Q * string).

Fixpoint dict_get (k : option Q) (d : dict) : option string :=
  match d with
  | [] => None
  | (k', v) :: d' => if py_eq k' k then Some v else dict_get k d'
  end.

(** [k in d] *)
Definition dict_mem (k : option Q) (d : dict) : bool :=
  match dict_get k d with Some _ => true | None => false end.

(** [d.update({k: v})] *)
Fixpoint dict_update (k : option Q) (v : string) (d : dict) : dict :=
  match d with
  | [] => [(k, v)]
  | (k', v') :: d' =>
      if py_eq k' k then (k', v) :: d' else (k', v') :: dict_update k v d'
  end.

(** [a < b] between keys: ordering [None] raises. *)
Definition key_lt (a b : option Q) : res bool :=
  match a, b with
  | Some x, Some y => Ok (Qltb x y)
  | _, _ => Raise TypeError
  end.

(** [min(d)]: the smallest key, the first one among equals. *)
Definition dict_min (d : dict) : res (option Q) :=
  match d with
  | [] => Raise ValueError
  | (k, _) :: d' =>
      for_each (fun m kv => let? b := key_lt (fst kv) m in
                            Ok (if b then fst kv else m)) d' k
  end.

(** [d[k]] *)
Definition dict_item (k : option Q) (d : dict) : res string :=
  match dict_get k d with
  | Some v => Ok v
  | None => Raise KeyError
  end.

(** ** Configuration: the constants of [utils] that the engine reads *)

Record Config : Type := mkConfig {
  SOC_CALCULATION : bool;
  SOC_CALC_CURRENT_REPORTED_BY_BMS : list Q;
  SOC_CALC_CURRENT_MEASURED_BY_USER : list Q;
  MIN_CELL_VOLTAGE : Q;
  MAX_CELL_VOLTAGE : Q;
  FLOAT_CELL_VOLTAGE : Q;
  SOC_RESET_VOLTAGE : Q;
  (* [False] or a number of days *)
  SOC_RESET_AFTER_DAYS : option Q;
  SOC_RESET_CURRENT : Q;
  SOC_RESET_TIME : Q;
  VOLTAGE_DROP : Q;
  CVCM_ENABLE : bool;
  LINEAR_LIMITATION_ENABLE : bool;
  CVL_ICONTROLLER_MODE : bool;
  CVL_ICONTROLLER_FACTOR : Q;
  MAX_VOLTAGE_TIME_SEC : Q;
  SOC_LEVEL_TO_RESET_VOLTAGE_LIMIT : Q;
  CELL_VOLTAGE_DIFF_KEEP_MAX_VOLTAGE_UNTIL : Q;
  CELL_VOLTAGE_DIFF_KEEP_MAX_VOLTAGE_TIME_RESTART : Q;
  CELL_VOLTAGE_DIFF_TO_RESET_VOLTAGE_LIMIT : Q;
  LINEAR_RECALCULATION_EVERY : Q;
  LINEAR_RECALCULATION_ON_PERC_CHANGE : Q;
  MAX_BATTERY_CHARGE_CURRENT : Q;
  MAX_BATTERY_DISCHARGE_CURRENT : Q;
  CCCM_CV_ENABLE : bool;
  CCCM_T_ENABLE : bool;
  CCCM_SOC_ENABLE : bool;
  DCCM_CV_ENABLE : bool;
  DCCM_T_ENABLE : bool;
  DCCM_SOC_ENABLE : bool;
  CELL_VOLTAGES_WHILE_CHARGING : list Q;
  MAX_CHARGE_CURRENT_CV : list Q;
  CELL_VOLTAGES_WHILE_DISCHARGING : list Q;
  MAX_DISCHARGE_CURRENT_CV : list Q;
  TEMPERATURES_WHILE_CHARGING : list Q;
  MAX_CHARGE_CURRENT_T : list Q;
  TEMPERATURES_WHILE_DISCHARGING : list Q;
  MAX_DISCHARGE_CURRENT_T : list Q;
  SOC_WHILE_CHARGING : list Q;
  MAX_CHARGE_CURRENT_SOC : list Q;
  SOC_WHILE_DISCHARGING : list Q;
  MAX_DISCHARGE_CURRENT_SOC : list Q;
  (* [logger.isEnabledFor(logging.DEBUG)] *)
  LOGGER_DEBUG : bool
}.

Local Open Scope string_scope.

(** ** Construction and reset *)

(** [Battery.init_values]: every assignment of the method, in order of the
    record; the attributes created by [__init__] are not touched. *)
Definition init_values (self : Battery) : Battery :=
  {| port := port self;
     baud_rate := baud_rate self;
     role := role self;
     type := type self;
     poll_interval := poll_interval self;
     online := online self;
     hardware_version := hardware_version self;
     cell_count := cell_count self;
     max_battery_charge_current := max_battery_charge_current self;
     max_battery_discharge_current := max_battery_discharge_current self;
     has_settings := has_settings self;
     soc_calc_capacity_remain := soc_calc_capacity_remain self;
     soc_calc_capacity_remain_lasttime := soc_calc_capacity_remain_lasttime self;
     soc_calc_reset_starttime := soc_calc_reset_starttime self;
     soc_calc := soc_calc self;
     soc := soc self;
     charge_fet := charge_fet self;
     discharge_fet := discharge_fet self;
     balance_fet := balance_fet self;
     block_because_disconnect := block_because_disconnect self;
     control_charge_current := control_charge_current self;
     control_discharge_current := control_discharge_current self;
     control_allow_charge := control_allow_charge self;
     control_allow_discharge := control_allow_discharge self;
     custom_field := custom_field self;
     voltage := None;
     current := None;
     current_avg := None;
     current_avg_lst := [];
     current_corrected := None;
     capacity_remain := None;
     capacity := None;
     cycles := None;
     total_ah_drawn := None;
     production := None;
     protection := Protection_new;
     version := None;
     time_to_soc_update := 0%Z;
     temp_sensors := None;
     temp1 := None;
     temp2 := None;
     temp3 := None;
     temp4 := None;
     temp_mos := None;
     cells := [];
     control_voltage := None;
     soc_reset_requested := false;
     soc_reset_last_reached := 0%Z;
     soc_reset_battery_voltage := None;
     max_battery_voltage := None;
     min_battery_voltage := None;
     allow_max_voltage := true;
     max_voltage_start_time := None;
     transition_start_time := None;
     charge_mode := None;
     charge_mode_debug := "";
     charge_limitation := None;
     discharge_limitation := None;
     linear_cvl_last_set := 0%Z;
     linear_ccl_last_set := 0%Z;
     linear_dcl_last_set := 0%Z;
     available_callbacks := [];
     initial_control_voltage := initial_control_voltage self;
     cell_min_voltage := cell_min_voltage self;
     cell_max_voltage := cell_max_voltage self |}.

(** [Battery.__init__(port, baud, address)]: the assignments of the
    constructor, then [self.init_values()].  The attributes that
    [init_values] creates do not exist before the call; the record given to
    it holds the values it is about to assign. *)
Definition Battery_init (port_ : string) (baud : Z) (address : string) : Battery :=
  init_values
    {| port := port_;
       baud_rate := baud;
       role := "battery";
       type := "Generic";
       poll_interval := 1000%Z;
       online := true;
       hardware_version := None;
       cell_count := None;
       max_battery_charge_current := None;
       max_battery_discharge_current := None;
       has_settings := false;
       soc_calc_capacity_remain := None;
       soc_calc_capacity_remain_lasttime := None;
       soc_calc_reset_starttime := None;
       soc_calc := None;
       soc := None;
       charge_fet := None;
       discharge_fet := None;
       balance_fet := None;
       block_because_disconnect := false;
       control_charge_current := None;
       control_discharge_current := None;
       control_allow_charge := None;
       control_allow_discharge := None;
       custom_field := None;
       voltage := None;
       current := None;
       current_avg := None;
       current_avg_lst := [];
       current_corrected := None;
       capacity_remain := None;
       capacity := None;
       cycles := None;
       total_ah_drawn := None;
       production := None;
       protection := Protection_new;
       version := None;
       time_to_soc_update := 0%Z;
       temp_sensors := None;
       temp1 := None;
       temp2 := None;
       temp3 := None;
       temp4 := None;
       temp_mos := None;
       cells := [];
       control_voltage := None;
       soc_reset_requested := false;
       soc_reset_last_reached := 0%Z;
       soc_reset_battery_voltage := None;
       max_battery_voltage := None;
       min_battery_voltage := None;
       allow_max_voltage := true;
       max_voltage_start_time := None;
       transition_start_time := None;
       charge_mode := None;
       charge_mode_debug := "";
       charge_limitation := None;
       discharge_limitation := None;
       linear_cvl_last_set := 0%Z;
       linear_ccl_last_set := 0%Z;
       linear_dcl_last_set := 0%Z;
       available_callbacks := [];
       initial_control_voltage := None;
       cell_min_voltage := None;
       cell_max_voltage := None |}.

(** ** Aggregators *)

(** [min(...)] / [max(...)] of a generator: [None] stands for the
    [ValueError] of the empty case, which the callers catch. *)
Definition min_list (l : list Q) : option Q :=
  match l with
  | [] => None
  | x :: l' => Some (fold_left (fun m y => if Qltb y m then y else m) l' x)
  end.

Definition max_list (l : list Q) : option Q :=
  match l with
  | [] => None
  | x :: l' => Some (fold_left (fun m y => if Qltb m y then y else m) l' x)
  end.

(** [c.voltage for c in self.cells if c.voltage is not None] *)
Fixpoint known_voltages (l : list Cell) : list Q :=
  match l with
  | [] => []
  | c :: l' =>
      match cell_voltage c with
      | Some v => v :: known_voltages l'
      | None => known_voltages l'
      end
  end.

Definition get_min_cell_voltage (self : Battery) : option Q :=
  match cell_min_voltage self with
  | Some v => Some v
  | None => min_list (known_voltages (cells self))
  end.

Definition get_max_cell_voltage (self : Battery) : option Q :=
  match cell_max_voltage self with
  | Some v => Some v
  | None => max_list (known_voltages (cells self))
  end.

(** [min(len(self.cells), self.cell_count)] *)
Definition cells_in_use (self : Battery) : res Z :=
  let? n := int (cell_count self) in
  Ok (if (n <? Z.of_nat (List.length (cells self)))%Z then n
      else Z.of_nat (List.length (cells self))).

Definition get_cell_voltage (self : Battery) (idx : nat) : res (option Q) :=
  let? m := cells_in_use self in
  if (m <=? Z.of_nat idx)%Z then Ok None
  else Ok (match nth_error (cells self) idx with
           | Some c => cell_voltage c
           | None => None
           end).

(** [get_balancing]: 1 as soon as a cell in use is balancing, 0 otherwise;
    returned here as the truth value the caller tests. *)
Definition get_balancing (self : Battery) : res bool :=
  let? m := cells_in_use self in
  Ok (existsb (fun c => match cell_balance c with
                        | Some b => b
                        | None => false
                        end)
              (firstn (Z.to_nat m) (cells self))).

(** [[t for t in [temp1, temp2, temp3, temp4] if t is not None]] *)
Definition known_temps (self : Battery) : list Q :=
  flat_map (fun o => match o with Some t => [t] | None => [] end)
           [temp1 self; temp2 self; temp3 self; temp4 self].

Definition get_min_temp (self : Battery) : option Q := min_list (known_temps self).
Definition get_max_temp (self : Battery) : option Q := max_list (known_temps self).

(** [get_allow_to_charge] and its siblings *)
Definition is_true (o : option bool) : bool :=
  match o with Some b => b | None => false end.

Definition get_allow_to_charge (self : Battery) : bool :=
  is_true (charge_fet self) && is_true (control_allow_charge self)
  && negb (block_because_disconnect self).

Definition get_allow_to_discharge (self : Battery) : bool :=
  is_true (discharge_fet self) && is_true (control_allow_discharge self)
  && negb (block_because_disconnect self).

Definition get_allow_to_balance (self : Battery) : bool :=
  is_true (balance_fet self).

(** [validate_data] *)
Definition validate_data (self : Battery) : bool :=
  if match capacity self with
     | Some c => Qltb c 0 || Qltb 1000 c
     | None => false
     end then false
  else if match current self with
          | Some i => Qltb 1000 (py_abs i)
          | None => false
          end then false
  else if match voltage self with
          | Some v => Qltb v 0 || Qltb 100 v
          | None => false
          end then false
  else if match soc self with
          | Some p => Qltb p 0 || Qltb 100 p
          | None => false
          end then false
  else true.

(** ** The engine *)

Section Engine.

(** The module [utils]: its constants, its two interpolation helpers (which
    may raise), and the text of the debug report, whose number formatting
    is left open: [format_charge_mode_debug self ...] is the text that the
    assignments of the report leave in [charge_mode_debug], which on a state
    without a CVL is the text of the pieces that come before the CVL. *)
Variable utils : Config.
Variable calcLinearRelationship : option Q -> list Q -> list Q -> res Q.
Variable calcStepRelationship : option Q -> list Q -> list Q -> bool -> res Q.
Variable format_charge_mode_debug : Battery -> Q -> Q -> Q -> Z -> Z -> string.

(** *** Coulomb counter: [soc_calculation] *)

(** [if voltage: voltage_sum += voltage] *)
Definition add_voltage (voltage_sum : Q) (voltage : option Q) : Q :=
  match voltage with
  | Some v => if truthy voltage then voltage_sum + v else voltage_sum
  | None => voltage_sum
  end.

(** [for i in range(self.cell_count): ...] of [soc_calculation] *)
Definition sum_cell_voltages (self : Battery) : res Q :=
  let? n := int (cell_count self) in
  for_each (fun voltage_sum i =>
              let? voltage := get_cell_voltage self i in
              Ok (add_voltage voltage_sum voltage))
           (range n) 0.

(** The test of the full end point: the three clauses joined by [and]. *)
Definition soc_full_condition (voltage_sum : Q) (self : Battery) : res bool :=
  let? i := num (current self) in
  if Qltb i (SOC_RESET_CURRENT utils) then
    let? mbv := num (max_battery_voltage self) in
    if Qleb (mbv - VOLTAGE_DROP utils) voltage_sum
    then Ok (truthyZ (soc_calc_reset_starttime self))
    else Ok false
  else Ok false.

(** [int(current_time) - self.soc_calc_reset_starttime > SOC_RESET_TIME] *)
Definition soc_dwell_elapsed (current_time : Q) (self : Battery) : res bool :=
  let? t0 := int (soc_calc_reset_starttime self) in
  Ok (Qltb (SOC_RESET_TIME utils) (inject_Z (py_int current_time - t0))).

(** "execute checks only if battery is nearly fully charged" *)
Definition soc_full_check (current_time : Q) (current_min_cell_voltage : option Q)
    (voltage_sum : Q) : M unit :=
  vmin <- lift (num current_min_cell_voltage) ;;
  when (Qltb (MAX_CELL_VOLTAGE utils * (99 # 100)) vmin)
    (cond <- eval (soc_full_condition voltage_sum) ;;
     if cond : bool then
       elapsed <- eval (soc_dwell_elapsed current_time) ;;
       differs <- gets (fun self => py_ne (soc_calc_capacity_remain self) (capacity self)) ;;
       when (elapsed && differs)
         (cap <- gets (fun self => capacity self) ;; modify (set_soc_calc_capacity_remain cap))
     else
       modify (set_soc_calc_reset_starttime (Some (py_int current_time)))).

Definition soc_empty_condition (vmin : Q) (self : Battery) : res bool :=
  let? i := num (current self) in
  if Qltb i (SOC_RESET_CURRENT utils) then
    let? n := int (cell_count self) in
    let? drop := py_div (VOLTAGE_DROP utils) (inject_Z n) in
    if Qleb (vmin - drop) (MIN_CELL_VOLTAGE utils)
    then Ok (truthyZ (soc_calc_reset_starttime self))
    else Ok false
  else Ok false.

(** "execute checks only if battery is nearly fully discharged" *)
Definition soc_empty_check (current_time : Q) (current_min_cell_voltage : option Q) : M unit :=
  vmin <- lift (num current_min_cell_voltage) ;;
  when (Qltb vmin (MIN_CELL_VOLTAGE utils * (101 # 100)))
    (cond <- eval (soc_empty_condition vmin) ;;
     if cond : bool then
       elapsed <- eval (soc_dwell_elapsed current_time) ;;
       differs <- gets (fun self => py_ne (soc_calc_capacity_remain self) (Some 0)) ;;
       when (elapsed && differs)
         (modify (set_soc_calc_capacity_remain (Some 0)))
     else
       modify (set_soc_calc_reset_starttime (Some (py_int current_time)))).

(** The branch taken when the accumulator exists: integrate, clamp, snap. *)
Definition soc_integrate (current_time : Q) (current_min_cell_voltage : option Q)
    (voltage_sum : Q) (remain : Q) : M unit :=
  corrected <- eval (fun self =>
      calcLinearRelationship (current self)
        (SOC_CALC_CURRENT_REPORTED_BY_BMS utils)
        (SOC_CALC_CURRENT_MEASURED_BY_USER utils)) ;;
  modify (set_current_corrected (Some (py_round corrected 2))) ;;
  integrated <- eval (fun self =>
      let? last := num (soc_calc_capacity_remain_lasttime self) in
      Ok (remain + py_round corrected 2 * (current_time - last) / 3600)) ;;
  modify (set_soc_calc_capacity_remain (Some integrated)) ;;
  clamped <- eval (fun self =>
      let? cap := num (capacity self) in
      Ok (py_max (py_min integrated cap) 0)) ;;
  modify (set_soc_calc_capacity_remain (Some clamped)) ;;
  modify (set_soc_calc_capacity_remain_lasttime (Some current_time)) ;;
  soc_full_check current_time current_min_cell_voltage voltage_sum ;;
  soc_empty_check current_time current_min_cell_voltage.

(** The branch taken when the accumulator is still [None]: seed it. *)
Definition soc_initialize (current_time : Q) : M unit :=
  persisted <- gets (fun self => soc_calc self) ;;
  match persisted with
  | None =>
      reported <- gets (fun self => soc self) ;;
      match reported with
      | Some p =>
          seed <- eval (fun self =>
              let? cap := num (capacity self) in Ok (cap * p / 100)) ;;
          modify (set_soc_calc_capacity_remain (Some seed))
      | None =>
          cap <- gets (fun self => capacity self) ;;
          modify (set_soc_calc_capacity_remain cap)
      end
  | Some c =>
      seed <- eval (fun self =>
          let? p := num (soc self) in
          if Qltb 0 p then
            let? cap := num (capacity self) in Ok (cap * c / 100)
          else Ok 0) ;;
      modify (set_soc_calc_capacity_remain (Some seed))
  end ;;
  modify (set_soc_calc_capacity_remain_lasttime (Some current_time)).

(** [round(max(min((remain / capacity) * 100, 100), 0), 2)] *)
Definition soc_percentage (self : Battery) : res Q :=
  let? remain := num (soc_calc_capacity_remain self) in
  let? cap := num (capacity self) in
  let? ratio := py_div remain cap in
  Ok (py_round (py_max (py_min (ratio * 100) 100) 0) 2).

(** [soc_calculation]; [current_time] is the reading of [time()]. *)
Definition soc_calculation (current_time : Q) : M unit :=
  modify (set_current_corrected (Some 0)) ;;
  current_min_cell_voltage <- gets (fun self => get_min_cell_voltage self) ;;
  voltage_sum <- eval sum_cell_voltages ;;
  remain <- gets (fun self => soc_calc_capacity_remain self) ;;
  match remain with
  | Some r => soc_integrate current_time current_min_cell_voltage voltage_sum r
  | None => soc_initialize current_time
  end ;;
  percentage <- eval soc_percentage ;;
  modify (set_soc_calc (Some percentage)).

(** *** [prepare_voltage_management]; [now] is [int(time())]. *)
Definition prepare_voltage_management (now : Z) : M unit :=
  days_ago <- gets (fun self =>
      if (soc_reset_last_reached self =? 0)%Z then 0
      else inject_Z (now - soc_reset_last_reached self) / 60 / 60 / 24) ;;
  due <- gets (fun self =>
      match SOC_RESET_AFTER_DAYS utils with
      | Some days =>
          negb (soc_reset_requested self) && allow_max_voltage self
          && ((soc_reset_last_reached self =? 0)%Z || Qltb days days_ago)
      | None => false
      end) ;;
  when due (modify (set_soc_reset_requested true)) ;;
  reset_voltage <- eval (fun self =>
      let? n := int (cell_count self) in
      Ok (py_round (SOC_RESET_VOLTAGE utils * inject_Z n) 2)) ;;
  modify (set_soc_reset_battery_voltage (Some reset_voltage)) ;;
  requested <- gets (fun self => soc_reset_requested self) ;;
  (if requested : bool then
     modify (set_max_battery_voltage (Some reset_voltage))
   else
     top <- eval (fun self =>
         let? n := int (cell_count self) in
         Ok (py_round (MAX_CELL_VOLTAGE utils * inject_Z n) 2)) ;;
     modify (set_max_battery_voltage (Some top))) ;;
  bottom <- eval (fun self =>
      let? n := int (cell_count self) in
      Ok (py_round (MIN_CELL_VOLTAGE utils * inject_Z n) 2)) ;;
  modify (set_min_battery_voltage (Some bottom)).

(** *** Voltage controller: [manage_charge_voltage_linear] *)

(** [set_cvl_linear]; [current_time] is its own reading of [int(time())]. *)
Definition set_cvl_linear (current_time : Z) (control_voltage_ : Q) : M bool :=
  last <- gets (fun self => linear_cvl_last_set self) ;;
  if Qleb (LINEAR_RECALCULATION_EVERY utils) (inject_Z (current_time - last)) then
    modify (set_control_voltage (Some control_voltage_)) ;;
    modify (set_linear_cvl_last_set current_time) ;;
    ret true
  else ret false.

(** One round of the loop over the cells: the running
    [(voltage_sum, penalty_sum, found_high_cell_voltage)]. *)
Definition penalty_step (self : Battery) (acc : Q * Q * bool) (i : nat)
    : res (Q * Q * bool) :=
  let '(voltage_sum, penalty_sum, found_high_cell_voltage) := acc in
  let? voltage := get_cell_voltage self i in
  match voltage with
  | Some v =>
      if truthy voltage then
        if py_ne (max_battery_voltage self) (soc_reset_battery_voltage self)
           && Qltb (MAX_CELL_VOLTAGE utils) v
        then Ok (voltage_sum + v, penalty_sum + (v - MAX_CELL_VOLTAGE utils), true)
        else if py_eq (max_battery_voltage self) (soc_reset_battery_voltage self)
                && Qltb (SOC_RESET_VOLTAGE utils) v
        then Ok (voltage_sum + v, penalty_sum + (v - SOC_RESET_VOLTAGE utils), true)
        else Ok (voltage_sum + v, penalty_sum, found_high_cell_voltage)
      else Ok acc
  | None => Ok acc
  end.

(** "calculate battery sum and check for cell overvoltage" *)
Definition penalty_scan (self : Battery) : res (Q * Q * bool) :=
  let? n := int (cell_count self) in
  for_each (penalty_step self) (range n) (0, 0, false).

(** [self.get_max_cell_voltage() - self.get_min_cell_voltage()] *)
Definition cell_voltage_diff (self : Battery) : res Q :=
  let? hi := num (get_max_cell_voltage self) in
  let? lo := num (get_min_cell_voltage self) in
  Ok (hi - lo).

(** The Absorption timer; returns [time_diff]. *)
Definition absorption_timer (current_time : Z) (voltage_sum voltageDiff : Q) : M Z :=
  started <- gets (fun self => max_voltage_start_time self) ;;
  match started with
  | None =>
      reached <- eval (fun self =>
          let? mbv := num (max_battery_voltage self) in
          Ok (Qleb mbv voltage_sum
              && Qleb voltageDiff (CELL_VOLTAGE_DIFF_KEEP_MAX_VOLTAGE_UNTIL utils)
              && allow_max_voltage self)) ;;
      (if reached : bool then
         modify (set_max_voltage_start_time (Some current_time))
       else
         rearm <- eval (fun self =>
             let? level := num (soc_calc self) in
             Ok ((Qltb level (SOC_LEVEL_TO_RESET_VOLTAGE_LIMIT utils)
                  || Qleb (CELL_VOLTAGE_DIFF_TO_RESET_VOLTAGE_LIMIT utils) voltageDiff)
                 && negb (allow_max_voltage self))) ;;
         when rearm (modify (set_allow_max_voltage true))) ;;
      ret 0%Z
  | Some _ =>
      when (Qltb (CELL_VOLTAGE_DIFF_KEEP_MAX_VOLTAGE_TIME_RESTART utils) voltageDiff)
        (modify (set_max_voltage_start_time (Some current_time))) ;;
      start <- eval (fun self => int (max_voltage_start_time self)) ;;
      let time_diff := (current_time - start)%Z in
      when (Qltb (MAX_VOLTAGE_TIME_SEC utils) (inject_Z time_diff))
        (modify (set_allow_max_voltage false) ;;
         modify (set_max_voltage_start_time None) ;;
         (* [if self.soc_calc <= ...: logger.error(...)] *)
         _ <- eval (fun self => num (soc_calc self)) ;;
         ret tt) ;;
      below <- eval (fun self =>
          let? mbv := num (max_battery_voltage self) in
          Ok (Qltb voltage_sum (mbv - (1 # 2)))) ;;
      when below (modify (set_max_voltage_start_time None)) ;;
      ret time_diff
  end.

(** The active per-cell ceiling of the I-controller. *)
Definition icontroller_ceiling (self : Battery) : Q :=
  if soc_reset_requested self then SOC_RESET_VOLTAGE utils else MAX_CELL_VOLTAGE utils.

(** [if utils.CVL_ICONTROLLER_MODE: ...]; returns the local [control_voltage],
    which starts at 0. *)
Definition icontroller (self : Battery) : res Q :=
  if CVL_ICONTROLLER_MODE utils then
    let? target :=
      if truthy (control_voltage self) then
        let? cv := num (control_voltage self) in
        let? hi := num (get_max_cell_voltage self) in
        Ok (cv - (hi - icontroller_ceiling self
                  - CELL_VOLTAGE_DIFF_KEEP_MAX_VOLTAGE_UNTIL utils)
                 * CVL_ICONTROLLER_FACTOR utils)
      else num (max_battery_voltage self) in
    let? lo := num (min_battery_voltage self) in
    let? hi := num (max_battery_voltage self) in
    Ok (py_min (py_max target lo) hi)
  else Ok 0.

(** [round(min(max(voltage_sum - penalty_sum, min_battery_voltage),
    max_battery_voltage), 3)] *)
Definition penalty_voltage (voltage_sum penalty_sum : Q) (self : Battery) : res Q :=
  let? lo := num (min_battery_voltage self) in
  let? hi := num (max_battery_voltage self) in
  Ok (py_round (py_min (py_max (voltage_sum - penalty_sum) lo) hi) 3).

(** [" & SoC Reset"] when the excursion ceiling is the active one *)
Definition soc_reset_suffix (mode : string) (self : Battery) : string :=
  if py_eq (max_battery_voltage self) (soc_reset_battery_voltage self)
  then mode ++ " & SoC Reset" else mode.

(** [if found_high_cell_voltage and self.allow_max_voltage:] *)
Definition emit_dynamic (now_cvl : Z) (voltage_sum penalty_sum : Q) : M unit :=
  cv <- eval (penalty_voltage voltage_sum penalty_sum) ;;
  (if CVL_ICONTROLLER_MODE utils then modify (set_control_voltage (Some cv))
   else _ <- set_cvl_linear now_cvl cv ;; ret tt) ;;
  mode <- gets (fun self =>
      match max_voltage_start_time self with
      | None => "Bulk dynamic"
      | Some _ => "Absorption dynamic"
      end) ;;
  mode' <- gets (soc_reset_suffix mode) ;;
  modify (set_charge_mode (Some mode')).

(** [elif self.allow_max_voltage:] *)
Definition emit_max (control_voltage_ : Q) : M unit :=
  (if CVL_ICONTROLLER_MODE utils then
     modify (set_control_voltage (Some control_voltage_))
   else
     top <- eval (fun self =>
         let? mbv := num (max_battery_voltage self) in Ok (py_round mbv 3)) ;;
     modify (set_control_voltage (Some top))) ;;
  mode <- gets (fun self =>
      match max_voltage_start_time self with
      | None => "Bulk"
      | Some _ => "Absorption"
      end) ;;
  mode' <- gets (soc_reset_suffix mode) ;;
  modify (set_charge_mode (Some mode')).

(** [self.charge_mode.startswith(p)]: [None] has no such method. *)
Definition charge_mode_startswith (p : string) (self : Battery) : res bool :=
  match charge_mode self with
  | Some m => Ok (String.prefix p m)
  | None => Raise AttributeError
  end.

(** [self.initial_control_voltage], an attribute that may not exist yet *)
Definition get_initial_control_voltage (self : Battery) : res Q :=
  match initial_control_voltage self with
  | Some v => Ok v
  | None => Raise AttributeError
  end.

(** The ramp of the Float transition; returns [chargeMode]. *)
Definition float_ramp (current_time now_cvl : Z) (floatVoltage : Q) : M string :=
  target <- eval (fun self =>
      let? start := int (transition_start_time self) in
      let elapsed_time := (current_time - start)%Z in
      let VOLTAGE_REDUCTION_PER_SECOND := (1 # 100) / 10 in
      let? initial := get_initial_control_voltage self in
      let voltage_reduction :=
        py_min (VOLTAGE_REDUCTION_PER_SECOND * inject_Z elapsed_time)
               (initial - floatVoltage) in
      Ok (initial - voltage_reduction)) ;;
  _ <- set_cvl_linear now_cvl target ;;
  reached <- eval (fun self =>
      let? cv := num (control_voltage self) in Ok (Qleb cv floatVoltage)) ;;
  if reached : bool then
    modify (set_control_voltage (Some floatVoltage)) ;; ret "Float"
  else ret "Float Transition".

(** [else:] the Float regime *)
Definition emit_float (current_time now_cvl : Z) : M unit :=
  floatVoltage <- eval (fun self =>
      let? n := int (cell_count self) in
      Ok (py_round (FLOAT_CELL_VOLTAGE utils * inject_Z n) 3)) ;;
  requested <- gets (fun self => soc_reset_requested self) ;;
  when requested
    (modify (set_soc_reset_requested false) ;;
     modify (set_soc_reset_last_reached current_time)) ;;
  cv <- gets (fun self => control_voltage self) ;;
  chargeMode <-
    (if truthy cv then
       in_float <- eval (charge_mode_startswith "Float") ;;
       if negb in_float then
         modify (set_transition_start_time (Some current_time)) ;;
         modify (set_initial_control_voltage cv) ;;
         (* [self.trigger_soc_reset()] does nothing in the base class *)
         ret "Float Transition"
       else
         in_transition <- eval (charge_mode_startswith "Float Transition") ;;
         if in_transition : bool then float_ramp current_time now_cvl floatVoltage
         else ret "Float"
     else
       modify (set_control_voltage (Some floatVoltage)) ;; ret "Float") ;;
  modify (set_charge_mode (Some chargeMode)).

(** [self.charge_mode += suffix] *)
Definition append_charge_mode (suffix : string) : M unit :=
  mode <- gets (fun self => charge_mode self) ;;
  match mode with
  | Some m => modify (set_charge_mode (Some (m ++ suffix)))
  | None => raise TypeError
  end.

(** The [except TypeError:] clause of both controllers:
    [self.control_voltage = None; self.charge_mode = "--"]. *)
Definition on_TypeError : M unit :=
  modify (set_control_voltage None) ;;
  modify (set_charge_mode (Some "--")).

(** The three-way choice of the emitted CVL. *)
Definition emit_control_voltage (current_time now_cvl : Z)
    (voltage_sum penalty_sum : Q) (found_high_cell_voltage : bool)
    (control_voltage_ : Q) : M unit :=
  allowed <- gets (fun self => allow_max_voltage self) ;;
  if found_high_cell_voltage && allowed then emit_dynamic now_cvl voltage_sum penalty_sum
  else if allowed : bool then emit_max control_voltage_
  else emit_float current_time now_cvl.

(** The suffixes of [charge_mode] and the debug report. *)
Definition annotate_charge_mode (current_time : Z)
    (voltage_sum penalty_sum voltageDiff : Q) (time_diff : Z) : M unit :=
  allowed <- gets (fun self => allow_max_voltage self) ;;
  balancing <- eval (fun self =>
      if allowed : bool then
        let? b := get_balancing self in
        Ok (b && Qleb (CELL_VOLTAGE_DIFF_TO_RESET_VOLTAGE_LIMIT utils) voltageDiff)
      else Ok false) ;;
  when balancing (append_charge_mode " + Balancing") ;;
  append_charge_mode " (Linear Mode)" ;;
  when (LOGGER_DEBUG utils)
    ((* [round(self.max_battery_voltage, 2)] fails on [None] before the
        first assignment of the report; [round(self.control_voltage, 2)]
        fails on [None] once its first four pieces have been assigned, and
        the text built so far stays in [charge_mode_debug] *)
     _ <- eval (fun self => num (max_battery_voltage self)) ;;
     modify (fun self =>
       set_charge_mode_debug
         (format_charge_mode_debug self voltage_sum voltageDiff penalty_sum
            time_diff current_time) self) ;;
     _ <- eval (fun self => num (control_voltage self)) ;;
     ret tt).

(** The body of the [try] block.  [current_time] is the reading taken at
    the top of the method, [now_cvl] the one taken inside [set_cvl_linear]. *)
Definition manage_charge_voltage_linear_body (current_time now_cvl : Z) : M unit :=
  scan <- eval penalty_scan ;;
  let '(voltage_sum, penalty_sum, found_high_cell_voltage) := scan in
  voltageDiff <- eval cell_voltage_diff ;;
  time_diff <- absorption_timer current_time voltage_sum voltageDiff ;;
  control_voltage_ <- eval icontroller ;;
  emit_control_voltage current_time now_cvl voltage_sum penalty_sum
    found_high_cell_voltage control_voltage_ ;;
  annotate_charge_mode current_time voltage_sum penalty_sum voltageDiff time_diff.

(** [manage_charge_voltage_linear] *)
Definition manage_charge_voltage_linear (current_time now_cvl : Z) : M unit :=
  try_except_TypeError
    (manage_charge_voltage_linear_body current_time now_cvl)
    on_TypeError.

(** [manage_charge_voltage_step] *)
Definition manage_charge_voltage_step_body (current_time : Z) : M unit :=
  voltage_sum <- eval sum_cell_voltages ;;
  started <- gets (fun self => max_voltage_start_time self) ;;
  match started with
  | None =>
      reached <- eval (fun self =>
          let? mbv := num (max_battery_voltage self) in
          Ok (Qleb mbv voltage_sum && allow_max_voltage self)) ;;
      if reached : bool then
        modify (set_max_voltage_start_time (Some current_time))
      else
        rearm <- eval (fun self =>
            let? level := num (soc_calc self) in
            Ok (Qltb level (SOC_LEVEL_TO_RESET_VOLTAGE_LIMIT utils)
                && negb (allow_max_voltage self))) ;;
        when rearm (modify (set_allow_max_voltage true))
  | Some start =>
      when (Qltb (MAX_VOLTAGE_TIME_SEC utils) (inject_Z (current_time - start)))
        (modify (set_allow_max_voltage false) ;;
         modify (set_max_voltage_start_time None))
  end ;;
  allowed <- gets (fun self => allow_max_voltage self) ;;
  (if allowed : bool then
     top <- gets (fun self => max_battery_voltage self) ;;
     modify (set_control_voltage top) ;;
     mode <- gets (fun self =>
         match max_voltage_start_time self with
         | None => "Bulk"
         | Some _ => "Absorption"
         end) ;;
     mode' <- gets (soc_reset_suffix mode) ;;
     modify (set_charge_mode (Some mode'))
   else
     _ <- eval (charge_mode_startswith "Float") ;;
     floatVoltage <- eval (fun self =>
         let? n := int (cell_count self) in
         Ok (FLOAT_CELL_VOLTAGE utils * inject_Z n)) ;;
     modify (set_control_voltage (Some floatVoltage)) ;;
     modify (set_charge_mode (Some "Float")) ;;
     requested <- gets (fun self => soc_reset_requested self) ;;
     when requested
       (modify (set_soc_reset_requested false) ;;
        modify (set_soc_reset_last_reached current_time))) ;;
  append_charge_mode " (Step Mode)".

Definition manage_charge_voltage_step (current_time : Z) : M unit :=
  try_except_TypeError
    (manage_charge_voltage_step_body current_time)
    on_TypeError.

(** [manage_charge_voltage]; the four readings of the clock are those of
    [soc_calculation], of [prepare_voltage_management], of the controller
    and of [set_cvl_linear]. *)
Definition manage_charge_voltage (t_soc : Q) (t_prepare t_control t_cvl : Z) : M unit :=
  (if SOC_CALCULATION utils then soc_calculation t_soc
   else reported <- gets (fun self => soc self) ;; modify (set_soc_calc reported)) ;;
  prepare_voltage_management t_prepare ;;
  if CVCM_ENABLE utils then
    if LINEAR_LIMITATION_ENABLE utils
    then manage_charge_voltage_linear t_control t_cvl
    else manage_charge_voltage_step t_control
  else
    top <- eval (fun self =>
        let? mbv := num (max_battery_voltage self) in Ok (py_round mbv 3)) ;;
    modify (set_control_voltage (Some top)) ;;
    modify (set_charge_mode (Some "Keep always max voltage")).

(** *** Derating *)

(** The interpolation chosen by [LINEAR_LIMITATION_ENABLE]. *)
Definition derate (x : option Q) (xs ys : list Q) (returnLower : bool) : res Q :=
  if LINEAR_LIMITATION_ENABLE utils then calcLinearRelationship x xs ys
  else calcStepRelationship x xs ys returnLower.

Definition calcMaxChargeCurrentReferringToCellVoltage (self : Battery) : res (option Q) :=
  try_except_Exception
    (let? limit := derate (get_max_cell_voltage self)
                     (CELL_VOLTAGES_WHILE_CHARGING utils)
                     (MAX_CHARGE_CURRENT_CV utils) false in
     Ok (Some limit))
    (Ok (max_battery_charge_current self)).

Definition calcMaxDischargeCurrentReferringToCellVoltage (self : Battery) : res (option Q) :=
  try_except_Exception
    (let? limit := derate (get_min_cell_voltage self)
                     (CELL_VOLTAGES_WHILE_DISCHARGING utils)
                     (MAX_DISCHARGE_CURRENT_CV utils) true in
     Ok (Some limit))
    (Ok (max_battery_charge_current self)).

Definition calcMaxChargeCurrentReferringToTemperature (self : Battery) : res (option Q) :=
  match get_max_temp self with
  | None => Ok (max_battery_charge_current self)
  | Some _ =>
      let? at_max := derate (get_max_temp self)
                       (TEMPERATURES_WHILE_CHARGING utils)
                       (MAX_CHARGE_CURRENT_T utils) false in
      let? at_min := derate (get_min_temp self)
                       (TEMPERATURES_WHILE_CHARGING utils)
                       (MAX_CHARGE_CURRENT_T utils) false in
      Ok (Some (py_min at_max at_min))
  end.

Definition calcMaxDischargeCurrentReferringToTemperature (self : Battery) : res (option Q) :=
  match get_max_temp self with
  | None => Ok (max_battery_discharge_current self)
  | Some _ =>
      let? at_max := derate (get_max_temp self)
                       (TEMPERATURES_WHILE_DISCHARGING utils)
                       (MAX_DISCHARGE_CURRENT_T utils) true in
      let? at_min := derate (get_min_temp self)
                       (TEMPERATURES_WHILE_DISCHARGING utils)
                       (MAX_DISCHARGE_CURRENT_T utils) true in
      Ok (Some (py_min at_max at_min))
  end.

Definition calcMaxChargeCurrentReferringToSoc (self : Battery) : res (option Q) :=
  try_except_Exception
    (let? limit := derate (soc_calc self)
                     (SOC_WHILE_CHARGING utils)
                     (MAX_CHARGE_CURRENT_SOC utils) true in
     Ok (Some limit))
    (Ok (max_battery_charge_current self)).

Definition calcMaxDischargeCurrentReferringToSoc (self : Battery) : res (option Q) :=
  try_except_Exception
    (let? limit := derate (soc_calc self)
                     (SOC_WHILE_DISCHARGING utils)
                     (MAX_DISCHARGE_CURRENT_SOC utils) true in
     Ok (Some limit))
    (Ok (max_battery_discharge_current self)).

(** *** Current limiter: [manage_charge_current] *)

(** One derating rule entering the dictionary of limits:
    [if own != tmp: if tmp in limits: ... else: limits.update({tmp: rule})] *)
Definition add_limit (own tmp : option Q) (global rule : string) (limits : dict) : dict :=
  if py_ne own tmp then
    match dict_get tmp limits with
    | Some label =>
        if String.eqb label global then limits
        else dict_update tmp (label ++ ", " ++ rule) limits
    | None => dict_update tmp rule limits
    end
  else limits.

(** "set CCL to 0, if BMS does not allow to charge" *)
Definition add_zero (limits : dict) : dict :=
  match dict_get (Some 0) limits with
  | Some label => dict_update (Some 0) (label ++ ", BMS") limits
  | None => dict_update (Some 0) "BMS" limits
  end.

(** [fet is False] *)
Definition is_False (o : option bool) : bool :=
  match o with Some false => true | _ => false end.

(** The global ceiling and the limit read from the BMS. *)
Definition base_limits (ceiling : Q) (own : option Q) (global : string) : dict :=
  let limits := [(Some ceiling, global)] in
  match own with
  | Some m => if Qltb m ceiling then dict_update (Some m) "BMS Settings" limits else limits
  | None => limits
  end.

(** The candidates of the charge side, before the BMS gate. *)
Definition charge_candidates (self : Battery) : res dict :=
  let global := "Max Battery Charge Current" in
  let own := max_battery_charge_current self in
  let limits := base_limits (MAX_BATTERY_CHARGE_CURRENT utils) own global in
  let? limits :=
    if CCCM_CV_ENABLE utils then
      let? tmp := calcMaxChargeCurrentReferringToCellVoltage self in
      Ok (add_limit own tmp global "Cell Voltage" limits)
    else Ok limits in
  let? limits :=
    if CCCM_T_ENABLE utils then
      let? tmp := calcMaxChargeCurrentReferringToTemperature self in
      Ok (add_limit own tmp global "Temp" limits)
    else Ok limits in
  if CCCM_SOC_ENABLE utils then
    let? tmp := calcMaxChargeCurrentReferringToSoc self in
    Ok (add_limit own tmp global "SoC" limits)
  else Ok limits.

Definition charge_limits (self : Battery) : res dict :=
  let? limits := charge_candidates self in
  Ok (if is_False (charge_fet self) || block_because_disconnect self
      then add_zero limits else limits).

(** The candidates of the discharge side, before the BMS gate. *)
Definition discharge_candidates (self : Battery) : res dict :=
  let global := "Max Battery Discharge Current" in
  let own := max_battery_discharge_current self in
  let limits := base_limits (MAX_BATTERY_DISCHARGE_CURRENT utils) own global in
  let? limits :=
    if DCCM_CV_ENABLE utils then
      let? tmp := calcMaxDischargeCurrentReferringToCellVoltage self in
      Ok (add_limit own tmp global "Cell Voltage" limits)
    else Ok limits in
  let? limits :=
    if DCCM_T_ENABLE utils then
      let? tmp := calcMaxDischargeCurrentReferringToTemperature self in
      Ok (add_limit own tmp global "Temp" limits)
    else Ok limits in
  if DCCM_SOC_ENABLE utils then
    let? tmp := calcMaxDischargeCurrentReferringToSoc self in
    Ok (add_limit own tmp global "SoC" limits)
  else Ok limits.

Definition discharge_limits (self : Battery) : res dict :=
  let? limits := discharge_candidates self in
  Ok (if is_False (discharge_fet self) || block_because_disconnect self
      then add_zero limits else limits).

(** [round(min(limits), 3)] *)
Definition rounded_minimum (limits : dict) : res Q :=
  let? key := dict_min limits in
  let? least := num key in
  Ok (py_round least 3).

(** The test that lets a new limit through:
    [int(time()) - last_set >= EVERY or limit == 0 or diff >= previous * PERC / 100] *)
Definition commit_due (t_check last_set : Z) (limit : Q) (previous : option Q) : res bool :=
  let diff := match previous with
              | Some p => py_abs (p - limit)
              | None => 0
              end in
  if Qleb (LINEAR_RECALCULATION_EVERY utils) (inject_Z (t_check - last_set)) then Ok true
  else if Qeqb limit 0 then Ok true
  else
    let? p := num previous in
    Ok (Qleb (p * LINEAR_RECALCULATION_ON_PERC_CHANGE utils / 100) diff).

(** [== 0] decides the permission flag *)
Definition allowed_by (limit : option Q) : option bool :=
  Some (negb (py_eq limit (Some 0))).

(** The charge half; [t_check] and [t_set] are its two readings of
    [int(time())]. *)
Definition manage_charge_side (t_check t_set : Z) : M unit :=
  limits <- eval charge_limits ;;
  ccl <- lift (rounded_minimum limits) ;;
  due <- eval (fun self =>
      commit_due t_check (linear_ccl_last_set self) ccl (control_charge_current self)) ;;
  when due
    (modify (set_linear_ccl_last_set t_set) ;;
     modify (set_control_charge_current (Some ccl)) ;;
     label <- lift (let? key := dict_min limits in dict_item key limits) ;;
     modify (set_charge_limitation (Some label))) ;;
  committed <- gets (fun self => control_charge_current self) ;;
  modify (set_control_allow_charge (allowed_by committed)).

(** The discharge half. *)
Definition manage_discharge_side (t_check t_set : Z) : M unit :=
  limits <- eval discharge_limits ;;
  dcl <- lift (rounded_minimum limits) ;;
  due <- eval (fun self =>
      commit_due t_check (linear_dcl_last_set self) dcl (control_discharge_current self)) ;;
  when due
    (modify (set_linear_dcl_last_set t_set) ;;
     modify (set_control_discharge_current (Some dcl)) ;;
     label <- lift (let? key := dict_min limits in dict_item key limits) ;;
     modify (set_discharge_limitation (Some label))) ;;
  committed <- gets (fun self => control_discharge_current self) ;;
  modify (set_control_allow_discharge (allowed_by committed)).

(** [manage_charge_current] *)
Definition manage_charge_current (t1 t2 t3 t4 : Z) : M unit :=
  manage_charge_side t1 t2 ;;
  manage_discharge_side t3 t4.

End Engine.

(** ** Stand-ins for [utils] and example packs *)

(** Modelled from the spec: [utils.calcLinearRelationship] is not among the
    sources at hand.  Section 4.2, "Linear": clamp [x] to
    [[min(X), max(X)]]; find the bracketing segment [(xi, xi+1)] and return
    [yi + (x - xi)(yi+1 - yi)/(xi+1 - xi)].  A missing input is a
    [TypeError]; the callers turn it into the configured maximum. *)
Fixpoint bracket (x : Q) (xs ys : list Q) : res Q :=
  match xs, ys with
  | x0 :: ((x1 :: _) as xs'), y0 :: ((y1 :: _) as ys') =>
      if (Qleb x0 x && Qleb x x1) || (Qleb x1 x && Qleb x x0) then
        if Qeqb x1 x0 then Ok y0
        else Ok (y0 + (x - x0) * (y1 - y0) / (x1 - x0))
      else bracket x xs' ys'
  | _, _ => Raise ValueError
  end.

Definition calcLinearRelationship_model (x : option Q) (xs ys : list Q) : res Q :=
  let? v := num x in
  match min_list xs, max_list xs with
  | Some lo, Some hi => bracket (py_min (py_max v lo) hi) xs ys
  | _, _ => Raise ValueError
  end.

(** Modelled from the spec: [utils.calcStepRelationship] is not among the
    sources at hand.  Section 4.2, "Step": return the [Y] of the first
    segment whose [X] threshold is crossed, the flag selecting [<] versus
    [>]; inclusive at the upper endpoint for ascending, at the lower for
    descending. *)
Fixpoint first_crossed (x : Q) (xs ys : list Q) (ascending : bool) : res Q :=
  match xs, ys with
  | [_], [y] => Ok y
  | x0 :: xs', y0 :: ys' =>
      if (if ascending then Qleb x x0 else Qleb x0 x) then Ok y0
      else first_crossed x xs' ys' ascending
  | _, _ => Raise ValueError
  end.

Definition calcStepRelationship_model (x : option Q) (xs ys : list Q)
    (ascending : bool) : res Q :=
  let? v := num x in first_crossed v xs ys ascending.

(** The debug report is not interpreted. *)
Definition no_debug_text (_ : Battery) (_ _ _ : Q) (_ _ : Z) : string := "".

(** Modelled from the spec: the configuration of the scenarios of
    section 8 ([MAX_CELL_VOLTAGE = 3.45], [FLOAT_CELL_VOLTAGE = 3.375],
    [MIN_CELL_VOLTAGE = 2.9], [MAX_VOLTAGE_TIME_SEC = 900],
    [SOC_RESET_CURRENT = 5], a [VOLTAGE_DROP] of 0.1 V, the charge
    temperature curve of scenario F); the keys that the scenarios leave
    open hold ordinary values. *)
Definition example_config : Config :=
  {| SOC_CALCULATION := true;
     SOC_CALC_CURRENT_REPORTED_BY_BMS := [-300; 300];
     SOC_CALC_CURRENT_MEASURED_BY_USER := [-300; 300];
     MIN_CELL_VOLTAGE := 2.9;
     MAX_CELL_VOLTAGE := 3.45;
     FLOAT_CELL_VOLTAGE := 3.375;
     SOC_RESET_VOLTAGE := 3.65;
     SOC_RESET_AFTER_DAYS := None;
     SOC_RESET_CURRENT := 5;
     SOC_RESET_TIME := 60;
     VOLTAGE_DROP := 0.1;
     CVCM_ENABLE := true;
     LINEAR_LIMITATION_ENABLE := true;
     CVL_ICONTROLLER_MODE := false;
     CVL_ICONTROLLER_FACTOR := 0.2;
     MAX_VOLTAGE_TIME_SEC := 900;
     SOC_LEVEL_TO_RESET_VOLTAGE_LIMIT := 80;
     CELL_VOLTAGE_DIFF_KEEP_MAX_VOLTAGE_UNTIL := 0.01;
     CELL_VOLTAGE_DIFF_KEEP_MAX_VOLTAGE_TIME_RESTART := 0.1;
     CELL_VOLTAGE_DIFF_TO_RESET_VOLTAGE_LIMIT := 0.2;
     LINEAR_RECALCULATION_EVERY := 60;
     LINEAR_RECALCULATION_ON_PERC_CHANGE := 5;
     MAX_BATTERY_CHARGE_CURRENT := 100;
     MAX_BATTERY_DISCHARGE_CURRENT := 120;
     CCCM_CV_ENABLE := true;
     CCCM_T_ENABLE := true;
     CCCM_SOC_ENABLE := true;
     DCCM_CV_ENABLE := true;
     DCCM_T_ENABLE := true;
     DCCM_SOC_ENABLE := true;
     CELL_VOLTAGES_WHILE_CHARGING := [3.65; 3.55; 3.45; 3.3];
     MAX_CHARGE_CURRENT_CV := [0; 5; 100; 100];
     CELL_VOLTAGES_WHILE_DISCHARGING := [2.7; 2.8; 2.9; 3.1];
     MAX_DISCHARGE_CURRENT_CV := [0; 12; 120; 120];
     TEMPERATURES_WHILE_CHARGING := [0; 15; 45; 55];
     MAX_CHARGE_CURRENT_T := [50; 100; 50; 0];
     TEMPERATURES_WHILE_DISCHARGING := [-20; 0; 45; 55];
     MAX_DISCHARGE_CURRENT_T := [0; 120; 120; 0];
     SOC_WHILE_CHARGING := [100; 98; 95];
     MAX_CHARGE_CURRENT_SOC := [20; 100; 100];
     SOC_WHILE_DISCHARGING := [0; 10; 20];
     MAX_DISCHARGE_CURRENT_SOC := [12; 120; 120];
     LOGGER_DEBUG := false |}.

Definition cell_at (v : Q) : Cell := mkCell (Some v) (Some false) None.

(** A four-cell, 100 Ah pack as the driver and one voltage preparation
    leave it; [vs] are the cell voltages. *)
Definition example_pack (vs : list Q) (amps : Q) : Battery :=
  set_min_battery_voltage (Some 11.6)
    (set_max_battery_voltage (Some 13.8)
      (set_soc_reset_battery_voltage (Some 14.6)
        (set_temp1 (Some 25)
          (set_discharge_fet (Some true)
            (set_charge_fet (Some true)
              (set_soc (Some 90)
                (set_current (Some amps)
                  (set_cells (map cell_at vs)
                    (set_capacity (Some 100)
                      (set_cell_count (Some 4%Z)
                        (Battery_init "/dev/ttyUSB0" 9600 "0"))))))))))).

(** ** Vocabulary of the statements *)

(** A telemetry value is acceptable when it is missing or inside its bounds. *)
Definition within (lo hi : Q) (o : option Q) : Prop :=
  match o with
  | Some x => lo <= x <= hi
  | None => True
  end.

Definition magnitude_within (hi : Q) (o : option Q) : Prop :=
  match o with
  | Some x => Qabs x <= hi
  | None => True
  end.

(** A pack in Absorption: the timer runs since second 400, and the last
    excursion ended at second 7. *)
Definition absorbing_pack : Battery :=
  set_soc_calc (Some 99)
    (set_soc_reset_last_reached 7%Z
      (set_max_voltage_start_time (Some 400%Z)
        (example_pack [3.45; 3.45; 3.45; 3.45] 2))).

(** A pack without cell readings whose two ceilings differ. *)
Definition blind_pack : Battery :=
  set_max_battery_discharge_current (Some 120)
    (set_max_battery_charge_current (Some 70)
      (example_pack [] 0)).

(** Every candidate of a dictionary of limits is a number, and none is
    negative. *)
Definition nonneg_key (kv : option Q * string) : Prop :=
  match fst kv with
  | Some q => 0 <= q
  | None => False
  end.

Definition nonneg_keys (d : dict) : Prop := Forall nonneg_key d.

(** The state a method call leaves, and what it returns or raises. *)
Definition state_after {A} (m : M A) (s : Battery) : Battery := snd (m s).
Definition outcome {A} (m : M A) (s : Battery) : res A := fst (m s).

(** An optional number that is present and equal to [q]. *)
Definition is_num (o : option Q) (q : Q) : Prop :=
  match o with
  | Some x => x == q
  | None => False
  end.

(** The example pack after the supervisor latched a disconnect, and the
    candidates its two sides compute. *)
Definition disconnected_pack : Battery :=
  set_block_because_disconnect true
    (set_soc_calc (Some 90) (example_pack [3.3; 3.3; 3.3; 3.3] 20)).

(** What a computation returns, for the examples. *)
Definition returned {A} (default : A) (r : res A) : A :=
  match r with
  | Ok a => a
  | Raise _ => default
  end.

Definition disconnected_charging : dict :=
  Eval vm_compute in
    returned [] (charge_candidates example_config calcLinearRelationship_model
                   calcStepRelationship_model disconnected_pack).

Definition disconnected_discharging : dict :=
  Eval vm_compute in
    returned [] (discharge_candidates example_config calcLinearRelationship_model
                   calcStepRelationship_model disconnected_pack).

(** The example pack with a charge limit committed at second 990, and the
    limits it computes now. *)
Definition settled_pack : Battery :=
  set_linear_ccl_last_set 990%Z
    (set_charge_limitation (Some "Temp")
      (set_control_charge_current (Some 83.3)
        (set_soc_calc (Some 90) (example_pack [3.3; 3.3; 3.3; 3.3] 20)))).

Definition settled_limits : dict :=
  Eval vm_compute in
    returned [] (charge_limits example_config calcLinearRelationship_model
                   calcStepRelationship_model settled_pack).

Definition settled_ccl : Q :=
  Eval vm_compute in returned 0 (rounded_minimum settled_limits).




(** Scenario E of the spec: 92 Ah in the accumulator, lowest cell at
    3.43 V, the dwell timer running since second [start]. *)
Definition nearly_full_pack (amps : Q) (start : Z) : Battery :=
  set_soc_calc_reset_starttime (Some start)
    (set_soc_calc_capacity_remain_lasttime (Some 999)
      (set_soc_calc_capacity_remain (Some 92)
        (example_pack [3.43; 3.45; 3.45; 3.45] amps))).


(** More than [SOC_RESET_TIME] whole seconds since [start]. *)
Definition dwell_exceeds (utils : Config) (now : Q) (start : option Z) : bool :=
  match start with
  | Some t0 => Qltb (SOC_RESET_TIME utils) (inject_Z (py_int now - t0))
  | None => false
  end.



(** The accumulator after integration and clamping. *)
Definition integrated_remain (r0 corrected now last c : Q) : Q :=
  py_max (py_min (r0 + py_round corrected 2 * (now - last) / 3600) c) 0.


Definition corrected_current (amps : Q) : Q :=
  returned 0 (calcLinearRelationship_model (Some amps)
                (SOC_CALC_CURRENT_REPORTED_BY_BMS example_config)
                (SOC_CALC_CURRENT_MEASURED_BY_USER example_config)).


(** *** The pack as the voltage controller sees it *)

(** The cells the loops visit: the first [cell_count] of the list. *)
Definition cells_polled (n : Z) (s : Battery) : list Cell :=
  firstn (Z.to_nat n) (cells s).

(** The voltages the loops add up: present and not zero. *)
Definition live_voltages (l : list Cell) : list Q :=
  flat_map (fun c => match cell_voltage c with
                     | Some v => if Qeqb v 0 then [] else [v]
                     | None => []
                     end) l.

Definition Qsum (l : list Q) : Q := fold_right Qplus 0 l.

(** The per-cell ceiling in force: [SOC_RESET_VOLTAGE] during the
    excursion, [MAX_CELL_VOLTAGE] otherwise. *)
Definition active_ceiling (utils : Config) (s : Battery) : Q :=
  if py_eq (max_battery_voltage s) (soc_reset_battery_voltage s)
  then SOC_RESET_VOLTAGE utils else MAX_CELL_VOLTAGE utils.

(** By how much a cell exceeds the ceiling, and the total over a pack. *)
Definition overshoot (ceiling v : Q) : Q :=
  if Qltb ceiling v then v - ceiling else 0.

Definition overshoot_total (ceiling : Q) (l : list Q) : Q :=
  Qsum (map (overshoot ceiling) l).

(** One live cell entering the running sums of the scan. *)
Definition penalty_add (ceiling : Q) (acc : Q * Q * bool) (v : Q) : Q * Q * bool :=
  let '(voltage_sum, penalty_sum, found) := acc in
  if Qltb ceiling v then (voltage_sum + v, penalty_sum + (v - ceiling), true)
  else (voltage_sum + v, penalty_sum, found).

(** [clamp(x, lo, hi)] rounded to 3 decimals, as the penalty regulator
    computes it. *)
Definition clamp3 (x lo hi : Q) : Q := py_round (py_min (py_max x lo) hi) 3.

(** The float voltage of the pack as the controller computes it. *)
Definition float_voltage (utils : Config) (n : Z) : Q :=
  py_round (FLOAT_CELL_VOLTAGE utils * inject_Z n) 3.

(** The voltage the ramp asks for, [elapsed] seconds into the transition. *)
Definition ramp_target (initial floatV : Q) (elapsed : Z) : Q :=
  initial - py_min ((1 # 100) / 10 * inject_Z elapsed) (initial - floatV).

(** The pack [s] with the cells [before ++ [c] ++ after], where the cell
    [c] reads [v] volts. *)
Definition pack_with_cell (before after : list Cell) (balance : option bool)
    (temp : option Q) (v : Q) (s : Battery) : Battery :=
  set_cells (before ++ mkCell (Some v) balance temp :: after) s.

(** *** Example packs for the voltage controller *)

(** A configuration with another float voltage per cell. *)
Definition with_float_cell_voltage (v : Q) (c : Config) : Config :=
  mkConfig
    (SOC_CALCULATION c) (SOC_CALC_CURRENT_REPORTED_BY_BMS c)
    (SOC_CALC_CURRENT_MEASURED_BY_USER c) (MIN_CELL_VOLTAGE c)
    (MAX_CELL_VOLTAGE c) v (SOC_RESET_VOLTAGE c) (SOC_RESET_AFTER_DAYS c)
    (SOC_RESET_CURRENT c) (SOC_RESET_TIME c) (VOLTAGE_DROP c) (CVCM_ENABLE
    c) (LINEAR_LIMITATION_ENABLE c) (CVL_ICONTROLLER_MODE c)
    (CVL_ICONTROLLER_FACTOR c) (MAX_VOLTAGE_TIME_SEC c)
    (SOC_LEVEL_TO_RESET_VOLTAGE_LIMIT c)
    (CELL_VOLTAGE_DIFF_KEEP_MAX_VOLTAGE_UNTIL c)
    (CELL_VOLTAGE_DIFF_KEEP_MAX_VOLTAGE_TIME_RESTART c)
    (CELL_VOLTAGE_DIFF_TO_RESET_VOLTAGE_LIMIT c) (LINEAR_RECALCULATION_EVERY
    c) (LINEAR_RECALCULATION_ON_PERC_CHANGE c) (MAX_BATTERY_CHARGE_CURRENT
    c) (MAX_BATTERY_DISCHARGE_CURRENT c) (CCCM_CV_ENABLE c) (CCCM_T_ENABLE
    c) (CCCM_SOC_ENABLE c) (DCCM_CV_ENABLE c) (DCCM_T_ENABLE c)
    (DCCM_SOC_ENABLE c) (CELL_VOLTAGES_WHILE_CHARGING c)
    (MAX_CHARGE_CURRENT_CV c) (CELL_VOLTAGES_WHILE_DISCHARGING c)
    (MAX_DISCHARGE_CURRENT_CV c) (TEMPERATURES_WHILE_CHARGING c)
    (MAX_CHARGE_CURRENT_T c) (TEMPERATURES_WHILE_DISCHARGING c)
    (MAX_DISCHARGE_CURRENT_T c) (SOC_WHILE_CHARGING c)
    (MAX_CHARGE_CURRENT_SOC c) (SOC_WHILE_DISCHARGING c)
    (MAX_DISCHARGE_CURRENT_SOC c) (LOGGER_DEBUG c).

(** Scenario C of the spec: one cell at 3.50 V, three at 3.44 V, Bulk. *)
Definition unbalanced_pack : Battery :=
  set_soc_calc (Some 90) (example_pack [3.5; 3.44; 3.44; 3.44] 20).



(** A pack in Absorption since second 400 whose first cell is the only one
    that may be high; the other three read 3.44 V. *)
Definition absorbing_base : Battery :=
  set_soc_calc (Some 99)
    (set_max_voltage_start_time (Some 400%Z) (example_pack [] 20)).

Definition three_cells : list Cell := map cell_at [3.44; 3.44; 3.44].

Definition high_cell_pack (v : Q) : Battery :=
  pack_with_cell [] three_cells (Some false) None v absorbing_base.

(** Scenario D of the spec: a pack that left Absorption at second [start]
    with a CVL of 13.80 V and is ramping down to the float voltage. *)
Definition floating_pack (start : Z) : Battery :=
  set_initial_control_voltage (Some 13.8)
    (set_transition_start_time (Some start)
      (set_charge_mode (Some "Float Transition (Linear Mode)")
        (set_control_voltage (Some 13.8)
          (set_allow_max_voltage false
            (set_soc_calc (Some 99)
              (example_pack [3.4; 3.4; 3.4; 3.4] 0)))))).


Definition floating_diff : Q :=
  Eval vm_compute in returned 0 (cell_voltage_diff (floating_pack 1000)).



Definition set_temp3 (v : option Q) (b : Battery) : Battery :=
  mkBattery
    (port b) (baud_rate b) (role b) (type b) (poll_interval b) (online b)
    (hardware_version b) (cell_count b) (max_battery_charge_current b)
    (max_battery_discharge_current b) (has_settings b)
    (soc_calc_capacity_remain b) (soc_calc_capacity_remain_lasttime b)
    (soc_calc_reset_starttime b) (soc_calc b) (soc b) (charge_fet b)
    (discharge_fet b) (balance_fet b) (block_because_disconnect b)
    (control_charge_current b) (control_discharge_current b)
    (control_allow_charge b) (control_allow_discharge b) (custom_field b)
    (voltage b) (current b) (current_avg b) (current_avg_lst b)
    (current_corrected b) (capacity_remain b) (capacity b) (cycles b)
    (total_ah_drawn b) (production b) (protection b) (version b)
    (time_to_soc_update b) (temp_sensors b) (temp1 b) (temp2 b) v (temp4 b)
    (temp_mos b) (cells b) (control_voltage b) (soc_reset_requested b)
    (soc_reset_last_reached b) (soc_reset_battery_voltage b)
    (max_battery_voltage b) (min_battery_voltage b) (allow_max_voltage b)
    (max_voltage_start_time b) (transition_start_time b) (charge_mode b)
    (charge_mode_debug b) (charge_limitation b) (discharge_limitation b)
    (linear_cvl_last_set b) (linear_ccl_last_set b) (linear_dcl_last_set b)
    (available_callbacks b) (initial_control_voltage b) (cell_min_voltage b)
    (cell_max_voltage b).

Definition set_temp4 (v : option Q) (b : Battery) : Battery :=
  mkBattery
    (port b) (baud_rate b) (role b) (type b) (poll_interval b) (online b)
    (hardware_version b) (cell_count b) (max_battery_charge_current b)
    (max_battery_discharge_current b) (has_settings b)
    (soc_calc_capacity_remain b) (soc_calc_capacity_remain_lasttime b)
    (soc_calc_reset_starttime b) (soc_calc b) (soc b) (charge_fet b)
    (discharge_fet b) (balance_fet b) (block_because_disconnect b)
    (control_charge_current b) (control_discharge_current b)
    (control_allow_charge b) (control_allow_discharge b) (custom_field b)
    (voltage b) (current b) (current_avg b) (current_avg_lst b)
    (current_corrected b) (capacity_remain b) (capacity b) (cycles b)
    (total_ah_drawn b) (production b) (protection b) (version b)
    (time_to_soc_update b) (temp_sensors b) (temp1 b) (temp2 b) (temp3 b) v
    (temp_mos b) (cells b) (control_voltage b) (soc_reset_requested b)
    (soc_reset_last_reached b) (soc_reset_battery_voltage b)
    (max_battery_voltage b) (min_battery_voltage b) (allow_max_voltage b)
    (max_voltage_start_time b) (transition_start_time b) (charge_mode b)
    (charge_mode_debug b) (charge_limitation b) (discharge_limitation b)
    (linear_cvl_last_set b) (linear_ccl_last_set b) (linear_dcl_last_set b)
    (available_callbacks b) (initial_control_voltage b) (cell_min_voltage b)
    (cell_max_voltage b).

Definition set_temp_mos (v : option Q) (b : Battery) : Battery :=
  mkBattery
    (port b) (baud_rate b) (role b) (type b) (poll_interval b) (online b)
    (hardware_version b) (cell_count b) (max_battery_charge_current b)
    (max_battery_discharge_current b) (has_settings b)
    (soc_calc_capacity_remain b) (soc_calc_capacity_remain_lasttime b)
    (soc_calc_reset_starttime b) (soc_calc b) (soc b) (charge_fet b)
    (discharge_fet b) (balance_fet b) (block_because_disconnect b)
    (control_charge_current b) (control_discharge_current b)
    (control_allow_charge b) (control_allow_discharge b) (custom_field b)
    (voltage b) (current b) (current_avg b) (current_avg_lst b)
    (current_corrected b) (capacity_remain b) (capacity b) (cycles b)
    (total_ah_drawn b) (production b) (protection b) (version b)
    (time_to_soc_update b) (temp_sensors b) (temp1 b) (temp2 b) (temp3 b)
    (temp4 b) v (cells b) (control_voltage b) (soc_reset_requested b)
    (soc_reset_last_reached b) (soc_reset_battery_voltage b)
    (max_battery_voltage b) (min_battery_voltage b) (allow_max_voltage b)
    (max_voltage_start_time b) (transition_start_time b) (charge_mode b)
    (charge_mode_debug b) (charge_limitation b) (discharge_limitation b)
    (linear_cvl_last_set b) (linear_ccl_last_set b) (linear_dcl_last_set b)
    (available_callbacks b) (initial_control_voltage b) (cell_min_voltage b)
    (cell_max_voltage b).

Definition set_capacity_remain (v : option Q) (b : Battery) : Battery :=
  mkBattery
    (port b) (baud_rate b) (role b) (type b) (poll_interval b) (online b)
    (hardware_version b) (cell_count b) (max_battery_charge_current b)
    (max_battery_discharge_current b) (has_settings b)
    (soc_calc_capacity_remain b) (soc_calc_capacity_remain_lasttime b)
    (soc_calc_reset_starttime b) (soc_calc b) (soc b) (charge_fet b)
    (discharge_fet b) (balance_fet b) (block_because_disconnect b)
    (control_charge_current b) (control_discharge_current b)
    (control_allow_charge b) (control_allow_discharge b) (custom_field b)
    (voltage b) (current b) (current_avg b) (current_avg_lst b)
    (current_corrected b) v (capacity b) (cycles b) (total_ah_drawn b)
    (production b) (protection b) (version b) (time_to_soc_update b)
    (temp_sensors b) (temp1 b) (temp2 b) (temp3 b) (temp4 b) (temp_mos b)
    (cells b) (control_voltage b) (soc_reset_requested b)
    (soc_reset_last_reached b) (soc_reset_battery_voltage b)
    (max_battery_voltage b) (min_battery_voltage b) (allow_max_voltage b)
    (max_voltage_start_time b) (transition_start_time b) (charge_mode b)
    (charge_mode_debug b) (charge_limitation b) (discharge_limitation b)
    (linear_cvl_last_set b) (linear_ccl_last_set b) (linear_dcl_last_set b)
    (available_callbacks b) (initial_control_voltage b) (cell_min_voltage b)
    (cell_max_voltage b).
(** ** Read-outs: the methods that publish the state *)

(** The constants of [utils] that the read-out methods consult. *)
Record Readout : Type := mkReadout {
  MIDPOINT_ENABLE : bool;
  (* 1 to 4 names a sensor; any other value asks for the median *)
  TEMP_BATTERY : Z;
  TEMP_1_NAME : string;
  TEMP_2_NAME : string;
  TEMP_3_NAME : string;
  TEMP_4_NAME : string;
  (* bit 0: the seconds as a number, bit 1: the seconds as text *)
  TIME_TO_SOC_VALUE_TYPE : Z;
  TIME_TO_SOC_INC_FROM : bool
}.

(** [str(n)] of an [int] *)
Definition py_str_int (n : Z) : string := NilZero.string_of_int (Z.to_int n).

(** [str.isspace] on the characters of ASCII *)
Definition py_isspace (a : ascii) : bool :=
  let n := nat_of_ascii a in
  ((9 <=? n) && (n <=? 13) || (28 <=? n) && (n <=? 32))%nat.

(** [s.rstrip()] *)
Fixpoint rstrip (s : string) : string :=
  match s with
  | EmptyString => EmptyString
  | String a s' =>
      match rstrip s' with
      | EmptyString => if py_isspace a then EmptyString else String a EmptyString
      | r => String a r
      end
  end.

(** [sum(...)] of a generator of numbers: a left fold from [0] *)
Definition py_sum (l : list Q) : Q := fold_left Qplus l 0.

(** [sorted(l)]: stable, ascending *)
Fixpoint py_insert (x : Q) (l : list Q) : list Q :=
  match l with
  | [] => [x]
  | y :: l' => if Qltb y x then y :: py_insert x l' else x :: l
  end%list.

Definition py_sorted (l : list Q) : list Q := fold_right py_insert [] l.

(** [to_temp]: the five [if]s of the method, in order. *)
Definition to_temp (sensor : Z) (value : Q) (self : Battery) : Battery :=
  let kept := Some (py_round (py_min (py_max value (-20)) 100) 1) in
  let self := if (sensor =? 0)%Z then set_temp_mos kept self else self in
  let self := if (sensor =? 1)%Z then set_temp1 kept self else self in
  let self := if (sensor =? 2)%Z then set_temp2 kept self else self in
  let self := if (sensor =? 3)%Z then set_temp3 kept self else self in
  if (sensor =? 4)%Z then set_temp4 kept self else self.

(** One round of the loop of [get_min_cell]: the running
    [(min_voltage, min_cell)].  The index is below [len(self.cells)], so
    the lookup does not fail. *)
Definition min_cell_step (self : Battery) (acc : Q * option Z) (c : nat)
    : Q * option Z :=
  match nth_error (cells self) c with
  | Some cell =>
      match cell_voltage cell with
      | Some v => if Qltb v (fst acc) then (v, Some (Z.of_nat c)) else acc
      | None => acc
      end
  | None => acc
  end.

(** [get_min_cell].  [cell_min_no] is an attribute that only a driver
    creates: the outer [option] is [hasattr(self, "cell_min_no")]. *)
Definition get_min_cell (cell_min_no : option (option Z)) (self : Battery)
    : res (option Z) :=
  match cells self, cell_min_no with
  | [], Some no => Ok no
  | _, _ =>
      let? m := cells_in_use self in
      Ok (snd (fold_left (min_cell_step self) (range m) (9999, None)))
  end%list.

Definition max_cell_step (self : Battery) (acc : Q * option Z) (c : nat)
    : Q * option Z :=
  match nth_error (cells self) c with
  | Some cell =>
      match cell_voltage cell with
      | Some v => if Qltb (fst acc) v then (v, Some (Z.of_nat c)) else acc
      | None => acc
      end
  | None => acc
  end.

(** [get_max_cell]; [cell_max_no] as [cell_min_no] above. *)
Definition get_max_cell (cell_max_no : option (option Z)) (self : Battery)
    : res (option Z) :=
  match cells self, cell_max_no with
  | [], Some no => Ok no
  | _, _ =>
      let? m := cells_in_use self in
      Ok (snd (fold_left (max_cell_step self) (range m) (0, None)))
  end%list.

(** [cell_no if cell_no is None else "C" + str(cell_no + 1)] *)
Definition cell_desc (cell_no : option Z) : option string :=
  match cell_no with
  | None => None
  | Some no => Some ("C" ++ py_str_int (no + 1))
  end.

Definition get_min_cell_desc (cell_min_no : option (option Z)) (self : Battery)
    : res (option string) :=
  let? cell_no := get_min_cell cell_min_no self in Ok (cell_desc cell_no).

Definition get_max_cell_desc (cell_max_no : option (option Z)) (self : Battery)
    : res (option string) :=
  let? cell_no := get_max_cell cell_max_no self in Ok (cell_desc cell_no).

(** [get_cell_balancing] *)
Definition get_cell_balancing (self : Battery) (idx : nat) : res (option Z) :=
  let? m := cells_in_use self in
  if (m <=? Z.of_nat idx)%Z then Ok None
  else Ok (match nth_error (cells self) idx with
           | Some c => Some (if is_true (cell_balance c) then 1 else 0)%Z
           | None => None
           end).

(** [get_capacity_remain] *)
Definition get_capacity_remain (self : Battery) : option Q :=
  match capacity_remain self with
  | Some r => Some r
  | None =>
      match capacity self, soc_calc self with
      | Some c, Some p => Some (c * p / 100)
      | _, _ => None
      end
  end.

(** [get_secondsToString] *)
Definition get_secondsToString (timespan : Z) (precision : Z) : string :=
  let tmp := if (0 <=? timespan)%Z then "" else "-" in
  let timespan := Z.abs timespan in
  let m := (timespan / 60)%Z in
  let s := (timespan mod 60)%Z in
  let h := (m / 60)%Z in
  let m := (m mod 60)%Z in
  let d := (h / 24)%Z in
  let h := (h mod 24)%Z in
  let tmp := tmp ++ (if (0 <? d)%Z then py_str_int d ++ "d " else "") in
  let tmp := tmp ++ (if (1 <=? precision)%Z && (0 <? h)%Z
                     then py_str_int h ++ "h " else "") in
  let tmp := tmp ++ (if (2 <=? precision)%Z && (0 <? m)%Z
                     then py_str_int m ++ "m " else "") in
  let tmp := tmp ++ (if (precision =? 3)%Z && (0 <? s)%Z
                     then py_str_int s ++ "s " else "") in
  rstrip tmp.

(** [utils.TIME_TO_SOC_VALUE_TYPE & bit], as a truth value *)
Definition value_type_has (cfg : Readout) (bit : Z) : bool :=
  negb (Z.land (TIME_TO_SOC_VALUE_TYPE cfg) bit =? 0)%Z.

(** [get_timeToSoc] *)
Definition get_timeToSoc (cfg : Readout) (soc_target percent_per_second : Q)
    (only_number : bool) (self : Battery) : res (option string) :=
  let? i := num (current self) in
  let? level := num (soc_calc self) in
  let soc_diff := if Qltb 0 i then soc_target - level else level - soc_target in
  if Qltb soc_diff 0 then Ok None
  else if negb (Qeqb level soc_target) && negb (Qeqb percent_per_second 0)
          && (Qltb 0 soc_diff || TIME_TO_SOC_INC_FROM cfg)
  then
    let seconds_to_go := py_int (soc_diff / percent_per_second) in
    let time_to_go_str := "" in
    let time_to_go_str :=
      if only_number || value_type_has cfg 1 then
        time_to_go_str ++ py_str_int seconds_to_go
        ++ (if negb only_number && value_type_has cfg 2 then " [" else "")
      else time_to_go_str in
    let time_to_go_str :=
      if negb only_number && value_type_has cfg 2 then
        time_to_go_str ++ get_secondsToString seconds_to_go 3
        ++ (if value_type_has cfg 1 then "]" else "")
      else time_to_go_str in
    Ok (Some time_to_go_str)
  else Ok None.

(** [get_midvoltage].  Neither [except ValueError] clause catches what the
    body can raise: the [TypeError] of a middle cell without a reading and
    the [ZeroDivisionError] of two halves that add up to zero. *)
Definition get_midvoltage (cfg : Readout) (self : Battery)
    : res (option Q * option Q) :=
  if negb (MIDPOINT_ENABLE cfg) then Ok (None, None)
  else
    match cell_count self with
    | None => Ok (None, None)
    | Some n =>
        if (n =? 0)%Z || (n <? 4)%Z
           || negb (Z.of_nat (List.length (cells self)) =? n)%Z
        then Ok (None, None)
        else
          let halfcount := Z.to_nat (n / 2) in
          let uneven_cells_offset := Z.to_nat (n mod 2) in
          let half1voltage :=
            py_sum (known_voltages (firstn halfcount (cells self))) in
          let half2voltage :=
            py_sum (known_voltages
                      (skipn (halfcount + uneven_cells_offset) (cells self))) in
          let? extra :=
            if (n mod 2 =? 0)%Z then Ok 0
            else
              match nth_error (cells self) halfcount with
              | Some c => let? v := num (cell_voltage c) in Ok (v / 2)
              | None => Raise OtherException
              end in
          let midpoint := half1voltage + extra in
          let? ratio := py_div (half2voltage - half1voltage)
                          (half2voltage + half1voltage) in
          Ok (Some (py_abs midpoint), Some (py_abs (ratio * 100)))
    end.

(** [get_temp] *)
Definition get_temp (cfg : Readout) (self : Battery) : option Q :=
  if (TEMP_BATTERY cfg =? 1)%Z then temp1 self
  else if (TEMP_BATTERY cfg =? 2)%Z then temp2 self
  else if (TEMP_BATTERY cfg =? 3)%Z then temp3 self
  else if (TEMP_BATTERY cfg =? 4)%Z then temp4 self
  else
    let temps := known_temps self in
    let n := List.length temps in
    match temps with
    | [] => None
    | _ :: _ =>
        let data := py_sorted temps in
        if (n mod 2 =? 1)%nat then Some (nth (n / 2) data 0)
        else
          let i := (n / 2)%nat in
          Some ((nth (i - 1) data 0 + nth i data 0) / 2)
    end%list.

(** [[(t, i) for i, t in enumerate([temp1, ..., temp4]) if t is not None]] *)
Definition indexed_temps (self : Battery) : list (Q * nat) :=
  flat_map (fun it => match snd it with
                      | Some t => [(t, fst it)]
                      | None => []
                      end)%list
           (combine (seq 0 4) [temp1 self; temp2 self; temp3 self; temp4 self]).

(** [a < b] between two [(t, i)]: the first components decide unless they
    are equal. *)
Definition pair_lt (a b : Q * nat) : bool :=
  if Qeqb (fst a) (fst b) then (snd a <? snd b)%nat else Qltb (fst a) (fst b).

(** The chain of [if index == ...: return utils.TEMP_..._NAME]; falling off
    its end returns [None]. *)
Definition temp_name (cfg : Readout) (index : nat) : option string :=
  match index with
  | 0 => Some (TEMP_1_NAME cfg)
  | 1 => Some (TEMP_2_NAME cfg)
  | 2 => Some (TEMP_3_NAME cfg)
  | 3 => Some (TEMP_4_NAME cfg)
  | _ => None
  end%nat.

(** [min(temps)] and [max(temps)] of a list of pairs that is not empty *)
Definition min_pair (x : Q * nat) (l : list (Q * nat)) : Q * nat :=
  fold_left (fun m y => if pair_lt y m then y else m) l x.

Definition max_pair (x : Q * nat) (l : list (Q * nat)) : Q * nat :=
  fold_left (fun m y => if pair_lt m y then y else m) l x.

Definition get_min_temp_id (cfg : Readout) (self : Battery) : option string :=
  match indexed_temps self with
  | [] => None
  | x :: l => temp_name cfg (snd (min_pair x l))
  end%list.

Definition get_max_temp_id (cfg : Readout) (self : Battery) : option string :=
  match indexed_temps self with
  | [] => None
  | x :: l => temp_name cfg (snd (max_pair x l))
  end%list.

(** [get_mos_temp] *)
Definition get_mos_temp (self : Battery) : option Q := temp_mos self.

(** *** Vocabulary of the read-outs *)

(** What sensor [sensor] last stored: 0 is the MOSFET sensor. *)
Definition sensor_reading (sensor : Z) (s : Battery) : option Q :=
  if (sensor =? 0)%Z then temp_mos s
  else if (sensor =? 1)%Z then temp1 s
  else if (sensor =? 2)%Z then temp2 s
  else if (sensor =? 3)%Z then temp3 s
  else if (sensor =? 4)%Z then temp4 s
  else None.

(** The voltage cell [c] reports, if the cell exists and has a reading. *)
Definition voltage_at (s : Battery) (c : nat) : option Q :=
  match nth_error (cells s) c with
  | Some cell => cell_voltage cell
  | None => None
  end.

(** Cell [c] is one the loops visit: below [cell_count] (and, having a
    reading, below [len(cells)]). *)
Definition polled (s : Battery) (c : nat) : Prop :=
  match cell_count s with
  | Some n => (Z.of_nat c < n)%Z
  | None => False
  end.

(** A pack with the cell readings [vs] and a cell count of [n]. *)
Definition pack_of (vs : list (option Q)) (n : Z) : Battery :=
  set_cells (map (fun v => mkCell v (Some false) None) vs)
    (set_cell_count (Some n) (Battery_init "/dev/ttyUSB0" 9600 "0")).

(** A text made of white space only. *)
Fixpoint all_space (s : string) : bool :=
  match s with
  | EmptyString => true
  | String a s' => py_isspace a && all_space s'
  end.

(** The configuration [cfg] with another [TIME_TO_SOC_INC_FROM]. *)
Definition with_inc_from (b : bool) (cfg : Readout) : Readout :=
  mkReadout (MIDPOINT_ENABLE cfg) (TEMP_BATTERY cfg) (TEMP_1_NAME cfg)
    (TEMP_2_NAME cfg) (TEMP_3_NAME cfg) (TEMP_4_NAME cfg)
    (TIME_TO_SOC_VALUE_TYPE cfg) b.

(** The constants of the read-outs at their usual values: the median
    temperature, seconds and text for the time to go. *)
Definition example_readout : Readout :=
  {| MIDPOINT_ENABLE := true;
     TEMP_BATTERY := 0;
     TEMP_1_NAME := "Temp 1";
     TEMP_2_NAME := "Temp 2";
     TEMP_3_NAME := "Temp 3";
     TEMP_4_NAME := "Temp 4";
     TIME_TO_SOC_VALUE_TYPE := 3;
     TIME_TO_SOC_INC_FROM := false |}.

(** The target lies behind the direction of travel, or is where the pack
    already is: not above the SoC while charging, not below it otherwise. *)
Definition target_not_ahead (i level soc_target : Q) : Prop :=
  if Qltb 0 i then soc_target <= level else level <= soc_target.

(** The reading of temperature sensor [i], counted from 0 as
    [enumerate] does. *)
Definition sensor_temp (s : Battery) (i : nat) : option Q :=
  nth i [temp1 s; temp2 s; temp3 s; temp4 s] None.

(** *** Vocabulary of the voltage preparation and of the step controller *)

(** The SoC-reset excursion is due: the test of
    [prepare_voltage_management]. *)
Definition soc_reset_due (utils : Config) (now : Z) (s : Battery) : bool :=
  match SOC_RESET_AFTER_DAYS utils with
  | Some days =>
      negb (soc_reset_requested s) && allow_max_voltage s
      && ((soc_reset_last_reached s =? 0)%Z
          || Qltb days
               (if (soc_reset_last_reached s =? 0)%Z then 0
                else inject_Z (now - soc_reset_last_reached s) / 60 / 60 / 24))
  | None => false
  end.

(** The state [prepare_voltage_management] leaves on a pack of [n] cells. *)
Definition prepared (utils : Config) (now n : Z) (s : Battery) : Battery :=
  let s1 := if soc_reset_due utils now s then set_soc_reset_requested true s
            else s in
  let reset_voltage := py_round (SOC_RESET_VOLTAGE utils * inject_Z n) 2 in
  set_min_battery_voltage
    (Some (py_round (MIN_CELL_VOLTAGE utils * inject_Z n) 2))
    (set_max_battery_voltage
       (Some (if soc_reset_requested s1 then reset_voltage
              else py_round (MAX_CELL_VOLTAGE utils * inject_Z n) 2))
       (set_soc_reset_battery_voltage (Some reset_voltage) s1)).

(** What both controllers leave when their [try] block raises
    [TypeError]. *)
Definition dashed (s : Battery) : Battery :=
  set_charge_mode (Some "--") (set_control_voltage None s).

(** The example configuration with a SoC-reset excursion every 30 days. *)
Definition with_soc_reset_after_days (d : option Q) (c : Config) : Config :=
  mkConfig
    (SOC_CALCULATION c) (SOC_CALC_CURRENT_REPORTED_BY_BMS c)
    (SOC_CALC_CURRENT_MEASURED_BY_USER c) (MIN_CELL_VOLTAGE c)
    (MAX_CELL_VOLTAGE c) (FLOAT_CELL_VOLTAGE c) (SOC_RESET_VOLTAGE c) d
    (SOC_RESET_CURRENT c) (SOC_RESET_TIME c) (VOLTAGE_DROP c) (CVCM_ENABLE
    c) (LINEAR_LIMITATION_ENABLE c) (CVL_ICONTROLLER_MODE c)
    (CVL_ICONTROLLER_FACTOR c) (MAX_VOLTAGE_TIME_SEC c)
    (SOC_LEVEL_TO_RESET_VOLTAGE_LIMIT c)
    (CELL_VOLTAGE_DIFF_KEEP_MAX_VOLTAGE_UNTIL c)
    (CELL_VOLTAGE_DIFF_KEEP_MAX_VOLTAGE_TIME_RESTART c)
    (CELL_VOLTAGE_DIFF_TO_RESET_VOLTAGE_LIMIT c) (LINEAR_RECALCULATION_EVERY
    c) (LINEAR_RECALCULATION_ON_PERC_CHANGE c) (MAX_BATTERY_CHARGE_CURRENT
    c) (MAX_BATTERY_DISCHARGE_CURRENT c) (CCCM_CV_ENABLE c) (CCCM_T_ENABLE
    c) (CCCM_SOC_ENABLE c) (DCCM_CV_ENABLE c) (DCCM_T_ENABLE c)
    (DCCM_SOC_ENABLE c) (CELL_VOLTAGES_WHILE_CHARGING c)
    (MAX_CHARGE_CURRENT_CV c) (CELL_VOLTAGES_WHILE_DISCHARGING c)
    (MAX_DISCHARGE_CURRENT_CV c) (TEMPERATURES_WHILE_CHARGING c)
    (MAX_CHARGE_CURRENT_T c) (TEMPERATURES_WHILE_DISCHARGING c)
    (MAX_DISCHARGE_CURRENT_T c) (SOC_WHILE_CHARGING c)
    (MAX_CHARGE_CURRENT_SOC c) (SOC_WHILE_DISCHARGING c)
    (MAX_DISCHARGE_CURRENT_SOC c) (LOGGER_DEBUG c).

Definition excursion_config : Config :=
  with_soc_reset_after_days (Some 30) example_config.

(** A configuration in which the voltage is not managed and the SoC of the
    BMS is taken as it is. *)
Definition without_cvcm (c : Config) : Config :=
  mkConfig
    false (SOC_CALC_CURRENT_REPORTED_BY_BMS c)
    (SOC_CALC_CURRENT_MEASURED_BY_USER c) (MIN_CELL_VOLTAGE c)
    (MAX_CELL_VOLTAGE c) (FLOAT_CELL_VOLTAGE c) (SOC_RESET_VOLTAGE c)
    (SOC_RESET_AFTER_DAYS c) (SOC_RESET_CURRENT c) (SOC_RESET_TIME c)
    (VOLTAGE_DROP c) false (LINEAR_LIMITATION_ENABLE c)
    (CVL_ICONTROLLER_MODE c) (CVL_ICONTROLLER_FACTOR c)
    (MAX_VOLTAGE_TIME_SEC c) (SOC_LEVEL_TO_RESET_VOLTAGE_LIMIT c)
    (CELL_VOLTAGE_DIFF_KEEP_MAX_VOLTAGE_UNTIL c)
    (CELL_VOLTAGE_DIFF_KEEP_MAX_VOLTAGE_TIME_RESTART c)
    (CELL_VOLTAGE_DIFF_TO_RESET_VOLTAGE_LIMIT c) (LINEAR_RECALCULATION_EVERY
    c) (LINEAR_RECALCULATION_ON_PERC_CHANGE c) (MAX_BATTERY_CHARGE_CURRENT
    c) (MAX_BATTERY_DISCHARGE_CURRENT c) (CCCM_CV_ENABLE c) (CCCM_T_ENABLE
    c) (CCCM_SOC_ENABLE c) (DCCM_CV_ENABLE c) (DCCM_T_ENABLE c)
    (DCCM_SOC_ENABLE c) (CELL_VOLTAGES_WHILE_CHARGING c)
    (MAX_CHARGE_CURRENT_CV c) (CELL_VOLTAGES_WHILE_DISCHARGING c)
    (MAX_DISCHARGE_CURRENT_CV c) (TEMPERATURES_WHILE_CHARGING c)
    (MAX_CHARGE_CURRENT_T c) (TEMPERATURES_WHILE_DISCHARGING c)
    (MAX_DISCHARGE_CURRENT_T c) (SOC_WHILE_CHARGING c)
    (MAX_CHARGE_CURRENT_SOC c) (SOC_WHILE_DISCHARGING c)
    (MAX_DISCHARGE_CURRENT_SOC c) (LOGGER_DEBUG c).

(** *** Vocabulary of the current limiter *)

(** A limit that, when present, does not exceed [bound]. *)
Definition at_most (bound : Q) (o : option Q) : Prop :=
  match o with
  | Some x => x <= bound
  | None => True
  end.

(** The example pack with a discharge limit committed at second 990. *)
Definition settled_discharging_pack : Battery :=
  set_linear_dcl_last_set 990%Z
    (set_discharge_limitation (Some "Max Battery Discharge Current")
      (set_control_discharge_current (Some 119.9)
        (set_soc_calc (Some 90) (example_pack [3.3; 3.3; 3.3; 3.3] 20)))).

Definition settled_discharge_limits : dict :=
  Eval vm_compute in
    returned [] (discharge_limits example_config calcLinearRelationship_model
                   calcStepRelationship_model settled_discharging_pack).

Definition settled_dcl : Q :=
  Eval vm_compute in returned 0 (rounded_minimum settled_discharge_limits).

(** *** Vocabulary of the empty end point *)

(** The three clauses that keep the dwell timer of the empty end point
    running: the signed current is below [SOC_RESET_CURRENT], the lowest
    cell less its share of [VOLTAGE_DROP] is at or below
    [MIN_CELL_VOLTAGE], and the timer has been started. *)
Definition empty_dwell_holds (utils : Config) (vmin i : Q) (n : Z)
    (start : option Z) : bool :=
  Qltb i (SOC_RESET_CURRENT utils)
  && Qleb (vmin - VOLTAGE_DROP utils / inject_Z n) (MIN_CELL_VOLTAGE utils)
  && truthyZ start.

(** The snap to empty is due. *)
Definition empty_snap_due (utils : Config) (now vmin i : Q) (n : Z)
    (start : option Z) (remain : Q) : bool :=
  empty_dwell_holds utils vmin i n start
  && dwell_exceeds utils now start
  && negb (Qeqb remain 0).

(** The state the check of the empty end point leaves on a pack near the
    empty rail: snapped, untouched, or with the dwell restarted. *)
Definition after_empty_check (utils : Config) (now vmin i : Q) (n : Z) (r : Q)
    (s : Battery) : Battery :=
  if empty_dwell_holds utils vmin i n (soc_calc_reset_starttime s) then
    if dwell_exceeds utils now (soc_calc_reset_starttime s) && negb (Qeqb r 0)
    then set_soc_calc_capacity_remain (Some 0) s
    else s
  else set_soc_calc_reset_starttime (Some (py_int now)) s.

(** A pack near the empty rail: 3 Ah in the accumulator, lowest cell at
    2.91 V, the dwell timer running since second [start]. *)
Definition nearly_empty_pack (amps : Q) (start : Z) : Battery :=
  set_soc_calc_reset_starttime (Some start)
    (set_soc_calc_capacity_remain_lasttime (Some 999)
      (set_soc_calc_capacity_remain (Some 3)
        (example_pack [2.91; 3.0; 3.0; 3.0] amps))).

Definition nearly_empty_sum : Q :=
  Eval vm_compute in returned 0 (sum_cell_voltages (nearly_empty_pack (-2) 900)).

(** *** Vocabulary of the regimes of the linear controller *)

(** The pack sum as the scan of the linear controller computes it. *)
Definition Qsum_scanned (utils : Config) (s : Battery) : Q :=
  match penalty_scan utils s with
  | Ok (voltage_sum, _, _) => voltage_sum
  | Raise _ => 0
  end.

(** Scenario A of the spec: a balanced pack in Bulk, below its target. *)
Definition bulk_pack : Battery :=
  set_soc_calc (Some 90) (example_pack [3.3; 3.3; 3.3; 3.3] 20).

(** A pack in Absorption since second 400 that holds a CVL of 13.80 V. *)
Definition expiring_pack : Battery :=
  set_charge_mode (Some "Absorption (Linear Mode)")
    (set_control_voltage (Some 13.8) absorbing_pack).


Definition bulk_diff : Q :=
  Eval vm_compute in returned 0 (cell_voltage_diff bulk_pack).

Definition expiring_diff : Q :=
  Eval vm_compute in returned 0 (cell_voltage_diff expiring_pack).

(** *** Exact numbers and the doubles of the source *)

(** The source computes in binary64, the model in exact rationals.  The two
    agree on a comparison of computed numbers, and on the rounding of a
    computed number to decimals, unless the exact operands are so close to
    each other, or to a rounding tie, that the rounding errors of the
    doubles decide.  [rounding_slack operands] is a bound, with a wide
    margin, on the error that binary64 makes when it adds and subtracts up
    to a thousand [operands], each of them a number of the state or of the
    configuration, or a product or quotient of two such numbers: relative to
    the sum of their magnitudes, it is [10^-12] per operand where the unit
    roundoff of a double is [1.2 * 10^-16].  The statements below that
    follow a comparison or a rounding of computed numbers assume that the
    numbers compared are [apart], or that the number rounded is [off_ties];
    on such inputs the doubles of the source decide as the rationals do. *)
Definition rounding_slack (operands : list Q) : Q :=
  inject_Z (Z.of_nat (List.length operands)) * Qsum (map Qabs operands)
  * (1 # 1000000000000).

Definition apart (operands : list Q) (a b : Q) : Prop :=
  (List.length operands <= 1000)%nat
  /\ rounding_slack operands < Qabs (a - b).

(** [x] is further from the nearest tie of a rounding to [ndigits]
    decimals than the slack. *)
Definition off_ties (operands : list Q) (x : Q) (ndigits : nat) : Prop :=
  (List.length operands <= 1000)%nat
  /\ rounding_slack operands * pow10 ndigits
     < Qabs (x * pow10 ndigits
             - (inject_Z (Qfloor (x * pow10 ndigits)) + (1 # 2))).

(** The comparisons of computed numbers that the Absorption timer makes on
    the branch it takes: the pack sum against the target and the spread of
    the cells against two thresholds while the timer is stopped; the spread
    against the restart threshold and the pack sum against the target less
    half a volt while it runs. *)
Definition timer_clear (utils : Config) (n : Z) (s : Battery) : Prop :=
  let pack := live_voltages (cells_polled n s) in
  match max_battery_voltage s, get_max_cell_voltage s, get_min_cell_voltage s with
  | Some mbv, Some top, Some bottom =>
      match max_voltage_start_time s with
      | None =>
          apart (mbv :: pack) mbv (Qsum pack)
          /\ apart [top; bottom] (top - bottom)
               (CELL_VOLTAGE_DIFF_KEEP_MAX_VOLTAGE_UNTIL utils)
          /\ apart [top; bottom] (top - bottom)
               (CELL_VOLTAGE_DIFF_TO_RESET_VOLTAGE_LIMIT utils)
      | Some _ =>
          apart [top; bottom] (top - bottom)
            (CELL_VOLTAGE_DIFF_KEEP_MAX_VOLTAGE_TIME_RESTART utils)
          /\ apart ((1 # 2) :: mbv :: pack) (Qsum pack) (mbv - (1 # 2))
      end
  | _, _, _ => True
  end.


(** The increment of the accumulator over one call, and the accumulator
    before it is clamped. *)
Definition integrated_raw (r0 corrected now last : Q) : Q :=
  r0 + py_round corrected 2 * (now - last) / 3600.

(** The comparisons and the rounding of computed numbers on the way to an
    end point of the coulomb counter: the two tests of the lowest cell
    against the rails, the rounding of the corrected current, and the test
    of the integrated accumulator against the [rail] it would snap to. *)
Definition integration_clear (utils : Config) (now last r0 corrected v rail : Q)
    : Prop :=
  apart [MAX_CELL_VOLTAGE utils; v] (MAX_CELL_VOLTAGE utils * (99 # 100)) v
  /\ apart [MIN_CELL_VOLTAGE utils; v] (MIN_CELL_VOLTAGE utils * (101 # 100)) v
  /\ off_ties [corrected] corrected 2
  /\ apart [r0; py_round corrected 2 * now / 3600;
            py_round corrected 2 * last / 3600; rail]
       (integrated_raw r0 corrected now last) rail.

(** The test of the pack sum against the target less [VOLTAGE_DROP]. *)
Definition full_threshold_clear (utils : Config) (mbv voltage_sum : Q)
    (s : Battery) : Prop :=
  apart (mbv :: VOLTAGE_DROP utils :: known_voltages (cells s))
    (mbv - VOLTAGE_DROP utils) voltage_sum.

(** The test of the lowest cell, less its share of [VOLTAGE_DROP], against
    [MIN_CELL_VOLTAGE]. *)
Definition empty_threshold_clear (utils : Config) (vmin : Q) (n : Z) : Prop :=
  apart [vmin; VOLTAGE_DROP utils / inject_Z n; MIN_CELL_VOLTAGE utils]
    (vmin - VOLTAGE_DROP utils / inject_Z n) (MIN_CELL_VOLTAGE utils).

(** The ramp of the Float transition: the float voltage is the rounding of
    a product, the choice between the two arms of the [min] is clear, and
    the transition starts from a voltage within a factor of two of the
    float voltage, so that the difference of the two doubles is a double
    and the second arm ends at the float voltage itself. *)
Definition ramp_clear (utils : Config) (n : Z) (initial : Q) (elapsed : Z)
    : Prop :=
  let floatV := float_voltage utils n in
  off_ties [FLOAT_CELL_VOLTAGE utils * inject_Z n]
    (FLOAT_CELL_VOLTAGE utils * inject_Z n) 3
  /\ apart [initial; floatV; (1 # 100) / 10 * inject_Z elapsed]
       ((1 # 100) / 10 * inject_Z elapsed) (initial - floatV)
  /\ floatV / 2 <= initial <= 2 * floatV.

(** * Properties *)

(** Arithmetic on rationals is kept folded when goals are simplified. *)
#[local] Arguments Qplus : simpl never.
#[local] Arguments Qminus : simpl never.
#[local] Arguments Qmult : simpl never.
#[local] Arguments Qdiv : simpl never.
#[local] Arguments Qopp : simpl never.
#[local] Arguments Qinv : simpl never.
#[local] Arguments Qabs : simpl never.
#[local] Arguments Qle_bool : simpl never.
#[local] Arguments Qeq_bool : simpl never.
#[local] Arguments Qfloor : simpl never.
#[local] Arguments Qceiling : simpl never.
#[local] Arguments inject_Z : simpl never.
#[local] Arguments py_round : simpl never.
#[local] Arguments py_min : simpl never.
#[local] Arguments py_max : simpl never.
#[local] Arguments py_int : simpl never.
#[local] Arguments Qltb : simpl never.
#[local] Arguments Qleb : simpl never.
#[local] Arguments Qeqb : simpl never.
#[local] Arguments Z.sub : simpl never.
#[local] Arguments Z.add : simpl never.
#[local] Arguments Z.mul : simpl never.

(** ** Numerics *)

Lemma Qltb_lt (x y : Q) : Qltb x y = true <-> x < y.
Proof.
  unfold Qltb. rewrite negb_true_iff, <- not_true_iff_false, Qle_bool_iff.
  split; [apply Qnot_le_lt | apply Qlt_not_le].
Qed.

Lemma Qltb_ge (x y : Q) : Qltb x y = false <-> y <= x.
Proof.
  unfold Qltb. rewrite negb_false_iff. apply Qle_bool_iff.
Qed.

Lemma Qleb_le (x y : Q) : Qleb x y = true <-> x <= y.
Proof. apply Qle_bool_iff. Qed.

Lemma Qleb_gt (x y : Q) : Qleb x y = false <-> y < x.
Proof.
  unfold Qleb. rewrite <- not_true_iff_false, Qle_bool_iff.
  split; [apply Qnot_le_lt | apply Qlt_not_le].
Qed.

Lemma Qeqb_eq (x y : Q) : Qeqb x y = true <-> x == y.
Proof. apply Qeq_bool_iff. Qed.

Lemma Qeqb_neq (x y : Q) : Qeqb x y = false <-> ~ x == y.
Proof.
  unfold Qeqb. rewrite <- not_true_iff_false, Qeq_bool_iff. tauto.
Qed.

(** Closed statements about the example packs are settled by evaluation. *)
Ltac computed :=
  vm_compute; repeat split; first [reflexivity | exact I | discriminate | lia].

Ltac refuted :=
  let H := fresh "H" in intros H; vm_compute in H; intuition discriminate.

(** Case analysis on a comparison, with the fact it decides. *)
Ltac case_cmp :=
  match goal with
  | |- context [Qltb ?x ?y] =>
      let E := fresh "Hcmp" in
      destruct (Qltb x y) eqn:E;
      [apply Qltb_lt in E | apply Qltb_ge in E]
  | |- context [Qleb ?x ?y] =>
      let E := fresh "Hcmp" in
      destruct (Qleb x y) eqn:E;
      [apply Qleb_le in E | apply Qleb_gt in E]
  | |- context [Qeqb ?x ?y] =>
      let E := fresh "Hcmp" in
      destruct (Qeqb x y) eqn:E;
      [apply Qeqb_eq in E | apply Qeqb_neq in E]
  end.

Lemma py_min_spec (a b : Q) :
  (py_min a b == a \/ py_min a b == b) /\ py_min a b <= a /\ py_min a b <= b.
Proof.
  unfold py_min. case_cmp; cbv iota;
    (split; [(left; reflexivity) || (right; reflexivity) | split; lra]).
Qed.

Lemma py_max_spec (a b : Q) :
  (py_max a b == a \/ py_max a b == b) /\ a <= py_max a b /\ b <= py_max a b.
Proof.
  unfold py_max. case_cmp; cbv iota;
    (split; [(left; reflexivity) || (right; reflexivity) | split; lra]).
Qed.

(** Clamping lands in the interval as soon as the interval is not empty. *)
Lemma clamp_bounds (x lo hi : Q) :
  lo <= hi -> lo <= py_min (py_max x lo) hi <= hi.
Proof.
  intros Hle.
  destruct (py_min_spec (py_max x lo) hi) as [[E | E] [H1 H2]];
    destruct (py_max_spec x lo) as [_ [H3 H4]]; lra.
Qed.


Lemma py_min_comp (a a' b b' : Q) : a == a' -> b == b' -> py_min a b == py_min a' b'.
Proof.
  intros Ha Hb. unfold py_min.
  destruct (Qltb b a) eqn:E1; destruct (Qltb b' a') eqn:E2; auto;
    rewrite ?Qltb_lt, ?Qltb_ge in *; lra.
Qed.

Lemma py_max_comp (a a' b b' : Q) : a == a' -> b == b' -> py_max a b == py_max a' b'.
Proof.
  intros Ha Hb. unfold py_max.
  destruct (Qltb a b) eqn:E1; destruct (Qltb a' b') eqn:E2; auto;
    rewrite ?Qltb_lt, ?Qltb_ge in *; lra.
Qed.

(** Rounding to the nearest integer never crosses an integer. *)
Lemma round_half_even_lower (n : Z) (q : Q) :
  inject_Z n <= q -> (n <= round_half_even q)%Z.
Proof.
  intros H. apply Qfloor_resp_le in H. rewrite Qfloor_Z in H.
  unfold round_half_even.
  destruct (Qcompare _ _); try destruct (Z.even _); lia.
Qed.

Lemma round_half_even_upper (n : Z) (q : Q) :
  q <= inject_Z n -> (round_half_even q <= n)%Z.
Proof.
  intros H.
  assert (Hf : (Qfloor q <= n)%Z).
  { apply Qfloor_resp_le in H. now rewrite Qfloor_Z in H. }
  assert (Hstrict : inject_Z (Qfloor q) < q -> (Qfloor q + 1 <= n)%Z).
  { intros Hlt. assert (Hq : inject_Z (Qfloor q) < inject_Z n) by lra.
    rewrite <- Zlt_Qlt in Hq. lia. }
  unfold round_half_even.
  destruct (Qcompare (q - inject_Z (Qfloor q)) (1 # 2)) eqn:E.
  - apply Qeq_alt in E. destruct (Z.even _); [lia | apply Hstrict; lra].
  - lia.
  - apply Qgt_alt in E. apply Hstrict; lra.
Qed.

Lemma round_half_even_comp (p q : Q) :
  p == q -> round_half_even p = round_half_even q.
Proof.
  intros H. unfold round_half_even.
  rewrite (Qfloor_comp _ _ H).
  assert (E : p - inject_Z (Qfloor q) == q - inject_Z (Qfloor q)) by lra.
  now rewrite (Qcompare_comp _ _ E _ _ (Qeq_refl (1 # 2))).
Qed.

Lemma round_half_even_Z (n : Z) : round_half_even (inject_Z n) = n.
Proof.
  apply Z.le_antisymm;
    [apply round_half_even_upper | apply round_half_even_lower]; lra.
Qed.

Lemma pow10_pos (d : nat) : 0 < pow10 d.
Proof.
  unfold pow10. change 0 with (inject_Z 0). rewrite <- Zlt_Qlt.
  apply Z.pow_pos_nonneg; lia.
Qed.

(** [round(x, d)] gives the same float for equal arguments. *)
Lemma py_round_comp (x y : Q) (d : nat) : x == y -> py_round x d = py_round y d.
Proof.
  intros H. unfold py_round. f_equal. f_equal.
  apply round_half_even_comp. now rewrite H.
Qed.

(** [round(x, d)] stays on the same side of an integer as [x]. *)
Lemma py_round_lower (n : Z) (x : Q) (d : nat) :
  inject_Z n <= x -> inject_Z n <= py_round x d.
Proof.
  intros H. pose proof (pow10_pos d) as Hp. unfold py_round.
  apply Qle_shift_div_l; [exact Hp |].
  assert (E : inject_Z n * pow10 d == inject_Z (n * 10 ^ Z.of_nat d)).
  { unfold pow10. now rewrite inject_Z_mult. }
  rewrite E. rewrite <- Zle_Qle. apply round_half_even_lower.
  rewrite <- E. apply Qmult_le_compat_r; lra.
Qed.

Lemma py_round_upper (n : Z) (x : Q) (d : nat) :
  x <= inject_Z n -> py_round x d <= inject_Z n.
Proof.
  intros H. pose proof (pow10_pos d) as Hp. unfold py_round.
  apply Qle_shift_div_r; [exact Hp |].
  assert (E : inject_Z n * pow10 d == inject_Z (n * 10 ^ Z.of_nat d)).
  { unfold pow10. now rewrite inject_Z_mult. }
  rewrite E. rewrite <- Zle_Qle. apply round_half_even_upper.
  rewrite <- E. apply Qmult_le_compat_r; lra.
Qed.

Lemma py_round_zero (x : Q) (d : nat) : x == 0 -> py_round x d == 0.
Proof.
  intros H. apply Qle_antisym.
  - apply (py_round_upper 0). change (inject_Z 0) with 0. lra.
  - apply (py_round_lower 0). change (inject_Z 0) with 0. lra.
Qed.

(** ** Reset *)

(** C1 (as the code has it): [init_values] leaves [soc_calc] untouched, but
    it assigns the other three fields: [soc_reset_last_reached] becomes 0,
    [allow_max_voltage] becomes true and [max_voltage_start_time] becomes
    [None], whatever they were. *)
Theorem init_values_restart_fields (self : Battery) :
  soc_calc (init_values self) = soc_calc self
  /\ soc_reset_last_reached (init_values self) = 0%Z
  /\ allow_max_voltage (init_values self) = true
  /\ max_voltage_start_time (init_values self) = None.
Proof. repeat split. Qed.

(** The attributes that only [__init__] creates survive [init_values]. *)
Lemma init_values_keeps_accumulator (self : Battery) :
  soc_calc_capacity_remain (init_values self) = soc_calc_capacity_remain self
  /\ soc_calc_capacity_remain_lasttime (init_values self)
     = soc_calc_capacity_remain_lasttime self
  /\ soc_calc_reset_starttime (init_values self) = soc_calc_reset_starttime self
  /\ block_because_disconnect (init_values self) = block_because_disconnect self
  /\ control_charge_current (init_values self) = control_charge_current self
  /\ control_discharge_current (init_values self) = control_discharge_current self.
Proof. repeat split. Qed.

(** C1 (as stated) fails on a pack in Absorption: the running timer and the
    date of the last excursion are both lost. *)
Lemma init_values_forgets_absorption :
  ~ (soc_calc (init_values absorbing_pack) = soc_calc absorbing_pack
     /\ soc_reset_last_reached (init_values absorbing_pack)
        = soc_reset_last_reached absorbing_pack
     /\ allow_max_voltage (init_values absorbing_pack)
        = allow_max_voltage absorbing_pack
     /\ max_voltage_start_time (init_values absorbing_pack)
        = max_voltage_start_time absorbing_pack).
Proof. intros (_ & Hreached & _ & Htimer). discriminate Htimer. Qed.

(** ** Validation *)

(** C10: [validate_data] accepts every state whose capacity, current,
    voltage and SoC are each missing or inside their bounds. *)
Theorem validate_data_accepts (self : Battery) :
  within 0 1000 (capacity self) ->
  magnitude_within 1000 (current self) ->
  within 0 100 (voltage self) ->
  within 0 100 (soc self) ->
  validate_data self = true.
Proof.
  unfold within, magnitude_within, validate_data, py_abs.
  intros Hcap Hcur Hvolt Hsoc.
  destruct (capacity self) as [c |], (current self) as [i |],
    (voltage self) as [v |], (soc self) as [p |];
    repeat (case_cmp; cbn [orb]; try lra); reflexivity.
Qed.

(** C10, the particular case: a freshly constructed [Battery], all of whose
    telemetry is missing, passes. *)
Lemma validate_data_accepts_witness :
  within 0 1000 (capacity (Battery_init "/dev/ttyUSB0" 9600 "0"))
  /\ validate_data (Battery_init "/dev/ttyUSB0" 9600 "0") = true.
Proof.
  split; [exact I |].
  apply (validate_data_accepts (Battery_init "/dev/ttyUSB0" 9600 "0"));
    exact I.
Defined.

(** A populated pack inside the bounds passes as well. *)
Example validate_data_example_pack :
  validate_data (set_voltage (Some 13.2) (example_pack [3.3; 3.3; 3.3; 3.3] 20)) = true.
Proof. reflexivity. Qed.

Section Derating.

Variable utils : Config.
Variable calcLinearRelationship : option Q -> list Q -> list Q -> res Q.
Variable calcStepRelationship : option Q -> list Q -> list Q -> bool -> res Q.

(** C9: when the evaluation of the discharge cell-voltage derating raises,
    whatever the exception, the method returns normally, and what it
    returns is [max_battery_charge_current]. *)
Theorem calcMaxDischargeCurrentReferringToCellVoltage_on_exception
    (self : Battery) (e : exn) :
  derate utils calcLinearRelationship calcStepRelationship
    (get_min_cell_voltage self)
    (CELL_VOLTAGES_WHILE_DISCHARGING utils)
    (MAX_DISCHARGE_CURRENT_CV utils) true = Raise e ->
  calcMaxDischargeCurrentReferringToCellVoltage
    utils calcLinearRelationship calcStepRelationship self
  = Ok (max_battery_charge_current self).
Proof.
  intros Hraise. unfold calcMaxDischargeCurrentReferringToCellVoltage.
  rewrite Hraise. reflexivity.
Qed.

(** Without an exception the interpolated value is returned. *)
Lemma calcMaxDischargeCurrentReferringToCellVoltage_normal
    (self : Battery) (limit : Q) :
  derate utils calcLinearRelationship calcStepRelationship
    (get_min_cell_voltage self)
    (CELL_VOLTAGES_WHILE_DISCHARGING utils)
    (MAX_DISCHARGE_CURRENT_CV utils) true = Ok limit ->
  calcMaxDischargeCurrentReferringToCellVoltage
    utils calcLinearRelationship calcStepRelationship self
  = Ok (Some limit).
Proof.
  intros Hok. unfold calcMaxDischargeCurrentReferringToCellVoltage.
  rewrite Hok. reflexivity.
Qed.

(** The sibling on the charge side falls back on the same field. *)
Lemma calcMaxChargeCurrentReferringToCellVoltage_on_exception
    (self : Battery) (e : exn) :
  derate utils calcLinearRelationship calcStepRelationship
    (get_max_cell_voltage self)
    (CELL_VOLTAGES_WHILE_CHARGING utils)
    (MAX_CHARGE_CURRENT_CV utils) false = Raise e ->
  calcMaxChargeCurrentReferringToCellVoltage
    utils calcLinearRelationship calcStepRelationship self
  = Ok (max_battery_charge_current self).
Proof.
  intros Hraise. unfold calcMaxChargeCurrentReferringToCellVoltage.
  rewrite Hraise. reflexivity.
Qed.

End Derating.

(** C9 on a pack without cell readings: the interpolation raises
    [TypeError], and the discharge derating answers 70 A, the charge
    ceiling, although the discharge ceiling is 120 A. *)
Lemma calcMaxDischargeCurrentReferringToCellVoltage_on_exception_witness :
  derate example_config calcLinearRelationship_model calcStepRelationship_model
    (get_min_cell_voltage blind_pack)
    (CELL_VOLTAGES_WHILE_DISCHARGING example_config)
    (MAX_DISCHARGE_CURRENT_CV example_config) true = Raise TypeError
  /\ calcMaxDischargeCurrentReferringToCellVoltage
       example_config calcLinearRelationship_model calcStepRelationship_model
       blind_pack
     = Ok (Some 70).
Proof.
  split; [reflexivity |].
  apply (calcMaxDischargeCurrentReferringToCellVoltage_on_exception
           example_config calcLinearRelationship_model
           calcStepRelationship_model blind_pack TypeError).
  reflexivity.
Defined.

(** ** Dictionaries of limits *)

Lemma py_eq_refl (k : option Q) : py_eq k k = true.
Proof. destruct k; [apply Qeqb_eq; reflexivity | reflexivity]. Qed.

Lemma dict_get_In (k : option Q) (d : dict) :
  In k (map fst d) -> exists label, dict_get k d = Some label.
Proof.
  induction d as [| [k' v] d IH]; cbn; [tauto |].
  intros [-> | Hin].
  - rewrite py_eq_refl. eauto.
  - destruct (py_eq k' k); eauto.
Qed.

Lemma dict_update_nonneg (k : option Q) (v : string) (d : dict) :
  nonneg_key (k, v) -> nonneg_keys d -> nonneg_keys (dict_update k v d).
Proof.
  intros Hk Hd. induction Hd as [| [k' v'] d Hk' Hd IH]; cbn.
  - repeat constructor. exact Hk.
  - destruct (py_eq k' k); constructor; auto.
Qed.

Lemma dict_update_has (k : option Q) (v : string) (d : dict) :
  Exists (fun kv => py_eq (fst kv) k = true) (dict_update k v d).
Proof.
  induction d as [| [k' v'] d IH]; cbn.
  - constructor. apply py_eq_refl.
  - destruct (py_eq k' k) eqn:E; [left; exact E | right; exact IH].
Qed.

Lemma add_zero_nonneg (d : dict) : nonneg_keys d -> nonneg_keys (add_zero d).
Proof.
  intros Hd. unfold add_zero.
  destruct (dict_get (Some 0) d); apply dict_update_nonneg; auto;
    unfold nonneg_key; cbn; lra.
Qed.

Lemma add_zero_has_zero (d : dict) :
  Exists (fun kv => py_eq (fst kv) (Some 0) = true) (add_zero d).
Proof.
  unfold add_zero. destruct (dict_get (Some 0) d); apply dict_update_has.
Qed.

(** The scan of [min] over numeric keys: the result is a key, or the
    starting value, and nothing is below it. *)
Lemma min_scan_spec (d : dict) (a : Q) :
  Forall (fun kv => fst kv <> None) d ->
  exists m,
    for_each (fun m kv => let? b := key_lt (fst kv) m in
                          Ok (if b then fst kv else m)) d (Some a)
    = Ok (Some m)
    /\ m <= a
    /\ Forall (fun kv => match fst kv with Some q => m <= q | None => True end) d
    /\ (Some m = Some a \/ In (Some m) (map fst d)).
Proof.
  intros Hd. revert a.
  induction Hd as [| [k v] d Hk Hd IH]; intros a; cbn.
  - exists a. repeat split; auto with qarith.
  - destruct k as [q |]; [| now elim Hk]. cbn.
    destruct (Qltb q a) eqn:E.
    + apply Qltb_lt in E. destruct (IH q) as (m & Hrun & Hle & Hall & Hin).
      exists m. split; [exact Hrun |]. split; [lra |].
      split; [constructor; [exact Hle | exact Hall] |].
      right. destruct Hin as [-> | Hin]; [now left | now right].
    + apply Qltb_ge in E. destruct (IH a) as (m & Hrun & Hle & Hall & Hin).
      exists m. split; [exact Hrun |]. split; [exact Hle |].
      split; [constructor; [cbn; lra | exact Hall] |].
      destruct Hin as [Hin | Hin]; [now left | right; now right].
Qed.

Lemma nonneg_keys_numeric (d : dict) :
  nonneg_keys d -> Forall (fun kv => fst kv <> None) d.
Proof.
  apply Forall_impl. intros [[q |] v]; unfold nonneg_key; cbn; [discriminate | tauto].
Qed.

(** [min] of a dictionary of non-negative limits that holds a zero. *)
Lemma dict_min_zero (d : dict) :
  nonneg_keys d ->
  Exists (fun kv => py_eq (fst kv) (Some 0) = true) d ->
  exists m label,
    dict_min d = Ok (Some m) /\ m == 0 /\ dict_item (Some m) d = Ok label.
Proof.
  intros Hd Hzero.
  destruct d as [| [k v] d]; [inversion Hzero |].
  pose proof Hd as Hnum. apply nonneg_keys_numeric in Hnum.
  inversion Hd as [| ? ? Hk Hd']; subst.
  inversion Hnum as [| ? ? Hk0 Hnum']; subst.
  destruct k as [q |]; [| now elim Hk0]. unfold nonneg_key in Hk. cbn in Hk.
  destruct (min_scan_spec d q Hnum') as (m & Hrun & Hle & Hall & Hin).
  assert (Hmem : In (Some m) (map fst ((Some q, v) :: d))).
  { destruct Hin as [<- | Hin]; [now left | now right]. }
  destruct (dict_get_In _ _ Hmem) as (label & Hget).
  exists m, label. split; [exact Hrun |]. split.
  - (* no key is below 0, and some key is 0 *)
    assert (Hlow : 0 <= m).
    { destruct Hin as [Hin | Hin]; [injection Hin as ->; exact Hk |].
      apply in_map_iff in Hin. destruct Hin as ([k' v'] & Hfst & Hin').
      cbn in Hfst. subst k'.
      unfold nonneg_keys in Hd'. rewrite Forall_forall in Hd'.
      exact (Hd' _ Hin'). }
    apply Exists_exists in Hzero. destruct Hzero as ([k0 v0] & Hin0 & Hz).
    cbn in Hz. destruct k0 as [z |]; [| discriminate]. apply Qeqb_eq in Hz.
    destruct Hin0 as [Heq | Hin0].
    + injection Heq as -> ->. lra.
    + rewrite Forall_forall in Hall. specialize (Hall _ Hin0). cbn in Hall. lra.
  - unfold dict_item. now rewrite Hget.
Qed.

(** ** Current limiter *)

(** Unfolding of the monad, and case analysis on whatever a [match] of the
    goal inspects. *)
Ltac munfold :=
  unfold state_after, outcome, bind, ret, raise, gets, eval, lift, modify, when in *.

Ltac break_match :=
  match goal with
  | |- context [match ?x with _ => _ end] =>
      lazymatch x with
      | context [match _ with _ => _ end] => fail
      | _ => destruct x eqn:?
      end
  end.

Section Limiter.

Variable utils : Config.
Variable calcLinearRelationship : option Q -> list Q -> list Q -> res Q.
Variable calcStepRelationship : option Q -> list Q -> list Q -> bool -> res Q.

Local Abbreviation charge_side :=
  (manage_charge_side utils calcLinearRelationship calcStepRelationship).
Local Abbreviation discharge_side :=
  (manage_discharge_side utils calcLinearRelationship calcStepRelationship).
Local Abbreviation current_manager :=
  (manage_charge_current utils calcLinearRelationship calcStepRelationship).

(** The discharge half does not touch the outputs of the charge half,
    whether it returns or raises. *)
Lemma discharge_side_frame (t3 t4 : Z) (s : Battery) :
  let s' := state_after (discharge_side t3 t4) s in
  control_charge_current s' = control_charge_current s
  /\ charge_limitation s' = charge_limitation s
  /\ control_allow_charge s' = control_allow_charge s
  /\ linear_ccl_last_set s' = linear_ccl_last_set s.
Proof.
  unfold manage_discharge_side. munfold.
  repeat (simpl; try break_match); repeat split.
Qed.

(** The charge half does not touch what the discharge half reads. *)
Lemma charge_side_frame (t1 t2 : Z) (s : Battery) :
  let s' := state_after (charge_side t1 t2) s in
  discharge_limits utils calcLinearRelationship calcStepRelationship s'
  = discharge_limits utils calcLinearRelationship calcStepRelationship s
  /\ control_discharge_current s' = control_discharge_current s
  /\ linear_dcl_last_set s' = linear_dcl_last_set s
  /\ block_because_disconnect s' = block_because_disconnect s.
Proof.
  unfold manage_charge_side. munfold.
  repeat (simpl; try break_match); repeat split.
Qed.

(** What the charge half does once the disconnect latch is set. *)
Lemma charge_side_blocked (t1 t2 : Z) (s : Battery) (candidates : dict) :
  block_because_disconnect s = true ->
  charge_candidates utils calcLinearRelationship calcStepRelationship s
  = Ok candidates ->
  nonneg_keys candidates ->
  outcome (charge_side t1 t2) s = Ok tt
  /\ is_num (control_charge_current (state_after (charge_side t1 t2) s)) 0
  /\ control_allow_charge (state_after (charge_side t1 t2) s) = Some false.
Proof.
  intros Hblock Hcand Hpos.
  destruct (dict_min_zero (add_zero candidates)
              (add_zero_nonneg _ Hpos) (add_zero_has_zero _))
    as (m & label & Hmin & Hm & Hitem).
  assert (Hround : py_round m 3 == 0) by now apply py_round_zero.
  unfold manage_charge_side, charge_limits, rounded_minimum, commit_due.
  munfold. rewrite Hcand, Hblock, orb_true_r. simpl.
  rewrite Hmin. simpl. rewrite Hitem.
  apply Qeqb_eq in Hround. unfold allowed_by.
  destruct (Qleb _ _); simpl; rewrite ?Hround; simpl; rewrite ?Hround;
    repeat split; now apply Qeqb_eq.
Qed.

(** The same on the discharge side. *)
Lemma discharge_side_blocked (t3 t4 : Z) (s : Battery) (candidates : dict) :
  block_because_disconnect s = true ->
  discharge_candidates utils calcLinearRelationship calcStepRelationship s
  = Ok candidates ->
  nonneg_keys candidates ->
  outcome (discharge_side t3 t4) s = Ok tt
  /\ is_num (control_discharge_current (state_after (discharge_side t3 t4) s)) 0
  /\ control_allow_discharge (state_after (discharge_side t3 t4) s) = Some false.
Proof.
  intros Hblock Hcand Hpos.
  destruct (dict_min_zero (add_zero candidates)
              (add_zero_nonneg _ Hpos) (add_zero_has_zero _))
    as (m & label & Hmin & Hm & Hitem).
  assert (Hround : py_round m 3 == 0) by now apply py_round_zero.
  unfold manage_discharge_side, discharge_limits, rounded_minimum, commit_due.
  munfold. rewrite Hcand, Hblock, orb_true_r. simpl.
  rewrite Hmin. simpl. rewrite Hitem.
  apply Qeqb_eq in Hround. unfold allowed_by.
  destruct (Qleb _ _); simpl; rewrite ?Hround; simpl; rewrite ?Hround;
    repeat split; now apply Qeqb_eq.
Qed.

(** Sequencing the two halves. *)
Lemma current_manager_run (t1 t2 t3 t4 : Z) (s : Battery) :
  outcome (charge_side t1 t2) s = Ok tt ->
  outcome (current_manager t1 t2 t3 t4) s
  = outcome (discharge_side t3 t4) (state_after (charge_side t1 t2) s)
  /\ state_after (current_manager t1 t2 t3 t4) s
     = state_after (discharge_side t3 t4) (state_after (charge_side t1 t2) s).
Proof.
  unfold manage_charge_current, outcome, state_after, bind.
  destruct (charge_side t1 t2 s) as [[[] | e] s1]; simpl; [auto | discriminate].
Qed.

Lemma discharge_candidates_after_charge (t1 t2 : Z) (s : Battery) :
  discharge_candidates utils calcLinearRelationship calcStepRelationship
    (state_after (charge_side t1 t2) s)
  = discharge_candidates utils calcLinearRelationship calcStepRelationship s.
Proof.
  unfold manage_charge_side. munfold.
  repeat (simpl; try break_match); reflexivity.
Qed.

(** C4: with the disconnect latch set and no negative candidate on either
    side, one run of [manage_charge_current] returns normally, both limits
    are 0 whatever the throttle would say, and both permissions are false. *)
Theorem disconnect_forces_zero_limits
    (t1 t2 t3 t4 : Z) (s : Battery) (charging discharging : dict) :
  block_because_disconnect s = true ->
  charge_candidates utils calcLinearRelationship calcStepRelationship s
  = Ok charging ->
  nonneg_keys charging ->
  discharge_candidates utils calcLinearRelationship calcStepRelationship s
  = Ok discharging ->
  nonneg_keys discharging ->
  outcome (current_manager t1 t2 t3 t4) s = Ok tt
  /\ is_num (control_charge_current
               (state_after (current_manager t1 t2 t3 t4) s)) 0
  /\ is_num (control_discharge_current
               (state_after (current_manager t1 t2 t3 t4) s)) 0
  /\ control_allow_charge (state_after (current_manager t1 t2 t3 t4) s)
     = Some false
  /\ control_allow_discharge (state_after (current_manager t1 t2 t3 t4) s)
     = Some false.
Proof.
  intros Hblock Hc Hcpos Hd Hdpos.
  destruct (charge_side_blocked t1 t2 s charging Hblock Hc Hcpos)
    as (Hrun & Hccl & Hallow).
  destruct (current_manager_run t1 t2 t3 t4 s Hrun) as (-> & ->).
  destruct (charge_side_frame t1 t2 s) as (_ & _ & _ & Hblock').
  destruct (discharge_side_frame t3 t4 (state_after (charge_side t1 t2) s))
    as (Hkeep & _ & Hkeep' & _).
  cbv zeta in Hblock', Hkeep, Hkeep'.
  rewrite Hkeep, Hkeep'.
  destruct (discharge_side_blocked t3 t4 (state_after (charge_side t1 t2) s)
              discharging) as (Hrun' & Hdcl & Hallow');
    [congruence | now rewrite discharge_candidates_after_charge | assumption |].
  auto.
Qed.

(** C8: a nonzero new limit that comes too early and differs too little
    from the committed one is not committed: [control_charge_current] and
    [charge_limitation] are left as they were. *)
Theorem charge_throttle_holds
    (t1 t2 t3 t4 : Z) (s : Battery) (limits : dict) (ccl previous : Q) :
  charge_limits utils calcLinearRelationship calcStepRelationship s = Ok limits ->
  rounded_minimum limits = Ok ccl ->
  ~ ccl == 0 ->
  inject_Z (t1 - linear_ccl_last_set s) < LINEAR_RECALCULATION_EVERY utils ->
  control_charge_current s = Some previous ->
  Qabs (previous - ccl)
  < previous * LINEAR_RECALCULATION_ON_PERC_CHANGE utils / 100 ->
  control_charge_current (state_after (current_manager t1 t2 t3 t4) s)
  = control_charge_current s
  /\ charge_limitation (state_after (current_manager t1 t2 t3 t4) s)
     = charge_limitation s.
Proof.
  intros Hlimits Hmin Hnz Hearly Hprev Hsmall.
  assert (Hside : charge_side t1 t2 s
                  = (Ok tt, set_control_allow_charge
                              (allowed_by (control_charge_current s)) s)).
  { unfold manage_charge_side, commit_due. munfold.
    rewrite Hlimits, Hmin, Hprev. simpl.
    apply Qleb_gt in Hearly. rewrite Hearly.
    apply Qeqb_neq in Hnz. rewrite Hnz. simpl.
    unfold py_abs. apply Qleb_gt in Hsmall. rewrite Hsmall. simpl.
    now rewrite Hprev. }
  destruct (current_manager_run t1 t2 t3 t4 s) as (_ & ->);
    [unfold outcome; now rewrite Hside |].
  destruct (discharge_side_frame t3 t4 (state_after (charge_side t1 t2) s))
    as (-> & -> & _).
  unfold state_after. rewrite Hside. split; reflexivity.
Qed.

End Limiter.

(** C4 on a healthy pack whose supervisor has latched a disconnect. *)
Lemma disconnect_forces_zero_limits_witness :
  block_because_disconnect disconnected_pack = true
  /\ outcome (manage_charge_current example_config calcLinearRelationship_model
                calcStepRelationship_model 1000 1000 1000 1000)
             disconnected_pack = Ok tt
  /\ is_num (control_charge_current
               (state_after
                  (manage_charge_current example_config
                     calcLinearRelationship_model calcStepRelationship_model
                     1000 1000 1000 1000) disconnected_pack)) 0.
Proof.
  split; [reflexivity |].
  assert (Hpos : forall d, forallb (fun kv => match fst kv with
                                             | Some q => Qleb 0 q
                                             | None => false
                                             end) d = true -> nonneg_keys d).
  { intros d H. apply Forall_forall. intros [[q |] v] Hin;
      apply (proj1 (forallb_forall _ _) H) in Hin; simpl in Hin;
      [now apply Qleb_le | discriminate]. }
  refine (let H := disconnect_forces_zero_limits example_config
                     calcLinearRelationship_model calcStepRelationship_model
                     1000 1000 1000 1000 disconnected_pack
                     disconnected_charging disconnected_discharging
                     _ _ _ _ _ in
          conj (proj1 H) (proj1 (proj2 H))).
  - reflexivity.
  - vm_compute. reflexivity.
  - apply Hpos. vm_compute. reflexivity.
  - vm_compute. reflexivity.
  - apply Hpos. vm_compute. reflexivity.
Defined.

(** C8 on a pack whose committed limit of 83.3 A is ten seconds old while
    the temperature rule now asks for 83.333 A. *)
Lemma charge_throttle_holds_witness :
  control_charge_current settled_pack = Some 83.3
  /\ control_charge_current
       (state_after
          (manage_charge_current example_config calcLinearRelationship_model
             calcStepRelationship_model 1000 1000 1000 1000) settled_pack)
     = control_charge_current settled_pack.
Proof.
  split; [reflexivity |].
  refine (proj1 (charge_throttle_holds example_config
                   calcLinearRelationship_model calcStepRelationship_model
                   1000 1000 1000 1000 settled_pack settled_limits
                   settled_ccl 83.3 _ _ _ _ _ _)).
  - vm_compute. reflexivity.
  - vm_compute. reflexivity.
  - intros H. apply Qeq_bool_iff in H. vm_compute in H. discriminate H.
  - vm_compute. reflexivity.
  - reflexivity.
  - vm_compute. reflexivity.
Defined.

(** ** Coulomb counter *)

Section CoulombCounter.

Variable utils : Config.
Variable calcLinearRelationship : option Q -> list Q -> list Q -> res Q.

Local Abbreviation soc_update := (soc_calculation utils calcLinearRelationship).



(** Taking apart a run that returned. *)
Lemma bind_inv {A B} (m : M A) (k : A -> M B) (s s' : Battery) (b : B) :
  bind m k s = (Ok b, s') ->
  exists a s1, m s = (Ok a, s1) /\ k a s1 = (Ok b, s').
Proof.
  unfold bind. destruct (m s) as [[a | e] s1]; [eauto | discriminate].
Qed.

Lemma state_after_run {A} (m : M A) (s s' : Battery) (r : res A) :
  m s = (r, s') -> state_after m s = s'.
Proof. unfold state_after. now intros ->. Qed.










End CoulombCounter.


(** The same call on the pack of scenario E, which finds the accumulator,
    integrates and snaps to full. *)
Example soc_calculation_invariant_integrating :
  exists r,
    soc_calc_capacity_remain
      (state_after
         (soc_calculation example_config calcLinearRelationship_model 1000)
         (nearly_full_pack 1 900)) = Some r
    /\ 0 <= r <= 100.
Proof.
  eexists. split; [vm_compute; reflexivity |].
  split; apply Qle_bool_imp_le; vm_compute; reflexivity.
Qed.


Section FullEndpoint.

Variable utils : Config.
Variable calcLinearRelationship : option Q -> list Q -> list Q -> res Q.

Local Abbreviation soc_update := (soc_calculation utils calcLinearRelationship).

(** Running a sequence whose first step is known. *)
Lemma bind_modify {B} (f : Battery -> Battery) (k : unit -> M B) (s : Battery) :
  bind (modify f) k s = k tt (f s).
Proof. reflexivity. Qed.

Lemma bind_gets {A B} (f : Battery -> A) (k : A -> M B) (s : Battery) :
  bind (gets f) k s = k (f s) s.
Proof. reflexivity. Qed.

Lemma bind_ret {A B} (a : A) (k : A -> M B) (s : Battery) :
  bind (ret a) k s = k a s.
Proof. reflexivity. Qed.

Lemma bind_eval_Ok {A B} (f : Battery -> res A) (k : A -> M B) (s : Battery) (a : A) :
  f s = Ok a -> bind (eval f) k s = k a s.
Proof. unfold bind, eval. now intros ->. Qed.

Lemma bind_eval_Raise {A B} (f : Battery -> res A) (k : A -> M B) (s : Battery)
    (e : exn) :
  f s = Raise e -> bind (eval f) k s = (Raise e, s).
Proof. unfold bind, eval. now intros ->. Qed.

Lemma bind_run {A B} (m : M A) (k : A -> M B) (s s1 : Battery) (a : A) :
  m s = (Ok a, s1) -> bind m k s = k a s1.
Proof. unfold bind. now intros ->. Qed.

Lemma bind_run_Raise {A B} (m : M A) (k : A -> M B) (s s1 : Battery) (e : exn) :
  m s = (Raise e, s1) -> bind m k s = (Raise e, s1).
Proof. unfold bind. now intros ->. Qed.






End FullEndpoint.


(** The snap of the witness does fire, as scenario E expects. *)
Example scenario_E_snaps :
  soc_calc_capacity_remain
    (state_after
       (soc_calculation example_config calcLinearRelationship_model 1000)
       (nearly_full_pack 1 900)) = Some 100
  /\ is_num (soc_calc
               (state_after
                  (soc_calculation example_config calcLinearRelationship_model 1000)
                  (nearly_full_pack 1 900))) 100.
Proof. split; vm_compute; reflexivity. Qed.

(** Four cells at 3.425 V add up to the threshold 13.8 - 0.1 itself: the
    pack is not among those of the theorem. *)
Example full_threshold_on_the_boundary :
  ~ full_threshold_clear example_config 13.8 (3.425 * 4)
      (example_pack [3.425; 3.425; 3.425; 3.425] 1).
Proof. refuted. Qed.


(** ** Voltage controller *)

Section Scan.

Variable utils : Config.

Local Open Scope list_scope.

(** One round of the scan, on an index the loop does visit. *)
Lemma penalty_step_cell (s : Battery) (n : Z) (acc : Q * Q * bool) (i : nat) :
  cell_count s = Some n ->
  (Z.of_nat i < n)%Z ->
  penalty_step utils s acc i
  = Ok (fold_left (penalty_add (active_ceiling utils s))
          (live_voltages (firstn 1 (skipn i (cells s)))) acc).
Proof.
  intros Hn Hi. unfold penalty_step, get_cell_voltage, cells_in_use.
  destruct acc as [[vs ps] f]. rewrite Hn. simpl.
  destruct (nth_error (cells s) i) as [c |] eqn:Hc.
  - assert (Hlen : (i < List.length (cells s))%nat)
      by (apply nth_error_Some; congruence).
    destruct (nth_error_split _ _ Hc) as (l1 & l2 & Hcells & Hl1).
    assert (Hskip : skipn i (cells s) = c :: l2).
    { rewrite Hcells, <- Hl1, skipn_app, skipn_all, Nat.sub_diag. reflexivity. }
    rewrite Hskip. simpl.
    replace (_ <=? Z.of_nat i)%Z with false
      by (symmetry; destruct (n <? _)%Z; apply Z.leb_gt; lia).
    destruct (cell_voltage c) as [v |]; simpl; [| reflexivity].
    destruct (Qeqb v 0); simpl; [reflexivity |].
    unfold active_ceiling, py_ne.
    destruct (py_eq _ _); simpl; destruct (Qltb _ v); reflexivity.
  - apply nth_error_None in Hc. rewrite (skipn_all2 _ Hc). simpl.
    destruct (n <? _)%Z eqn:E; [apply Z.ltb_lt in E; lia |].
    replace (_ <=? Z.of_nat i)%Z with true
      by (symmetry; apply Z.leb_le; lia).
    reflexivity.
Qed.

(** The loop is a fold over the cells it visits. *)
Lemma penalty_loop_fold (s : Battery) (n : Z) (k a : nat) (acc : Q * Q * bool) :
  cell_count s = Some n ->
  ((0 < k)%nat -> (Z.of_nat (a + k) <= n)%Z) ->
  for_each (penalty_step utils s) (seq a k) acc
  = Ok (fold_left (penalty_add (active_ceiling utils s))
          (live_voltages (firstn k (skipn a (cells s)))) acc).
Proof.
  intros Hn. revert a acc.
  induction k as [| k IH]; intros a acc Hk; simpl; [reflexivity |].
  rewrite (penalty_step_cell s n acc a Hn) by lia. simpl rbind.
  rewrite IH by lia. f_equal.
  destruct (skipn a (cells s)) as [| c l] eqn:Hskip.
  - assert (Hnil : skipn (S a) (cells s) = []).
    { apply skipn_all2. 
      assert (List.length (skipn a (cells s)) = 0%nat) by now rewrite Hskip.
      rewrite length_skipn in H. lia. }
    rewrite Hnil, firstn_nil. reflexivity.
  - assert (Hnext : skipn (S a) (cells s) = l).
    { change (S a) with (1 + a)%nat. rewrite <- skipn_skipn, Hskip. reflexivity. }
    rewrite Hnext. simpl firstn. unfold live_voltages at 2 3.
    simpl flat_map. rewrite app_nil_r, fold_left_app. reflexivity.
Qed.

(** What the fold accumulates. *)
Lemma penalty_fold_sums (ceiling : Q) (l : list Q) (vs ps : Q) (f : bool) :
  exists vs' ps',
    fold_left (penalty_add ceiling) l (vs, ps, f)
    = (vs', ps', f || existsb (Qltb ceiling) l)
    /\ vs' == vs + Qsum l
    /\ ps' == ps + overshoot_total ceiling l.
Proof.
  revert vs ps f. induction l as [| v l IH]; intros vs ps f; simpl.
  - exists vs, ps. rewrite orb_false_r. unfold overshoot_total. simpl.
    repeat split; lra.
  - unfold overshoot_total. simpl. unfold overshoot at 1.
    destruct (Qltb ceiling v).
    + destruct (IH (vs + v) (ps + (v - ceiling)) true) as (vs' & ps' & -> & Hv & Hp).
      exists vs', ps'. rewrite orb_true_r. unfold overshoot_total in Hp.
      repeat split; lra.
    + destruct (IH (vs + v) ps f) as (vs' & ps' & -> & Hv & Hp).
      exists vs', ps'. unfold overshoot_total in Hp. repeat split; lra.
Qed.

(** The scan returns the pack sum, the total overshoot, and whether some
    polled cell is above the ceiling in force. *)
Lemma penalty_scan_spec (s : Battery) (n : Z) :
  cell_count s = Some n ->
  exists vs ps,
    penalty_scan utils s
    = Ok (vs, ps,
          existsb (Qltb (active_ceiling utils s))
            (live_voltages (cells_polled n s)))
    /\ vs == Qsum (live_voltages (cells_polled n s))
    /\ ps == overshoot_total (active_ceiling utils s)
               (live_voltages (cells_polled n s)).
Proof.
  intros Hn. unfold penalty_scan, range, cells_polled. rewrite Hn. simpl.
  rewrite (penalty_loop_fold s n (Z.to_nat n) 0 _ Hn) by lia.
  rewrite skipn_O.
  destruct (penalty_fold_sums (active_ceiling utils s)
              (live_voltages (firstn (Z.to_nat n) (cells s))) 0 0 false)
    as (vs & ps & -> & Hv & Hp).
  exists vs, ps. simpl. repeat split; lra.
Qed.

Lemma Qsum_app (a b : list Q) : Qsum (a ++ b) == Qsum a + Qsum b.
Proof.
  induction a as [| x a IH]; simpl; [lra |]. rewrite IH. lra.
Qed.

Lemma overshoot_total_app (ceiling : Q) (a b : list Q) :
  overshoot_total ceiling (a ++ b)
  == overshoot_total ceiling a + overshoot_total ceiling b.
Proof. unfold overshoot_total. rewrite map_app. apply Qsum_app. Qed.

Lemma live_voltages_app (a b : list Cell) :
  live_voltages (a ++ b) = live_voltages a ++ live_voltages b.
Proof. apply flat_map_app. Qed.

(** The cells polled on a pack whose cell of interest is within the count. *)
Lemma cells_polled_with_cell (before after : list Cell) (balance : option bool)
    (temp : option Q) (v : Q) (s : Battery) (n : Z) :
  (Z.of_nat (List.length before) < n)%Z ->
  cells_polled n (pack_with_cell before after balance temp v s)
  = before ++ mkCell (Some v) balance temp
      :: firstn (Z.to_nat n - S (List.length before)) after.
Proof.
  intros Hn. unfold cells_polled, pack_with_cell. simpl.
  rewrite firstn_app, firstn_all2 by lia. f_equal.
  replace (Z.to_nat n - List.length before)%nat
    with (S (Z.to_nat n - S (List.length before))) by lia.
  reflexivity.
Qed.

(** On such a pack, with the cell of interest above [MAX_CELL_VOLTAGE] and
    no excursion under way, the scan finds a high cell, and what it leaves
    of the pack sum once the overshoot is taken off does not depend on the
    voltage of that cell. *)
Lemma high_cell_scan (before after : list Cell) (balance : option bool)
    (temp : option Q) (v : Q) (s : Battery) (n : Z) :
  cell_count s = Some n ->
  (Z.of_nat (List.length before) < n)%Z ->
  py_ne (max_battery_voltage s) (soc_reset_battery_voltage s) = true ->
  0 <= MAX_CELL_VOLTAGE utils ->
  MAX_CELL_VOLTAGE utils < v ->
  let others :=
    live_voltages before
    ++ live_voltages (firstn (Z.to_nat n - S (List.length before)) after) in
  exists vs ps,
    penalty_scan utils (pack_with_cell before after balance temp v s)
    = Ok (vs, ps, true)
    /\ vs - ps
       == Qsum others - overshoot_total (MAX_CELL_VOLTAGE utils) others
          + MAX_CELL_VOLTAGE utils.
Proof.
  intros Hn Hin Hne Hmax Hv others.
  destruct (penalty_scan_spec (pack_with_cell before after balance temp v s) n Hn)
    as (vs & ps & Hscan & Hvs & Hps).
  assert (Hceiling : active_ceiling utils
                       (pack_with_cell before after balance temp v s)
                     = MAX_CELL_VOLTAGE utils).
  { unfold active_ceiling, py_ne in *. simpl.
    destruct (py_eq _ _); [discriminate | reflexivity]. }
  rewrite Hceiling in *.
  rewrite (cells_polled_with_cell _ _ _ _ _ _ _ Hin) in *.
  assert (Hlive : live_voltages
                    (before ++ mkCell (Some v) balance temp
                       :: firstn (Z.to_nat n - S (List.length before)) after)
                  = live_voltages before
                    ++ v :: live_voltages
                              (firstn (Z.to_nat n - S (List.length before)) after)).
  { rewrite live_voltages_app. f_equal. unfold live_voltages at 1. simpl.
    replace (Qeqb v 0) with false by (symmetry; apply Qeqb_neq; lra).
    reflexivity. }
  rewrite Hlive in *.
  assert (Hfound : existsb (Qltb (MAX_CELL_VOLTAGE utils))
                     (live_voltages before
                      ++ v :: live_voltages
                                (firstn (Z.to_nat n - S (List.length before)) after))
                   = true).
  { rewrite existsb_app. simpl. apply Qltb_lt in Hv. rewrite Hv.
    simpl. apply orb_true_r. }
  rewrite Hfound in Hscan.
  exists vs, ps. split; [exact Hscan |].
  rewrite Hvs, Hps. unfold others.
  rewrite !Qsum_app, !overshoot_total_app.
  change (v :: ?l) with ([v] ++ l).
  assert (Hone : overshoot_total (MAX_CELL_VOLTAGE utils)
                   (v :: live_voltages
                           (firstn (Z.to_nat n - S (List.length before)) after))
                 == v - MAX_CELL_VOLTAGE utils
                    + overshoot_total (MAX_CELL_VOLTAGE utils)
                        (live_voltages
                           (firstn (Z.to_nat n - S (List.length before)) after))).
  { unfold overshoot_total. simpl. unfold overshoot at 1.
    apply Qltb_lt in Hv. rewrite Hv. reflexivity. }
  rewrite Hone. simpl Qsum. lra.
Qed.

(** A pack with a cell that has a reading has a highest and a lowest cell. *)
Lemma known_voltages_with_cell (before after : list Cell) (c : Cell) (v : Q) :
  cell_voltage c = Some v ->
  known_voltages (before ++ c :: after) <> [].
Proof.
  intros Hc. induction before as [| b before IH]; simpl.
  - rewrite Hc. discriminate.
  - destruct (cell_voltage b); [discriminate | exact IH].
Qed.

Lemma cell_voltage_diff_with_cell (before after : list Cell)
    (balance : option bool) (temp : option Q) (v : Q) (s : Battery) :
  exists vd,
    cell_voltage_diff (pack_with_cell before after balance temp v s) = Ok vd.
Proof.
  unfold cell_voltage_diff, get_max_cell_voltage, get_min_cell_voltage,
    pack_with_cell. simpl.
  pose proof (known_voltages_with_cell before after
                (mkCell (Some v) balance temp) v eq_refl) as Hne.
  destruct (known_voltages _) as [| x l]; [now elim Hne |].
  destruct (cell_max_voltage s), (cell_min_voltage s); simpl; eauto.
Qed.

Lemma overshoot_total_none (ceiling : Q) (l : list Q) :
  Forall (fun x => x <= ceiling) l -> overshoot_total ceiling l == 0.
Proof.
  unfold overshoot_total. induction 1 as [| x l Hx Hl IH]; simpl; [lra |].
  rewrite IH. unfold overshoot.
  replace (Qltb ceiling x) with false by (symmetry; now apply Qltb_ge). lra.
Qed.

Lemma clamp3_comp (x y lo hi : Q) : x == y -> clamp3 x lo hi = clamp3 y lo hi.
Proof.
  intros H. unfold clamp3. apply py_round_comp.
  apply py_min_comp; [| reflexivity]. apply py_max_comp; [exact H | reflexivity].
Qed.

End Scan.
(** A mode that starts with "Float Transition" starts with "Float". *)
Lemma prefix_Float_Transition (m : string) :
  String.prefix "Float Transition" m = true -> String.prefix "Float" m = true.
Proof.
  intros H.
  do 5 (destruct m as [| ? m]; [discriminate H |];
        cbn [String.prefix] in H |- *;
        match goal with
        | |- context [Ascii.ascii_dec ?a ?b] =>
            destruct (Ascii.ascii_dec a b); [| discriminate H]
        end).
  destruct m; reflexivity.
Qed.

#[local] Arguments String.prefix : simpl never.

Section Controller.

Variable utils : Config.
Variable format_charge_mode_debug : Battery -> Q -> Q -> Q -> Z -> Z -> string.

Local Abbreviation controller :=
  (manage_charge_voltage_linear utils format_charge_mode_debug).
Local Abbreviation controller_body :=
  (manage_charge_voltage_linear_body utils format_charge_mode_debug).
Local Abbreviation annotate :=
  (annotate_charge_mode utils format_charge_mode_debug).

(** The Absorption timer writes two fields and nothing else, whether it
    returns or raises. *)
Lemma absorption_timer_frame (now : Z) (vs vd : Q) (s : Battery) :
  let s1 := state_after (absorption_timer utils now vs vd) s in
  s1 = set_allow_max_voltage (allow_max_voltage s1)
         (set_max_voltage_start_time (max_voltage_start_time s1) s).
Proof.
  destruct s. unfold absorption_timer. munfold. simpl.
  repeat (break_match; simpl); reflexivity.
Qed.

Lemma try_except_run_eq {A} (m1 m2 handler : M A) (s1 s2 : Battery) :
  m1 s1 = m2 s2 ->
  try_except_TypeError m1 handler s1 = try_except_TypeError m2 handler s2.
Proof. unfold try_except_TypeError. now intros ->. Qed.

(** The suffixes, under the [try]: on a pack that has a mode, a cell count
    and a target, the method returns and the CVL is what it was (the debug
    report fails on a CVL of [None], and the handler then stores [None]);
    in the Float regime, with a CVL, the mode gets its suffix. *)
Lemma annotate_guarded (now : Z) (vs ps vd : Q) (td : Z) (s : Battery)
    (m : string) (n : Z) (hi : Q) :
  charge_mode s = Some m ->
  cell_count s = Some n ->
  max_battery_voltage s = Some hi ->
  outcome (try_except_TypeError (annotate now vs ps vd td) on_TypeError) s
  = Ok tt
  /\ control_voltage
       (state_after
          (try_except_TypeError (annotate now vs ps vd td) on_TypeError) s)
     = control_voltage s
  /\ (allow_max_voltage s = false ->
      control_voltage s <> None ->
      charge_mode
        (state_after
           (try_except_TypeError (annotate now vs ps vd td) on_TypeError) s)
      = Some (m ++ " (Linear Mode)")).
Proof.
  intros Hm Hn Hhi.
  unfold try_except_TypeError, on_TypeError, annotate_charge_mode,
    append_charge_mode, get_balancing, cells_in_use.
  munfold. simpl. rewrite Hn. simpl.
  destruct (allow_max_voltage s); simpl.
  - destruct (existsb _ _ && _); simpl; rewrite Hm; simpl;
      destruct (LOGGER_DEBUG utils); simpl; rewrite ?Hhi; simpl;
      destruct (control_voltage s) eqn:Hcv; simpl; rewrite ?Hcv;
      repeat split; discriminate.
  - rewrite Hm. simpl.
    destruct (LOGGER_DEBUG utils); simpl; rewrite ?Hhi; simpl;
      destruct (control_voltage s) eqn:Hcv; simpl; rewrite ?Hcv;
      repeat split; intros; congruence.
Qed.

(** The penalty branch: the commit of the clamped, rounded voltage, at once
    under the I-controller and through the throttle otherwise; then the
    mode. *)
Lemma emit_dynamic_run (now_cvl : Z) (vs ps lo hi : Q) (s : Battery) :
  min_battery_voltage s = Some lo ->
  max_battery_voltage s = Some hi ->
  exists m,
    emit_dynamic utils now_cvl vs ps s
    = (Ok tt,
       set_charge_mode (Some m)
         (if CVL_ICONTROLLER_MODE utils then
            set_control_voltage (Some (clamp3 (vs - ps) lo hi)) s
          else if Qleb (LINEAR_RECALCULATION_EVERY utils)
                    (inject_Z (now_cvl - linear_cvl_last_set s))
          then set_linear_cvl_last_set now_cvl
                 (set_control_voltage (Some (clamp3 (vs - ps) lo hi)) s)
          else s)).
Proof.
  intros Hlo Hhi. unfold emit_dynamic, penalty_voltage, set_cvl_linear.
  munfold. simpl. rewrite Hlo, Hhi. simpl.
  destruct (CVL_ICONTROLLER_MODE utils); simpl; [eexists; reflexivity |].
  destruct (Qleb _ _); simpl; eexists; reflexivity.
Qed.

(** The I-controller block does not fail on a pack whose targets and
    highest cell are known. *)
Lemma icontroller_total (s : Battery) (lo hi top : Q) :
  min_battery_voltage s = Some lo ->
  max_battery_voltage s = Some hi ->
  get_max_cell_voltage s = Some top ->
  exists cv, icontroller utils s = Ok cv.
Proof.
  intros Hlo Hhi Htop. unfold icontroller. rewrite Hlo, Hhi, Htop.
  destruct (CVL_ICONTROLLER_MODE utils); [| eauto].
  destruct (control_voltage s) as [cv |]; simpl; [| eauto].
  destruct (negb _); simpl; eauto.
Qed.

Lemma cell_voltage_diff_top (s : Battery) (vd : Q) :
  cell_voltage_diff s = Ok vd -> exists top, get_max_cell_voltage s = Some top.
Proof.
  unfold cell_voltage_diff.
  destruct (get_max_cell_voltage s); [eauto | discriminate].
Qed.

(** The controller on a pack that regulates by penalty: some polled cell
    is above the ceiling and [allow_max_voltage] holds after the timer. *)
Lemma penalty_regulator_run
    (now now_cvl : Z) (s s1 : Battery) (n td : Z) (vs ps vd lo hi : Q) :
  cell_count s = Some n ->
  penalty_scan utils s = Ok (vs, ps, true) ->
  cell_voltage_diff s = Ok vd ->
  absorption_timer utils now vs vd s = (Ok td, s1) ->
  allow_max_voltage s1 = true ->
  min_battery_voltage s = Some lo ->
  max_battery_voltage s = Some hi ->
  outcome (controller now now_cvl) s = Ok tt
  /\ control_voltage (state_after (controller now now_cvl) s)
     = (if CVL_ICONTROLLER_MODE utils
           || Qleb (LINEAR_RECALCULATION_EVERY utils)
                (inject_Z (now_cvl - linear_cvl_last_set s))
        then Some (clamp3 (vs - ps) lo hi) else control_voltage s).
Proof.
  intros Hn Hscan Hdiff Htimer Hallow Hlo Hhi.
  pose proof (absorption_timer_frame now vs vd s) as Hframe.
  rewrite (state_after_run _ _ _ _ Htimer) in Hframe. cbv zeta in Hframe.
  rewrite Hallow in Hframe.
  set (s1' := set_allow_max_voltage true
                (set_max_voltage_start_time (max_voltage_start_time s1) s))
    in Hframe.
  destruct (cell_voltage_diff_top s vd Hdiff) as (top & Htop).
  destruct (icontroller_total s1' lo hi top Hlo Hhi Htop) as (cv_ & Hicv).
  destruct (emit_dynamic_run now_cvl vs ps lo hi s1' Hlo Hhi) as (m & Hemit).
  change (linear_cvl_last_set s1') with (linear_cvl_last_set s) in Hemit.
  match type of Hemit with
  | _ = (_, ?s2') => set (s2 := s2') in Hemit
  end.
  assert (Hn2 : cell_count s2 = Some n).
  { unfold s2. destruct (CVL_ICONTROLLER_MODE utils); [exact Hn |].
    destruct (Qleb _ _); exact Hn. }
  assert (Hhi2 : max_battery_voltage s2 = Some hi).
  { unfold s2. destruct (CVL_ICONTROLLER_MODE utils); [exact Hhi |].
    destruct (Qleb _ _); exact Hhi. }
  destruct (annotate_guarded now vs ps vd td s2 m n hi eq_refl Hn2 Hhi2)
    as (Hok & Hkeep & _).
  assert (Hbody : controller_body now now_cvl s
                  = annotate now vs ps vd td s2).
  { unfold manage_charge_voltage_linear_body.
    erewrite bind_eval_Ok by exact Hscan. cbv beta iota.
    erewrite bind_eval_Ok by exact Hdiff.
    erewrite bind_run by exact Htimer. rewrite Hframe.
    erewrite bind_eval_Ok by exact Hicv.
    erewrite bind_run; [reflexivity |].
    unfold emit_control_voltage. rewrite bind_gets.
    change (allow_max_voltage s1') with true. simpl andb. cbv iota.
    exact Hemit. }
  unfold manage_charge_voltage_linear.
  unfold outcome, state_after in *.
  rewrite (try_except_run_eq _ _ _ _ _ Hbody).
  split; [exact Hok |]. rewrite Hkeep.
  unfold s2. destruct (CVL_ICONTROLLER_MODE utils); [reflexivity |].
  destruct (Qleb _ _); reflexivity.
Qed.






(** The Float branch while the mode is "Float Transition". *)
Lemma emit_float_ramp_run (now now_cvl : Z) (s : Battery) (n t0 : Z)
    (m : string) (cv init : Q) :
  cell_count s = Some n ->
  charge_mode s = Some m ->
  String.prefix "Float Transition" m = true ->
  control_voltage s = Some cv ->
  ~ cv == 0 ->
  transition_start_time s = Some t0 ->
  initial_control_voltage s = Some init ->
  let floatV := float_voltage utils n in
  let committed :=
    if Qleb (LINEAR_RECALCULATION_EVERY utils)
         (inject_Z (now_cvl - linear_cvl_last_set s))
    then ramp_target init floatV (now - t0) else cv in
  exists s2,
    emit_float utils now now_cvl s = (Ok tt, s2)
    /\ control_voltage s2
       = Some (if Qleb committed floatV then floatV else committed)
    /\ charge_mode s2
       = Some (if Qleb committed floatV then "Float" else "Float Transition")
    /\ cell_count s2 = Some n
    /\ allow_max_voltage s2 = allow_max_voltage s
    /\ max_battery_voltage s2 = max_battery_voltage s.
Proof.
  intros Hn Hm Hprefix Hcv Hnz Ht0 Hinit floatV committed.
  pose proof (prefix_Float_Transition m Hprefix) as Hfloat.
  apply Qeqb_neq in Hnz.
  unfold emit_float, float_ramp, set_cvl_linear, charge_mode_startswith,
    get_initial_control_voltage.
  munfold. simpl. rewrite Hn. simpl.
  unfold committed, floatV, float_voltage, ramp_target.
  destruct (soc_reset_requested s);
    repeat (progress (simpl;
                      rewrite ?Hcv, ?Hnz, ?Hm, ?Hfloat, ?Hprefix, ?Ht0, ?Hinit));
    destruct (Qleb (LINEAR_RECALCULATION_EVERY utils) _); simpl;
    rewrite ?Hcv; simpl;
    destruct (Qleb _ (py_round _ 3)); simpl; eexists; repeat split;
    assumption.
Qed.

(** C7 (as the code has it): in Float Transition the controller asks for
    [initial_control_voltage - min(0.001 * t, initial_control_voltage - float_V)]
    with [float_V = round(FLOAT_CELL_VOLTAGE * cell_count, 3)] and commits
    it through the throttle of [set_cvl_linear]; as soon as the committed
    CVL is at or below [float_V], the CVL is [float_V] and the mode is
    "Float", otherwise the mode stays "Float Transition".  The comparisons
    of the timer and the choice between the two arms of the [min] are
    clear: from 13.8 V down to a float voltage of 13.2 V, the tick at 600 s,
    where [0.001 * t] is the whole difference, is not covered (the doubles
    of the source leave 13.200000000000001 V and stay in the transition on
    that tick). *)
Theorem float_transition_ramp
    (now now_cvl : Z) (s s1 : Battery) (n td t0 : Z)
    (m : string) (vd lo hi cv init : Q) :
  cell_count s = Some n ->
  cell_voltage_diff s = Ok vd ->
  absorption_timer utils now (Qsum_scanned utils s) vd s = (Ok td, s1) ->
  allow_max_voltage s1 = false ->
  timer_clear utils n s ->
  min_battery_voltage s = Some lo ->
  max_battery_voltage s = Some hi ->
  charge_mode s = Some m ->
  String.prefix "Float Transition" m = true ->
  control_voltage s = Some cv ->
  ~ cv == 0 ->
  transition_start_time s = Some t0 ->
  initial_control_voltage s = Some init ->
  ramp_clear utils n init (now - t0) ->
  let floatV := float_voltage utils n in
  let committed :=
    if Qleb (LINEAR_RECALCULATION_EVERY utils)
         (inject_Z (now_cvl - linear_cvl_last_set s))
    then ramp_target init floatV (now - t0) else cv in
  outcome (controller now now_cvl) s = Ok tt
  /\ control_voltage (state_after (controller now now_cvl) s)
     = Some (if Qleb committed floatV then floatV else committed)
  /\ charge_mode (state_after (controller now now_cvl) s)
     = Some (if Qleb committed floatV then "Float (Linear Mode)"
             else "Float Transition (Linear Mode)").
Proof.
  intros Hn Hdiff Htimer Hallow _ Hlo Hhi Hm Hprefix Hcv Hnz Ht0 Hinit _
    floatV committed.
  destruct (penalty_scan_spec utils s n Hn) as (vs & ps & Hscan & _).
  assert (Hvs : Qsum_scanned utils s = vs)
    by (unfold Qsum_scanned; now rewrite Hscan).
  rewrite Hvs in Htimer.
  pose proof (absorption_timer_frame now vs vd s) as Hframe.
  rewrite (state_after_run _ _ _ _ Htimer) in Hframe. cbv zeta in Hframe.
  rewrite Hallow in Hframe.
  set (s1' := set_allow_max_voltage false
                (set_max_voltage_start_time (max_voltage_start_time s1) s))
    in Hframe.
  destruct (cell_voltage_diff_top s vd Hdiff) as (top & Htop).
  destruct (icontroller_total s1' lo hi top Hlo Hhi Htop) as (cv_ & Hicv).
  destruct (emit_float_ramp_run now now_cvl s1' n t0 m cv init
              Hn Hm Hprefix Hcv Hnz Ht0 Hinit)
    as (s2 & Hemit & Hcv2 & Hm2 & Hn2 & Hallow2 & Hhi2).
  change (linear_cvl_last_set s1') with (linear_cvl_last_set s) in Hcv2, Hm2.
  fold floatV in Hcv2, Hm2. fold committed in Hcv2, Hm2.
  destruct (annotate_guarded now vs ps vd td s2 _ n hi Hm2 Hn2)
    as (Hok & Hkeep & Hmode); [rewrite Hhi2; exact Hhi |].
  assert (Hbody : controller_body now now_cvl s
                  = annotate now vs ps vd td s2).
  { unfold manage_charge_voltage_linear_body.
    erewrite bind_eval_Ok by exact Hscan. cbv beta iota.
    erewrite bind_eval_Ok by exact Hdiff.
    erewrite bind_run by exact Htimer. rewrite Hframe.
    erewrite bind_eval_Ok by exact Hicv.
    erewrite bind_run; [reflexivity |].
    unfold emit_control_voltage. rewrite bind_gets.
    change (allow_max_voltage s1') with false.
    rewrite andb_false_r. exact Hemit. }
  unfold manage_charge_voltage_linear.
  unfold outcome, state_after in *.
  rewrite (try_except_run_eq _ _ _ _ _ Hbody).
  split; [exact Hok |]. split.
  - now rewrite Hkeep.
  - rewrite Hmode; [| rewrite Hallow2; reflexivity | rewrite Hcv2; discriminate].
    destruct (Qleb committed floatV); reflexivity.
Qed.

(** A running Absorption timer that does not expire on this tick leaves
    [allow_max_voltage] set. *)
Lemma absorption_timer_running (now : Z) (vs vd : Q) (s : Battery) (t0 : Z)
    (hi : Q) :
  max_voltage_start_time s = Some t0 ->
  allow_max_voltage s = true ->
  (0 <= now - t0)%Z ->
  inject_Z (now - t0) <= MAX_VOLTAGE_TIME_SEC utils ->
  max_battery_voltage s = Some hi ->
  exists td s1,
    absorption_timer utils now vs vd s = (Ok td, s1)
    /\ allow_max_voltage s1 = true.
Proof.
  intros Ht0 Hallow Hpos Hlate Hhi.
  assert (Hzero : Qltb (MAX_VOLTAGE_TIME_SEC utils) (inject_Z (now - now)) = false).
  { apply Qltb_ge. replace (now - now)%Z with 0%Z by lia.
    apply Qle_trans with (inject_Z (now - t0)); [| exact Hlate].
    rewrite <- Zle_Qle. exact Hpos. }
  apply Qltb_ge in Hlate.
  unfold absorption_timer. munfold. simpl. rewrite Ht0. simpl.
  destruct (Qltb (CELL_VOLTAGE_DIFF_KEEP_MAX_VOLTAGE_TIME_RESTART utils) vd);
    simpl; rewrite ?Ht0; simpl; rewrite ?Hzero, ?Hlate; simpl;
    rewrite Hhi; simpl; destruct (Qltb vs _); simpl; eauto.
Qed.

(** C2 (as the code has it): with [allow_max_voltage] set, the Absorption
    timer running and not expiring on this tick, no excursion under way and
    exactly one polled cell above [MAX_CELL_VOLTAGE], the controller returns
    and the CVL it commits is the sum of the other polled cells plus
    [MAX_CELL_VOLTAGE], clamped and rounded: the overshoot of the high cell
    is taken off in full, so the CVL is the same whatever the voltage [v] of
    that cell.  The clamped voltage is off the ties of the rounding: with
    the other cells at 3.4425, 3.44 and 3.44 V it is 13.7725 V, and the
    doubles of the source then commit 13.772 V or 13.773 V according to
    [v]. *)
Theorem penalty_cvl_ignores_high_cell
    (now now_cvl : Z) (s : Battery) (before after : list Cell)
    (balance : option bool) (temp : option Q) (v : Q) (n t0 : Z) (lo hi : Q) :
  cell_count s = Some n ->
  (Z.of_nat (List.length before) < n)%Z ->
  py_ne (max_battery_voltage s) (soc_reset_battery_voltage s) = true ->
  0 <= MAX_CELL_VOLTAGE utils ->
  MAX_CELL_VOLTAGE utils < v ->
  allow_max_voltage s = true ->
  max_voltage_start_time s = Some t0 ->
  (0 <= now - t0)%Z ->
  inject_Z (now - t0) <= MAX_VOLTAGE_TIME_SEC utils ->
  min_battery_voltage s = Some lo ->
  max_battery_voltage s = Some hi ->
  let others :=
    (live_voltages before
     ++ live_voltages (firstn (Z.to_nat n - S (List.length before)) after))%list in
  Forall (fun x => x <= MAX_CELL_VOLTAGE utils) others ->
  off_ties (v :: MAX_CELL_VOLTAGE utils :: lo :: hi :: others)
    (py_min (py_max (Qsum others + MAX_CELL_VOLTAGE utils) lo) hi) 3 ->
  outcome (controller now now_cvl)
    (pack_with_cell before after balance temp v s) = Ok tt
  /\ control_voltage
       (state_after (controller now now_cvl)
          (pack_with_cell before after balance temp v s))
     = (if CVL_ICONTROLLER_MODE utils
           || Qleb (LINEAR_RECALCULATION_EVERY utils)
                (inject_Z (now_cvl - linear_cvl_last_set s))
        then Some (clamp3 (Qsum others + MAX_CELL_VOLTAGE utils) lo hi)
        else control_voltage s).
Proof.
  intros Hn Hin Hne Hmax Hv Hallow Ht0 Hpos Hlate Hlo Hhi others Hothers _.
  destruct (high_cell_scan utils before after balance temp v s n
              Hn Hin Hne Hmax Hv) as (vs & ps & Hscan & Hrest).
  destruct (cell_voltage_diff_with_cell before after balance temp v s)
    as (vd & Hvd).
  destruct (absorption_timer_running now vs vd
              (pack_with_cell before after balance temp v s) t0 hi
              Ht0 Hallow Hpos Hlate Hhi) as (td & s1 & Htimer & Hallow1).
  destruct (penalty_regulator_run now now_cvl
              (pack_with_cell before after balance temp v s) s1 n td
              vs ps vd lo hi Hn Hscan Hvd Htimer Hallow1 Hlo Hhi)
    as (Hok & Hcv).
  split; [exact Hok |]. rewrite Hcv.
  change (linear_cvl_last_set (pack_with_cell before after balance temp v s))
    with (linear_cvl_last_set s).
  change (control_voltage (pack_with_cell before after balance temp v s))
    with (control_voltage s).
  rewrite (clamp3_comp (vs - ps) (Qsum others + MAX_CELL_VOLTAGE utils)).
  - reflexivity.
  - rewrite Hrest. fold others. rewrite (overshoot_total_none _ _ Hothers). lra.
Qed.

End Controller.

(** Scenario C: the CVL is 13.77 V and the mode "Bulk dynamic". *)
Example scenario_C :
  is_num (control_voltage
            (state_after
               (manage_charge_voltage_linear example_config no_debug_text 1000 1000)
               unbalanced_pack)) 13.77
  /\ charge_mode
       (state_after
          (manage_charge_voltage_linear example_config no_debug_text 1000 1000)
          unbalanced_pack)
     = Some "Bulk dynamic (Linear Mode)".
Proof. split; vm_compute; reflexivity. Qed.

(** C2 on the absorbing pack with its first cell at 3.50 V. *)
Lemma penalty_cvl_ignores_high_cell_witness :
  MAX_CELL_VOLTAGE example_config < 3.5
  /\ outcome (manage_charge_voltage_linear example_config no_debug_text 1000 1000)
             (high_cell_pack 3.5) = Ok tt.
Proof.
  split; [reflexivity |].
  refine (proj1 (penalty_cvl_ignores_high_cell example_config no_debug_text
                   1000 1000 absorbing_base [] three_cells (Some false) None
                   3.5 4 400 11.6 13.8 _ _ _ _ _ _ _ _ _ _ _ _ _)).
  - reflexivity.
  - reflexivity.
  - vm_compute. reflexivity.
  - apply Qle_bool_imp_le. vm_compute. reflexivity.
  - reflexivity.
  - reflexivity.
  - reflexivity.
  - vm_compute. discriminate.
  - apply Qle_bool_imp_le. vm_compute. reflexivity.
  - reflexivity.
  - reflexivity.
  - repeat constructor; apply Qle_bool_imp_le; vm_compute; reflexivity.
  - computed.
Defined.

(** With the other cells at 3.4425, 3.44 and 3.44 V the clamped voltage is
    13.7725 V, a tie of the rounding to 3 decimals: such packs are not
    among those of the two theorems. *)
Example penalty_voltage_on_a_tie :
  ~ off_ties [3.5; 3.45; 11.6; 13.8; 3.4425; 3.44; 3.44]
      (py_min (py_max (Qsum [3.4425; 3.44; 3.44] + 3.45) 11.6) 13.8) 3.
Proof. refuted. Qed.

(** C2 (as stated) fails: raising the high cell from 3.50 V to 3.60 V does
    not lower the CVL, which stays at 13.77 V, well above the floor of
    11.60 V. *)
Lemma penalty_cvl_not_strictly_lowered :
  exists low high,
    control_voltage
      (state_after
         (manage_charge_voltage_linear example_config no_debug_text 1000 1000)
         (high_cell_pack 3.5)) = Some low
    /\ control_voltage
         (state_after
            (manage_charge_voltage_linear example_config no_debug_text 1000 1000)
            (high_cell_pack 3.6)) = Some high
    /\ 11.6 < low
    /\ ~ high < low.
Proof.
  eexists. eexists.
  split; [vm_compute; reflexivity |]. split; [vm_compute; reflexivity |].
  split; [reflexivity |]. apply Qle_not_lt. apply Qle_bool_imp_le.
  vm_compute. reflexivity.
Qed.

(** C7 on the pack of scenario D, ten seconds into the transition. *)
Lemma float_transition_ramp_witness :
  String.prefix "Float Transition" "Float Transition (Linear Mode)" = true
  /\ outcome (manage_charge_voltage_linear example_config no_debug_text 1010 1010)
             (floating_pack 1000) = Ok tt.
Proof.
  split; [reflexivity |].
  refine (proj1 (float_transition_ramp example_config no_debug_text
                   1010 1010 (floating_pack 1000)
                   (snd (absorption_timer example_config 1010
                           (Qsum_scanned example_config (floating_pack 1000))
                           floating_diff (floating_pack 1000)))
                   4 0 1000 "Float Transition (Linear Mode)"
                   floating_diff 11.6 13.8 13.8 13.8
                   _ _ _ _ _ _ _ _ _ _ _ _ _ _)).
  - reflexivity.
  - vm_compute. reflexivity.
  - vm_compute. reflexivity.
  - vm_compute. reflexivity.
  - computed.
  - reflexivity.
  - reflexivity.
  - reflexivity.
  - reflexivity.
  - reflexivity.
  - intros H. apply Qeq_bool_iff in H. vm_compute in H. discriminate H.
  - reflexivity.
  - reflexivity.
  - computed.
Defined.

(** Scenario D: at +10 s the CVL is 13.79 V and the mode is unchanged. *)
Example scenario_D :
  is_num (control_voltage
            (state_after
               (manage_charge_voltage_linear example_config no_debug_text 1010 1010)
               (floating_pack 1000))) 13.79
  /\ charge_mode
       (state_after
          (manage_charge_voltage_linear example_config no_debug_text 1010 1010)
          (floating_pack 1000))
     = Some "Float Transition (Linear Mode)".
Proof. split; vm_compute; reflexivity. Qed.

(** From 13.8 V down to a float voltage of 4 * 3.3 V, the tick at 600 s is
    the one where both arms of the [min] are 0.6 V: it is not among those
    of the theorem.  The tick before is. *)
Example ramp_on_the_boundary :
  ~ ramp_clear (with_float_cell_voltage 3.3 example_config) 4 13.8 600
  /\ ramp_clear (with_float_cell_voltage 3.3 example_config) 4 13.8 599.
Proof. split; [refuted | computed]. Qed.

(** C7 (as stated) fails when [FLOAT_CELL_VOLTAGE * cell_count] has more
    than 3 decimals.  With 3.3333 V per cell and 4 cells the ramp ends, the
    mode becomes "Float", and the CVL is 13.333 V, not 13.3332 V. *)
Lemma float_voltage_is_rounded :
  charge_mode
    (state_after
       (manage_charge_voltage_linear
          (with_float_cell_voltage 3.3333 example_config) no_debug_text 2000 2000)
       (floating_pack 1000))
  = Some "Float (Linear Mode)"
  /\ exists cvl,
       control_voltage
         (state_after
            (manage_charge_voltage_linear
               (with_float_cell_voltage 3.3333 example_config) no_debug_text
               2000 2000)
            (floating_pack 1000)) = Some cvl
       /\ cvl == 13.333
       /\ ~ cvl == 3.3333 * 4.
Proof.
  split; [vm_compute; reflexivity |]. eexists.
  split; [vm_compute; reflexivity |].
  split; [apply Qeq_bool_iff; vm_compute; reflexivity |].
  intros H. apply Qeq_bool_iff in H. vm_compute in H. discriminate H.
Qed.

(** ** Returning normally *)

Section Totality.

Variable utils : Config.
Variable calcLinearRelationship : option Q -> list Q -> list Q -> res Q.

(** The summation loop does not fail once the cell count is known. *)
Lemma sum_cell_voltages_total (s : Battery) (n : Z) :
  cell_count s = Some n -> exists vsum, sum_cell_voltages s = Ok vsum.
Proof.
  intros Hn.
  assert (Hget : forall i, exists v, get_cell_voltage s i = Ok v).
  { intros i. unfold get_cell_voltage, cells_in_use. rewrite Hn. simpl.
    destruct (_ <=? _)%Z; eauto. }
  unfold sum_cell_voltages. rewrite Hn. simpl.
  generalize (range n) 0. intros l.
  induction l as [| i l IH]; intros acc; simpl; [eauto |].
  destruct (Hget i) as (v & ->). simpl. apply IH.
Qed.

(** The first call, which seeds the accumulator, returns on every pack
    with a cell count, a capacity other than 0 and a reported SoC. *)
Lemma soc_calculation_first_call_returns (now c p : Q) (s : Battery) (n : Z) :
  cell_count s = Some n ->
  capacity s = Some c ->
  ~ c == 0 ->
  soc s = Some p ->
  soc_calc_capacity_remain s = None ->
  outcome (soc_calculation utils calcLinearRelationship now) s = Ok tt.
Proof.
  intros Hn Hc Hnz Hp Hr.
  destruct (sum_cell_voltages_total s n Hn) as (vsum & Hsum).
  apply Qeqb_neq in Hnz.
  unfold outcome, soc_calculation.
  rewrite bind_modify, bind_gets.
  erewrite bind_eval_Ok by exact Hsum. rewrite bind_gets.
  simpl soc_calc_capacity_remain. rewrite Hr.
  unfold soc_initialize, soc_percentage, py_div. munfold. simpl.
  destruct (soc_calc s); simpl; rewrite ?Hp; simpl;
    [destruct (Qltb 0 p) |];
    repeat (progress (simpl; rewrite ?Hc, ?Hnz)); reflexivity.
Qed.

(** In Bulk, with a state of charge and a target, the Absorption timer
    returns and leaves [allow_max_voltage] set. *)
Lemma absorption_timer_bulk (now : Z) (vs vd hi level : Q) (s : Battery) :
  max_voltage_start_time s = None ->
  allow_max_voltage s = true ->
  max_battery_voltage s = Some hi ->
  soc_calc s = Some level ->
  exists td s1,
    absorption_timer utils now vs vd s = (Ok td, s1)
    /\ allow_max_voltage s1 = true.
Proof.
  intros Hstart Hallow Hhi Hlevel.
  unfold absorption_timer. munfold. simpl.
  rewrite Hstart, Hhi, Hallow. simpl.
  destruct (Qleb hi vs && Qleb vd _ && true); simpl; [eauto |].
  rewrite Hlevel, Hallow. simpl. rewrite andb_false_r. simpl. eauto.
Qed.

End Totality.

(** ** The scenarios of the spec, run on the model *)

(** Scenario A: a balanced pack in Bulk asks for the full 13.80 V. *)
Example scenario_A :
  is_num (control_voltage
            (state_after
               (manage_charge_voltage_linear example_config no_debug_text 1000 1000)
               (set_soc_calc (Some 90) (example_pack [3.3; 3.3; 3.3; 3.3] 20))))
         13.8
  /\ charge_mode
       (state_after
          (manage_charge_voltage_linear example_config no_debug_text 1000 1000)
          (set_soc_calc (Some 90) (example_pack [3.3; 3.3; 3.3; 3.3] 20)))
     = Some "Bulk (Linear Mode)".
Proof. split; vm_compute; reflexivity. Qed.

(** Scenario B: the tick on which the balanced pack reaches its target
    starts the Absorption timer. *)
Example scenario_B :
  max_voltage_start_time
    (state_after
       (manage_charge_voltage_linear example_config no_debug_text 1000 1000)
       (set_soc_calc (Some 99) (example_pack [3.45; 3.45; 3.45; 3.45] 2)))
  = Some 1000%Z
  /\ charge_mode
       (state_after
          (manage_charge_voltage_linear example_config no_debug_text 1000 1000)
          (set_soc_calc (Some 99) (example_pack [3.45; 3.45; 3.45; 3.45] 2)))
     = Some "Absorption (Linear Mode)".
Proof. split; vm_compute; reflexivity. Qed.

(** Scenario F: at 55 degrees the temperature rule brings the charge limit
    to 0 A and withdraws the permission to charge. *)
Example scenario_F :
  is_num (control_charge_current
            (state_after
               (manage_charge_current example_config calcLinearRelationship_model
                  calcStepRelationship_model 1000 1000 1000 1000)
               (set_temp1 (Some 55)
                  (set_soc_calc (Some 90) (example_pack [3.3; 3.3; 3.3; 3.3] 20)))))
         0
  /\ charge_limitation
       (state_after
          (manage_charge_current example_config calcLinearRelationship_model
             calcStepRelationship_model 1000 1000 1000 1000)
          (set_temp1 (Some 55)
             (set_soc_calc (Some 90) (example_pack [3.3; 3.3; 3.3; 3.3] 20))))
     = Some "Temp"
  /\ control_allow_charge
       (state_after
          (manage_charge_current example_config calcLinearRelationship_model
             calcStepRelationship_model 1000 1000 1000 1000)
          (set_temp1 (Some 55)
             (set_soc_calc (Some 90) (example_pack [3.3; 3.3; 3.3; 3.3] 20))))
     = Some false.
Proof. split; [| split]; vm_compute; reflexivity. Qed.

(** A disconnect: [init_values], then the latch; the next run of the
    current limiter publishes zero limits. *)
Example disconnect_then_tick :
  is_num (control_discharge_current
            (state_after
               (manage_charge_current example_config calcLinearRelationship_model
                  calcStepRelationship_model 1000 1000 1000 1000)
               (set_block_because_disconnect true
                  (init_values
                     (set_soc_calc (Some 90)
                        (example_pack [3.3; 3.3; 3.3; 3.3] 20))))))
         0.
Proof. vm_compute. reflexivity. Qed.

(** ** Rounding: error and monotony *)

Lemma round_half_even_error (q : Q) :
  Qabs (inject_Z (round_half_even q) - q) <= 1 # 2.
Proof.
  pose proof (Qfloor_le q) as Hlo. pose proof (Qlt_floor q) as Hhi.
  rewrite inject_Z_plus in Hhi. change (inject_Z 1) with 1 in Hhi.
  unfold round_half_even.
  destruct (Qcompare (q - inject_Z (Qfloor q)) (1 # 2)) eqn:E.
  - apply Qeq_alt in E.
    destruct (Z.even _); [| rewrite inject_Z_plus; change (inject_Z 1) with 1];
      apply Qabs_case; intros; lra.
  - apply Qlt_alt in E. apply Qabs_case; intros; lra.
  - apply Qgt_alt in E. rewrite inject_Z_plus. change (inject_Z 1) with 1.
    apply Qabs_case; intros; lra.
Qed.

Lemma round_half_even_mono (p q : Q) :
  p <= q -> (round_half_even p <= round_half_even q)%Z.
Proof.
  intros Hpq.
  pose proof (Qfloor_resp_le _ _ Hpq) as Hf.
  assert (Hp : (Qfloor p <= round_half_even p <= Qfloor p + 1)%Z).
  { unfold round_half_even.
    destruct (Qcompare _ _); try destruct (Z.even _); lia. }
  assert (Hq : (Qfloor q <= round_half_even q <= Qfloor q + 1)%Z).
  { unfold round_half_even.
    destruct (Qcompare _ _); try destruct (Z.even _); lia. }
  destruct (Z.eq_dec (Qfloor p) (Qfloor q)) as [Heq | Hne]; [| lia].
  unfold round_half_even. rewrite Heq.
  destruct (Qcompare (p - inject_Z (Qfloor q)) (1 # 2)) eqn:Ep;
    destruct (Qcompare (q - inject_Z (Qfloor q)) (1 # 2)) eqn:Eq;
    try destruct (Z.even _); try lia;
    rewrite <- ?Qeq_alt, <- ?Qlt_alt, <- ?Qgt_alt in *; lra.
Qed.

(** [round(x, d)] is within half a unit of the last place, and it keeps
    the order. *)
Lemma py_round_error (x : Q) (d : nat) :
  Qabs (py_round x d - x) <= (1 # 2) / pow10 d.
Proof.
  pose proof (pow10_pos d) as Hp.
  pose proof (round_half_even_error (x * pow10 d)) as He.
  unfold py_round.
  assert (E : inject_Z (round_half_even (x * pow10 d)) / pow10 d - x
              == (inject_Z (round_half_even (x * pow10 d)) - x * pow10 d)
                 / pow10 d).
  { field. lra. }
  rewrite E. unfold Qdiv. rewrite Qabs_Qmult.
  rewrite (Qabs_pos (/ pow10 d)) by (apply Qlt_le_weak, Qinv_lt_0_compat, Hp).
  apply Qmult_le_compat_r; [exact He |].
  apply Qlt_le_weak, Qinv_lt_0_compat, Hp.
Qed.

Lemma py_round_mono (x y : Q) (d : nat) : x <= y -> py_round x d <= py_round y d.
Proof.
  intros H. pose proof (pow10_pos d) as Hp. unfold py_round, Qdiv.
  apply Qmult_le_compat_r;
    [| apply Qlt_le_weak, Qinv_lt_0_compat, Hp].
  rewrite <- Zle_Qle. apply round_half_even_mono.
  apply Qmult_le_compat_r; lra.
Qed.

(** ** Temperature input *)

(** X1: [to_temp] keeps what it stores between -20 and 100 degrees, within
    0.05 degrees of the clamped input. *)
Theorem to_temp_keeps_range (sensor : Z) (value : Q) (self : Battery) :
  (0 <= sensor <= 4)%Z ->
  exists t,
    sensor_reading sensor (to_temp sensor value self) = Some t
    /\ -20 <= t <= 100
    /\ Qabs (t - py_min (py_max value (-20)) 100) <= 1 # 20.
Proof.
  intros Hs.
  exists (py_round (py_min (py_max value (-20)) 100) 1).
  split.
  - assert (Hcases : sensor = 0%Z \/ sensor = 1%Z \/ sensor = 2%Z
                     \/ sensor = 3%Z \/ sensor = 4%Z) by lia.
    destruct Hcases as [-> | [-> | [-> | [-> | ->]]]]; reflexivity.
  - pose proof (clamp_bounds value (-20) 100) as Hc.
    split.
    + split.
      * apply (py_round_lower (-20)). change (inject_Z (-20)) with (-20). lra.
      * apply (py_round_upper 100). change (inject_Z 100) with 100. lra.
    + pose proof (py_round_error (py_min (py_max value (-20)) 100) 1) as He.
      assert (Hu : (1 # 2) / pow10 1 == 1 # 20) by reflexivity.
      lra.
Qed.

Lemma to_temp_keeps_range_witness :
  (0 <= 3 <= 4)%Z
  /\ exists t,
       sensor_reading 3 (to_temp 3 123.4 (example_pack [] 0)) = Some t
       /\ -20 <= t <= 100
       /\ Qabs (t - py_min (py_max 123.4 (-20)) 100) <= 1 # 20.
Proof.
  split; [lia |]. apply (to_temp_keeps_range 3 123.4 (example_pack [] 0)). lia.
Defined.

(** A sensor number outside 0..4 is ignored: nothing is stored. *)
Lemma to_temp_ignores_unknown_sensor (sensor : Z) (value : Q) (self : Battery) :
  (sensor < 0 \/ 4 < sensor)%Z ->
  to_temp sensor value self = self.
Proof.
  intros Hs. unfold to_temp.
  replace (sensor =? 0)%Z with false by (symmetry; apply Z.eqb_neq; lia).
  replace (sensor =? 1)%Z with false by (symmetry; apply Z.eqb_neq; lia).
  replace (sensor =? 2)%Z with false by (symmetry; apply Z.eqb_neq; lia).
  replace (sensor =? 3)%Z with false by (symmetry; apply Z.eqb_neq; lia).
  replace (sensor =? 4)%Z with false by (symmetry; apply Z.eqb_neq; lia).
  reflexivity.
Qed.
(** ** Lowest and highest cell *)

Section CellScan.

Local Open Scope list_scope.

Variable s : Battery.

(** The scan of [get_min_cell] over the first [k] cells. *)
Lemma min_cell_scan (k : nat) :
  let r := fold_left (min_cell_step s) (seq 0 k) (9999, None) in
  match snd r with
  | None =>
      fst r = 9999
      /\ forall j w, (j < k)%nat -> voltage_at s j = Some w -> 9999 <= w
  | Some c =>
      exists i,
        c = Z.of_nat i /\ (i < k)%nat
        /\ voltage_at s i = Some (fst r)
        /\ fst r < 9999
        /\ (forall j w, (j < k)%nat -> voltage_at s j = Some w -> fst r <= w)
        /\ (forall j w, (j < i)%nat -> voltage_at s j = Some w -> fst r < w)
  end.
Proof.
  induction k as [| k IH]; [simpl; split; [reflexivity | intros; lia] |].
  rewrite seq_S, fold_left_app. simpl seq. simpl fold_left. cbv zeta in *.
  destruct (fold_left (min_cell_step s) (seq 0 k) (9999, None)) as [mv mc].
  unfold min_cell_step. simpl fst in *. simpl snd in *.
  assert (Hlast : forall j, (j < S k)%nat -> (j < k)%nat \/ j = k) by lia.
  destruct (nth_error (cells s) k) as [cell |] eqn:Hk;
    [destruct (cell_voltage cell) as [v |] eqn:Hv |].
  - assert (Hat : voltage_at s k = Some v) by (unfold voltage_at; now rewrite Hk).
    destruct (Qltb v mv) eqn:E; simpl.
    + apply Qltb_lt in E. exists k. split; [reflexivity |]. split; [lia |].
      split; [exact Hat |].
      destruct mc as [c |].
      * destruct IH as (i & -> & Hi & Hvi & Hlt & Hall & Hfirst).
        split; [lra |]. split.
        -- intros j w Hj Hw. destruct (Hlast j Hj) as [Hj' | ->].
           ++ specialize (Hall j w Hj' Hw). lra.
           ++ rewrite Hat in Hw. injection Hw as <-. lra.
        -- intros j w Hj Hw. specialize (Hall j w Hj Hw). lra.
      * destruct IH as (-> & Hall). split; [exact E |]. split.
        -- intros j w Hj Hw. destruct (Hlast j Hj) as [Hj' | ->].
           ++ specialize (Hall j w Hj' Hw). lra.
           ++ rewrite Hat in Hw. injection Hw as <-. lra.
        -- intros j w Hj Hw. specialize (Hall j w Hj Hw). lra.
    + apply Qltb_ge in E. destruct mc as [c |]; simpl.
      * destruct IH as (i & -> & Hi & Hvi & Hlt & Hall & Hfirst).
        exists i. repeat split; try assumption; try lia.
        intros j w Hj Hw. destruct (Hlast j Hj) as [Hj' | ->].
        -- exact (Hall j w Hj' Hw).
        -- rewrite Hat in Hw. injection Hw as <-. exact E.
      * destruct IH as (-> & Hall). split; [reflexivity |].
        intros j w Hj Hw. destruct (Hlast j Hj) as [Hj' | ->].
        -- exact (Hall j w Hj' Hw).
        -- rewrite Hat in Hw. injection Hw as <-. exact E.
  - assert (Hat : voltage_at s k = None) by (unfold voltage_at; now rewrite Hk).
    destruct mc as [c |]; simpl.
    + destruct IH as (i & -> & Hi & Hvi & Hlt & Hall & Hfirst).
      exists i. repeat split; try assumption; try lia.
      intros j w Hj Hw. destruct (Hlast j Hj) as [Hj' | ->];
        [exact (Hall j w Hj' Hw) | congruence].
    + destruct IH as (-> & Hall). split; [reflexivity |].
      intros j w Hj Hw. destruct (Hlast j Hj) as [Hj' | ->];
        [exact (Hall j w Hj' Hw) | congruence].
  - assert (Hat : voltage_at s k = None) by (unfold voltage_at; now rewrite Hk).
    destruct mc as [c |]; simpl.
    + destruct IH as (i & -> & Hi & Hvi & Hlt & Hall & Hfirst).
      exists i. repeat split; try assumption; try lia.
      intros j w Hj Hw. destruct (Hlast j Hj) as [Hj' | ->];
        [exact (Hall j w Hj' Hw) | congruence].
    + destruct IH as (-> & Hall). split; [reflexivity |].
      intros j w Hj Hw. destruct (Hlast j Hj) as [Hj' | ->];
        [exact (Hall j w Hj' Hw) | congruence].
Qed.

(** The scan of [get_max_cell] over the first [k] cells. *)
Lemma max_cell_scan (k : nat) :
  let r := fold_left (max_cell_step s) (seq 0 k) (0, None) in
  match snd r with
  | None =>
      fst r = 0
      /\ forall j w, (j < k)%nat -> voltage_at s j = Some w -> w <= 0
  | Some c =>
      exists i,
        c = Z.of_nat i /\ (i < k)%nat
        /\ voltage_at s i = Some (fst r)
        /\ 0 < fst r
        /\ (forall j w, (j < k)%nat -> voltage_at s j = Some w -> w <= fst r)
        /\ (forall j w, (j < i)%nat -> voltage_at s j = Some w -> w < fst r)
  end.
Proof.
  induction k as [| k IH]; [simpl; split; [reflexivity | intros; lia] |].
  rewrite seq_S, fold_left_app. simpl seq. simpl fold_left. cbv zeta in *.
  destruct (fold_left (max_cell_step s) (seq 0 k) (0, None)) as [mv mc].
  unfold max_cell_step. simpl fst in *. simpl snd in *.
  assert (Hlast : forall j, (j < S k)%nat -> (j < k)%nat \/ j = k) by lia.
  destruct (nth_error (cells s) k) as [cell |] eqn:Hk;
    [destruct (cell_voltage cell) as [v |] eqn:Hv |].
  - assert (Hat : voltage_at s k = Some v) by (unfold voltage_at; now rewrite Hk).
    destruct (Qltb mv v) eqn:E; simpl.
    + apply Qltb_lt in E. exists k. split; [reflexivity |]. split; [lia |].
      split; [exact Hat |].
      destruct mc as [c |].
      * destruct IH as (i & -> & Hi & Hvi & Hlt & Hall & Hfirst).
        split; [lra |]. split.
        -- intros j w Hj Hw. destruct (Hlast j Hj) as [Hj' | ->].
           ++ specialize (Hall j w Hj' Hw). lra.
           ++ rewrite Hat in Hw. injection Hw as <-. lra.
        -- intros j w Hj Hw. specialize (Hall j w Hj Hw). lra.
      * destruct IH as (-> & Hall). split; [exact E |]. split.
        -- intros j w Hj Hw. destruct (Hlast j Hj) as [Hj' | ->].
           ++ specialize (Hall j w Hj' Hw). lra.
           ++ rewrite Hat in Hw. injection Hw as <-. lra.
        -- intros j w Hj Hw. specialize (Hall j w Hj Hw). lra.
    + apply Qltb_ge in E. destruct mc as [c |]; simpl.
      * destruct IH as (i & -> & Hi & Hvi & Hlt & Hall & Hfirst).
        exists i. repeat split; try assumption; try lia.
        intros j w Hj Hw. destruct (Hlast j Hj) as [Hj' | ->].
        -- exact (Hall j w Hj' Hw).
        -- rewrite Hat in Hw. injection Hw as <-. exact E.
      * destruct IH as (-> & Hall). split; [reflexivity |].
        intros j w Hj Hw. destruct (Hlast j Hj) as [Hj' | ->].
        -- exact (Hall j w Hj' Hw).
        -- rewrite Hat in Hw. injection Hw as <-. exact E.
  - assert (Hat : voltage_at s k = None) by (unfold voltage_at; now rewrite Hk).
    destruct mc as [c |]; simpl.
    + destruct IH as (i & -> & Hi & Hvi & Hlt & Hall & Hfirst).
      exists i. repeat split; try assumption; try lia.
      intros j w Hj Hw. destruct (Hlast j Hj) as [Hj' | ->];
        [exact (Hall j w Hj' Hw) | congruence].
    + destruct IH as (-> & Hall). split; [reflexivity |].
      intros j w Hj Hw. destruct (Hlast j Hj) as [Hj' | ->];
        [exact (Hall j w Hj' Hw) | congruence].
  - assert (Hat : voltage_at s k = None) by (unfold voltage_at; now rewrite Hk).
    destruct mc as [c |]; simpl.
    + destruct IH as (i & -> & Hi & Hvi & Hlt & Hall & Hfirst).
      exists i. repeat split; try assumption; try lia.
      intros j w Hj Hw. destruct (Hlast j Hj) as [Hj' | ->];
        [exact (Hall j w Hj' Hw) | congruence].
    + destruct IH as (-> & Hall). split; [reflexivity |].
      intros j w Hj Hw. destruct (Hlast j Hj) as [Hj' | ->];
        [exact (Hall j w Hj' Hw) | congruence].
Qed.

(** A cell with a reading is in the list; it is visited exactly when its
    index is below the cell count. *)
Lemma voltage_at_length (j : nat) (w : Q) :
  voltage_at s j = Some w -> (j < List.length (cells s))%nat.
Proof.
  unfold voltage_at. destruct (nth_error (cells s) j) eqn:E; [| discriminate].
  intros _. apply nth_error_Some. congruence.
Qed.

Lemma cells_in_use_bound (n m : Z) (j : nat) (w : Q) :
  cell_count s = Some n ->
  cells_in_use s = Ok m ->
  voltage_at s j = Some w ->
  ((j < Z.to_nat m)%nat <-> (Z.of_nat j < n)%Z).
Proof.
  intros Hn Hm Hw. apply voltage_at_length in Hw.
  unfold cells_in_use in Hm. rewrite Hn in Hm. simpl in Hm.
  injection Hm as <-. destruct (n <? _)%Z eqn:E;
    [apply Z.ltb_lt in E | apply Z.ltb_ge in E]; lia.
Qed.

End CellScan.

(** X2: When [get_min_cell] names a cell, that cell is polled, it reads less
    than 9999 V, no polled cell reads less, and no earlier cell reads as
    little. *)
Theorem get_min_cell_is_lowest (s : Battery) (c : Z) :
  get_min_cell None s = Ok (Some c) ->
  exists i v,
    c = Z.of_nat i /\ polled s i /\ voltage_at s i = Some v /\ v < 9999
    /\ (forall j w, polled s j -> voltage_at s j = Some w -> v <= w)
    /\ (forall j w, (j < i)%nat -> voltage_at s j = Some w -> v < w).
Proof.
  unfold get_min_cell. intros Hrun.
  assert (Hrun' : (let? m := cells_in_use s in
                   Ok (snd (fold_left (min_cell_step s) (range m) (9999, None))))
                  = Ok (Some c)).
  { destruct (cells s); exact Hrun. }
  clear Hrun. destruct (cells_in_use s) as [m | e] eqn:Hm; [| discriminate].
  simpl in Hrun'. injection Hrun' as Hrun.
  destruct (cell_count s) as [n |] eqn:Hn;
    [| unfold cells_in_use in Hm; rewrite Hn in Hm; discriminate].
  pose proof (min_cell_scan s (Z.to_nat m)) as Hscan. cbv zeta in Hscan.
  unfold range in Hrun. rewrite Hrun in Hscan.
  destruct Hscan as (i & -> & Hi & Hvi & Hlt & Hall & Hfirst).
  exists i, (fst (fold_left (min_cell_step s) (seq 0 (Z.to_nat m)) (9999, None))).
  split; [reflexivity |]. unfold polled. rewrite Hn.
  split; [now apply (cells_in_use_bound s n m i _ Hn Hm Hvi) |].
  split; [exact Hvi |]. split; [exact Hlt |]. split; [| exact Hfirst].
  intros j w Hj Hw. apply (Hall j w); [| exact Hw].
  now apply (cells_in_use_bound s n m j w Hn Hm Hw).
Qed.

Lemma get_min_cell_is_lowest_witness :
  get_min_cell None (pack_of [Some 3.3; None; Some 3.2; Some 3.2] 4)
  = Ok (Some 2%Z)
  /\ exists i v,
       2%Z = Z.of_nat i
       /\ polled (pack_of [Some 3.3; None; Some 3.2; Some 3.2] 4) i
       /\ voltage_at (pack_of [Some 3.3; None; Some 3.2; Some 3.2] 4) i = Some v
       /\ v < 9999
       /\ (forall j w,
             polled (pack_of [Some 3.3; None; Some 3.2; Some 3.2] 4) j ->
             voltage_at (pack_of [Some 3.3; None; Some 3.2; Some 3.2] 4) j
             = Some w -> v <= w)
       /\ (forall j w,
             (j < i)%nat ->
             voltage_at (pack_of [Some 3.3; None; Some 3.2; Some 3.2] 4) j
             = Some w -> v < w).
Proof.
  split; [reflexivity |].
  apply (get_min_cell_is_lowest
           (pack_of [Some 3.3; None; Some 3.2; Some 3.2] 4) 2).
  reflexivity.
Defined.

(** X3: [get_max_cell] finds no cell exactly when no polled cell reads more
    than 0 V: a reading of 0 V or less is never the highest. *)
Theorem get_max_cell_none_iff (s : Battery) (n : Z) :
  cell_count s = Some n ->
  (get_max_cell None s = Ok None
   <-> forall j w, polled s j -> voltage_at s j = Some w -> w <= 0).
Proof.
  intros Hn. unfold get_max_cell.
  assert (Hm : exists m, cells_in_use s = Ok m)
    by (unfold cells_in_use; rewrite Hn; simpl; eauto).
  destruct Hm as (m & Hm).
  assert (Hrun : match cells s, @None (option Z) with
                 | [], Some no => Ok no
                 | _, _ =>
                     let? m := cells_in_use s in
                     Ok (snd (fold_left (max_cell_step s) (range m) (0, None)))
                 end%list
                 = Ok (snd (fold_left (max_cell_step s) (seq 0 (Z.to_nat m))
                              (0, None)))).
  { rewrite Hm. destruct (cells s); reflexivity. }
  rewrite Hrun. clear Hrun.
  pose proof (max_cell_scan s (Z.to_nat m)) as Hscan. cbv zeta in Hscan.
  unfold polled. rewrite Hn.
  destruct (snd (fold_left (max_cell_step s) (seq 0 (Z.to_nat m)) (0, None)))
    as [c |].
  - destruct Hscan as (i & -> & Hi & Hvi & Hlt & Hall & Hfirst).
    split; [discriminate |]. intros Hnone. exfalso.
    specialize (Hnone i _ (proj1 (cells_in_use_bound s n m i _ Hn Hm Hvi) Hi) Hvi).
    lra.
  - destruct Hscan as (_ & Hall). split; [| reflexivity].
    intros _ j w Hj Hw. apply (Hall j w); [| exact Hw].
    now apply (cells_in_use_bound s n m j w Hn Hm Hw).
Qed.

Lemma get_max_cell_none_iff_witness :
  cell_count (pack_of [Some 0; None; Some 0; Some 0] 4) = Some 4%Z
  /\ (get_max_cell None (pack_of [Some 0; None; Some 0; Some 0] 4) = Ok None
      <-> forall j w,
            polled (pack_of [Some 0; None; Some 0; Some 0] 4) j ->
            voltage_at (pack_of [Some 0; None; Some 0; Some 0] 4) j = Some w ->
            w <= 0).
Proof.
  split; [reflexivity |].
  apply (get_max_cell_none_iff (pack_of [Some 0; None; Some 0; Some 0] 4) 4).
  reflexivity.
Defined.
(** [min(...)] and [max(...)] of a list that is not empty: an element of
    the list that bounds the others. *)
Lemma min_list_spec (l : list Q) (w : Q) :
  min_list l = Some w -> In w l /\ forall y, In y l -> w <= y.
Proof.
  destruct l as [| x l]; [discriminate |]. simpl. intros H. injection H as <-.
  assert (Hgen : forall l x,
             let r := fold_left (fun m y => if Qltb y m then y else m) l x in
             (r = x \/ In r l) /\ r <= x /\ forall y, In y l -> r <= y).
  { clear. induction l as [| z l IH]; intros x; simpl.
    - split; [now left |]. split; [lra | tauto].
    - destruct (Qltb z x) eqn:E;
        [apply Qltb_lt in E; destruct (IH z) as (Hin & Hle & Hall)
        | apply Qltb_ge in E; destruct (IH x) as (Hin & Hle & Hall)];
        (split;
           [destruct Hin as [Hin | Hin];
              [(left; exact Hin) || (right; left; symmetry; exact Hin)
              | right; right; exact Hin] |]);
        (split; [lra |]);
        intros y [<- | Hy]; try lra; now apply Hall. }
  destruct (Hgen l x) as (Hin & Hle & Hall).
  split; [destruct Hin as [Hin | Hin];
            [left; symmetry; exact Hin | right; exact Hin] |].
  intros y [<- | Hy]; [exact Hle | now apply Hall].
Qed.

Lemma max_list_spec (l : list Q) (w : Q) :
  max_list l = Some w -> In w l /\ forall y, In y l -> y <= w.
Proof.
  destruct l as [| x l]; [discriminate |]. simpl. intros H. injection H as <-.
  assert (Hgen : forall l x,
             let r := fold_left (fun m y => if Qltb m y then y else m) l x in
             (r = x \/ In r l) /\ x <= r /\ forall y, In y l -> y <= r).
  { clear. induction l as [| z l IH]; intros x; simpl.
    - split; [now left |]. split; [lra | tauto].
    - destruct (Qltb x z) eqn:E;
        [apply Qltb_lt in E; destruct (IH z) as (Hin & Hle & Hall)
        | apply Qltb_ge in E; destruct (IH x) as (Hin & Hle & Hall)];
        (split;
           [destruct Hin as [Hin | Hin];
              [(left; exact Hin) || (right; left; symmetry; exact Hin)
              | right; right; exact Hin] |]);
        (split; [lra |]);
        intros y [<- | Hy]; try lra; now apply Hall. }
  destruct (Hgen l x) as (Hin & Hle & Hall).
  split; [destruct Hin as [Hin | Hin];
            [left; symmetry; exact Hin | right; exact Hin] |].
  intros y [<- | Hy]; [exact Hle | now apply Hall].
Qed.

(** The readings [get_min_cell_voltage] ranges over are those of the cells. *)
Lemma known_voltages_In (l : list Cell) (w : Q) :
  In w (known_voltages l)
  <-> exists j c, nth_error l j = Some c /\ cell_voltage c = Some w.
Proof.
  induction l as [| c l IH]; simpl.
  - split; [tauto | intros ([| j] & c & H & _); discriminate H].
  - split.
    + intros Hin. destruct (cell_voltage c) as [v |] eqn:Hv.
      * destruct Hin as [<- | Hin]; [exists 0%nat, c; auto |].
        apply IH in Hin. destruct Hin as (j & c' & Hj & Hc').
        exists (S j), c'. auto.
      * apply IH in Hin. destruct Hin as (j & c' & Hj & Hc').
        exists (S j), c'. auto.
    + intros ([| j] & c' & Hj & Hc'); simpl in Hj.
      * injection Hj as <-. rewrite Hc'. now left.
      * assert (Hin : In w (known_voltages l)) by (apply IH; eauto).
        destruct (cell_voltage c); [now right | exact Hin].
Qed.

Lemma voltage_at_known (s : Battery) (w : Q) :
  In w (known_voltages (cells s)) <-> exists j, voltage_at s j = Some w.
Proof.
  rewrite known_voltages_In. unfold voltage_at. split.
  - intros (j & c & Hj & Hc). exists j. now rewrite Hj.
  - intros (j & Hj). destruct (nth_error (cells s) j) as [c |] eqn:E;
      [eauto | discriminate].
Qed.

(** X4: On a pack whose cells are all polled and read less than 9999 V, the
    cell named by [get_min_cell] holds the voltage that
    [get_min_cell_voltage] reports. *)
Theorem get_min_cell_matches_voltage (s : Battery) (n : Z) :
  cell_min_voltage s = None ->
  cell_count s = Some n ->
  (Z.of_nat (List.length (cells s)) <= n)%Z ->
  known_voltages (cells s) <> [] ->
  Forall (fun v => v < 9999) (known_voltages (cells s)) ->
  exists i v w,
    get_min_cell None s = Ok (Some (Z.of_nat i))
    /\ voltage_at s i = Some v
    /\ get_min_cell_voltage s = Some w
    /\ v == w.
Proof.
  intros Hattr Hn Hlen Hne Hsmall.
  assert (Hm : cells_in_use s = Ok (Z.of_nat (List.length (cells s)))).
  { unfold cells_in_use. rewrite Hn. simpl.
    replace (n <? _)%Z with false by (symmetry; apply Z.ltb_ge; lia).
    reflexivity. }
  assert (Hrun : get_min_cell None s
                 = Ok (snd (fold_left (min_cell_step s)
                              (seq 0 (List.length (cells s))) (9999, None)))).
  { unfold get_min_cell. rewrite Hm. cbn [rbind]. unfold range.
    rewrite Nat2Z.id.
    destruct (cells s); reflexivity. }
  destruct (min_list (known_voltages (cells s))) as [w |] eqn:Hw;
    [| destruct (known_voltages (cells s)); [now elim Hne | discriminate]].
  destruct (min_list_spec _ _ Hw) as (Hin & Hleast).
  pose proof (min_cell_scan s (List.length (cells s))) as Hscan.
  cbv zeta in Hscan. rewrite Hrun.
  destruct (fold_left (min_cell_step s) (seq 0 (List.length (cells s)))
              (9999, None)) as [mv [c |]]; simpl fst in *; simpl snd in *.
  - destruct Hscan as (i & -> & Hi & Hvi & Hlt & Hall & Hfirst).
    exists i, mv, w. split; [reflexivity |]. split; [exact Hvi |].
    split; [unfold get_min_cell_voltage; now rewrite Hattr |].
    apply Qle_antisym.
    + apply voltage_at_known in Hin. destruct Hin as (j & Hj).
      apply (Hall j w); [now apply (voltage_at_length s j w) | exact Hj].
    + apply Hleast. apply voltage_at_known. eauto.
  - destruct Hscan as (_ & Hall). exfalso.
    rewrite Forall_forall in Hsmall. specialize (Hsmall w Hin).
    apply voltage_at_known in Hin. destruct Hin as (j & Hj).
    specialize (Hall j w (voltage_at_length s j w Hj) Hj). lra.
Qed.

Lemma get_min_cell_matches_voltage_witness :
  known_voltages (cells (pack_of [Some 3.3; None; Some 3.2; Some 3.2] 4)) <> []
  /\ exists i v w,
       get_min_cell None (pack_of [Some 3.3; None; Some 3.2; Some 3.2] 4)
       = Ok (Some (Z.of_nat i))
       /\ voltage_at (pack_of [Some 3.3; None; Some 3.2; Some 3.2] 4) i = Some v
       /\ get_min_cell_voltage (pack_of [Some 3.3; None; Some 3.2; Some 3.2] 4)
          = Some w
       /\ v == w.
Proof.
  split; [discriminate |].
  apply (get_min_cell_matches_voltage
           (pack_of [Some 3.3; None; Some 3.2; Some 3.2] 4) 4).
  - reflexivity.
  - reflexivity.
  - simpl. lia.
  - discriminate.
  - repeat constructor.
Defined.
(** ** Balancing *)

Lemma In_firstn_nth_error {A} (l : list A) (k : nat) (c : A) :
  In c (firstn k l) <-> exists i, (i < k)%nat /\ nth_error l i = Some c.
Proof.
  revert k. induction l as [| x l IH]; intros k.
  - rewrite firstn_nil. split; [intros [] |].
    intros ([| i] & _ & H); discriminate H.
  - destruct k as [| k]; simpl.
    + split; [intros [] | intros (i & Hi & _); lia].
    + rewrite IH. split.
      * intros [<- | (i & Hi & Hc)];
          [exists 0%nat; split; [lia | reflexivity]
          | exists (S i); split; [lia | exact Hc]].
      * intros ([| i] & Hi & Hc); simpl in Hc;
          [left; congruence | right; exists i; split; [lia | exact Hc]].
Qed.

(** X5: [get_balancing] answers 1 exactly when [get_cell_balancing] answers 1
    for some cell. *)
Theorem get_balancing_iff_some_cell (s : Battery) (n : Z) :
  cell_count s = Some n ->
  (get_balancing s = Ok true
   <-> exists idx, get_cell_balancing s idx = Ok (Some 1%Z)).
Proof.
  intros Hn. unfold get_balancing, get_cell_balancing.
  assert (Hm : exists m, cells_in_use s = Ok m)
    by (unfold cells_in_use; rewrite Hn; simpl; eauto).
  destruct Hm as (m & ->). cbn [rbind]. split.
  - intros H. injection H as H. apply existsb_exists in H.
    destruct H as (c & Hin & Hb). apply In_firstn_nth_error in Hin.
    destruct Hin as (i & Hi & Hc). exists i.
    replace (m <=? Z.of_nat i)%Z with false by (symmetry; apply Z.leb_gt; lia).
    rewrite Hc. unfold is_true. now rewrite Hb.
  - intros (idx & H).
    destruct (m <=? Z.of_nat idx)%Z eqn:E; [discriminate |].
    apply Z.leb_gt in E.
    destruct (nth_error (cells s) idx) as [c |] eqn:Hc; [| discriminate].
    f_equal. apply existsb_exists. exists c. split.
    + apply In_firstn_nth_error. exists idx. split; [lia | exact Hc].
    + unfold is_true in H. destruct (cell_balance c) as [[] |];
        [reflexivity | discriminate | discriminate].
Qed.

Lemma get_balancing_iff_some_cell_witness :
  cell_count (example_pack [3.3; 3.3; 3.3; 3.3] 20) = Some 4%Z
  /\ (get_balancing (example_pack [3.3; 3.3; 3.3; 3.3] 20) = Ok true
      <-> exists idx,
            get_cell_balancing (example_pack [3.3; 3.3; 3.3; 3.3] 20) idx
            = Ok (Some 1%Z)).
Proof.
  split; [reflexivity |].
  apply (get_balancing_iff_some_cell (example_pack [3.3; 3.3; 3.3; 3.3] 20) 4).
  reflexivity.
Defined.

(** ** Remaining time as text *)

Lemma rstrip_cons (a : ascii) (s : string) :
  py_isspace a = false -> rstrip (String a s) = String a (rstrip s).
Proof. intros H. simpl. rewrite H. now destruct (rstrip s). Qed.

(** X6: A negative span is rendered as the minus sign followed by the text of
    its magnitude. *)
Theorem get_secondsToString_negative (timespan precision : Z) :
  (0 < timespan)%Z ->
  get_secondsToString (- timespan) precision
  = "-" ++ get_secondsToString timespan precision.
Proof.
  intros Ht. unfold get_secondsToString.
  replace (0 <=? - timespan)%Z with false by (symmetry; apply Z.leb_gt; lia).
  replace (0 <=? timespan)%Z with true by (symmetry; apply Z.leb_le; lia).
  rewrite Z.abs_opp. cbn [append]. apply rstrip_cons. reflexivity.
Qed.

Lemma get_secondsToString_negative_witness :
  (0 < 70245)%Z
  /\ get_secondsToString (- 70245) 3 = "-" ++ get_secondsToString 70245 3.
Proof.
  split; [lia |]. apply (get_secondsToString_negative 70245 3). lia.
Defined.

(** The text of the example in the source: -70245 s is "-19h 30m 45s". *)
Example get_secondsToString_example :
  get_secondsToString (- 70245) 3 = "-19h 30m 45s".
Proof. vm_compute. reflexivity. Qed.

Lemma rstrip_empty (s : string) : rstrip s = "" <-> all_space s = true.
Proof.
  induction s as [| a s IH]; simpl; [tauto |].
  destruct (rstrip s) eqn:E.
  - destruct (py_isspace a); simpl; [tauto |].
    split; discriminate.
  - split; [discriminate |]. intros H. apply andb_true_iff in H.
    destruct H as [_ H]. apply IH in H. discriminate H.
Qed.

Lemma all_space_app (a b : string) :
  all_space (a ++ b) = all_space a && all_space b.
Proof.
  induction a as [| x a IH]; simpl; [reflexivity |].
  now rewrite IH, andb_assoc.
Qed.

(** X7: With the seconds shown, the text is empty for a span of zero seconds
    and for no other span. *)
Theorem get_secondsToString_empty_iff (timespan : Z) :
  get_secondsToString timespan 3 = "" <-> timespan = 0%Z.
Proof.
  split; [| intros ->; reflexivity].
  unfold get_secondsToString. rewrite rstrip_empty, !all_space_app.
  intros H. repeat (apply andb_true_iff in H; destruct H as [H ?]).
  destruct (0 <=? timespan)%Z; [| discriminate].
  assert (Hpart : forall (b : bool) (n : Z) (u : ascii),
             all_space (if b then py_str_int n ++ String u " " else "") = true ->
             py_isspace u = false -> b = false).
  { intros [] n u Hs Hu; [| reflexivity].
    rewrite all_space_app in Hs. simpl in Hs. rewrite Hu in Hs.
    simpl in Hs. now rewrite andb_false_r in Hs. }
  repeat match goal with
         | Hs : all_space (if _ then _ else _) = true |- _ =>
             apply Hpart in Hs; [| reflexivity]
         end.
  simpl andb in *.
  repeat match goal with
         | Hs : (0 <? _)%Z = false |- _ => apply Z.ltb_ge in Hs
         end.
  pose proof (Z.abs_nonneg timespan) as Habs.
  pose proof (Z.div_mod (Z.abs timespan) 60 ltac:(lia)) as E1.
  pose proof (Z.mod_pos_bound (Z.abs timespan) 60 ltac:(lia)) as B1.
  pose proof (Z.div_mod (Z.abs timespan / 60) 60 ltac:(lia)) as E2.
  pose proof (Z.mod_pos_bound (Z.abs timespan / 60) 60 ltac:(lia)) as B2.
  pose proof (Z.div_mod (Z.abs timespan / 60 / 60) 24 ltac:(lia)) as E3.
  pose proof (Z.mod_pos_bound (Z.abs timespan / 60 / 60) 24 ltac:(lia)) as B3.
  lia.
Qed.
(** X8: [get_timeToSoc] gives no time for a target that the pack has reached
    or that lies behind it. *)
Theorem get_timeToSoc_target_not_ahead
    (cfg : Readout) (soc_target percent_per_second i level : Q)
    (only_number : bool) (s : Battery) :
  current s = Some i ->
  soc_calc s = Some level ->
  target_not_ahead i level soc_target ->
  get_timeToSoc cfg soc_target percent_per_second only_number s = Ok None.
Proof.
  intros Hi Hl Hbehind. unfold get_timeToSoc, target_not_ahead in *.
  rewrite Hi, Hl. cbn [num rbind].
  destruct (Qltb 0 i).
  - destruct (Qltb (soc_target - level) 0) eqn:E; [reflexivity |].
    apply Qltb_ge in E.
    replace (Qeqb level soc_target) with true
      by (symmetry; apply Qeqb_eq; lra).
    reflexivity.
  - destruct (Qltb (level - soc_target) 0) eqn:E; [reflexivity |].
    apply Qltb_ge in E.
    replace (Qeqb level soc_target) with true
      by (symmetry; apply Qeqb_eq; lra).
    reflexivity.
Qed.

Lemma get_timeToSoc_target_not_ahead_witness :
  target_not_ahead 20 90 80
  /\ get_timeToSoc example_readout 80 (1 # 100) false
       (set_soc_calc (Some 90) (example_pack [3.3; 3.3; 3.3; 3.3] 20))
     = Ok None.
Proof.
  split; [vm_compute; discriminate |].
  apply (get_timeToSoc_target_not_ahead example_readout 80 (1 # 100) 20 90 false
           (set_soc_calc (Some 90) (example_pack [3.3; 3.3; 3.3; 3.3] 20)));
    [reflexivity | reflexivity | vm_compute; discriminate].
Defined.

(** X9: The switch [TIME_TO_SOC_INC_FROM] has no effect on [get_timeToSoc]:
    where it is consulted, the SoC differs from the target and the
    difference is not negative, so the other operand of [or] holds. *)
Theorem get_timeToSoc_ignores_inc_from
    (b : bool) (cfg : Readout) (soc_target percent_per_second : Q)
    (only_number : bool) (s : Battery) :
  get_timeToSoc (with_inc_from b cfg) soc_target percent_per_second only_number s
  = get_timeToSoc cfg soc_target percent_per_second only_number s.
Proof.
  unfold get_timeToSoc.
  destruct (current s) as [i |]; [| reflexivity].
  destruct (soc_calc s) as [level |]; [| reflexivity].
  cbn [num rbind].
  set (soc_diff := if Qltb 0 i then soc_target - level else level - soc_target).
  destruct (Qltb soc_diff 0) eqn:E; [reflexivity |]. apply Qltb_ge in E.
  destruct (Qeqb level soc_target) eqn:Heq; [reflexivity |].
  apply Qeqb_neq in Heq.
  assert (Hpos : Qltb 0 soc_diff = true).
  { apply Qltb_lt. unfold soc_diff in *. destruct (Qltb 0 i).
    - destruct (Qeq_dec soc_target level); [elim Heq; lra | lra].
    - destruct (Qeq_dec soc_target level); [elim Heq; lra | lra]. }
  rewrite Hpos. reflexivity.
Qed.
(** ** Mid-point voltage *)

Lemma known_voltages_firstn (P : Q -> Prop) (l : list Cell) (k : nat) :
  Forall P (known_voltages l) -> Forall P (known_voltages (firstn k l)).
Proof.
  revert k. induction l as [| c l IH]; intros k H.
  - rewrite firstn_nil. constructor.
  - destruct k as [| k]; simpl; [constructor |]. simpl in H.
    destruct (cell_voltage c); [inversion H; subst; constructor |]; auto.
Qed.

Lemma known_voltages_skipn (P : Q -> Prop) (l : list Cell) (k : nat) :
  Forall P (known_voltages l) -> Forall P (known_voltages (skipn k l)).
Proof.
  revert k. induction l as [| c l IH]; intros k H.
  - rewrite skipn_nil. constructor.
  - destruct k as [| k]; simpl; [exact H |]. simpl in H.
    destruct (cell_voltage c); [inversion H; subst |]; auto.
Qed.

Lemma known_voltages_none (l : list Cell) :
  known_voltages l = [] ->
  forall k,
    known_voltages (firstn k l) = [] /\ known_voltages (skipn k l) = []
    /\ forall c, nth_error l k = Some c -> cell_voltage c = None.
Proof.
  induction l as [| c l IH]; intros H k.
  - rewrite firstn_nil, skipn_nil. repeat split. destruct k; discriminate.
  - simpl in H. destruct (cell_voltage c) eqn:Hc; [discriminate |].
    destruct k as [| k]; simpl.
    + rewrite Hc. repeat split; [exact H |]. intros c' E. now injection E as <-.
    + rewrite Hc. apply (IH H k).
Qed.

Lemma py_sum_nonneg (l : list Q) (a : Q) :
  Forall (fun v => 0 <= v) l -> a <= fold_left Qplus l a.
Proof.
  intros H. revert a. induction H as [| v l Hv Hl IH]; intros a; simpl; [lra |].
  specialize (IH (a + v)). lra.
Qed.

(** X10: On a pack of four cells or more whose cells have no reading yet,
    [get_midvoltage] raises: [ZeroDivisionError] for an even count,
    [TypeError] for an odd one.  Neither is caught. *)
Theorem get_midvoltage_without_readings (cfg : Readout) (s : Battery) (n : Z) :
  MIDPOINT_ENABLE cfg = true ->
  cell_count s = Some n ->
  (4 <= n)%Z ->
  Z.of_nat (List.length (cells s)) = n ->
  known_voltages (cells s) = [] ->
  get_midvoltage cfg s
  = Raise (if (n mod 2 =? 0)%Z then ZeroDivisionError else TypeError).
Proof.
  intros Hon Hn Hfour Hlen Hnone. unfold get_midvoltage.
  rewrite Hon, Hn. cbn [negb].
  replace (n =? 0)%Z with false by (symmetry; apply Z.eqb_neq; lia).
  replace (n <? 4)%Z with false by (symmetry; apply Z.ltb_ge; lia).
  rewrite Hlen, Z.eqb_refl. cbn [negb orb].
  destruct (known_voltages_none _ Hnone (Z.to_nat (n / 2))) as (-> & _ & Hmid).
  destruct (known_voltages_none _ Hnone
              (Z.to_nat (n / 2) + Z.to_nat (n mod 2))) as (_ & -> & _).
  destruct (n mod 2 =? 0)%Z eqn:Heven.
  - reflexivity.
  - destruct (nth_error (cells s) (Z.to_nat (n / 2))) as [c |] eqn:Hc.
    + now rewrite (Hmid c eq_refl).
    + apply nth_error_None in Hc.
      pose proof (Z.div_lt n 2 ltac:(lia) ltac:(lia)).
      pose proof (Z.div_pos n 2 ltac:(lia) ltac:(lia)). lia.
Qed.

Lemma get_midvoltage_without_readings_witness :
  known_voltages (cells (pack_of [None; None; None; None; None] 5)) = []
  /\ get_midvoltage example_readout (pack_of [None; None; None; None; None] 5)
     = Raise TypeError.
Proof.
  split; [reflexivity |].
  apply (get_midvoltage_without_readings example_readout
           (pack_of [None; None; None; None; None] 5) 5);
    [reflexivity | reflexivity | lia | reflexivity | reflexivity].
Defined.

(** X11: When [get_midvoltage] returns a mid-point and the readings are not
    negative, the deviation it returns is a percentage. *)
Theorem get_midvoltage_deviation_range
    (cfg : Readout) (s : Battery) (mid dev : Q) :
  get_midvoltage cfg s = Ok (Some mid, Some dev) ->
  Forall (fun v => 0 <= v) (known_voltages (cells s)) ->
  0 <= mid /\ 0 <= dev <= 100.
Proof.
  unfold get_midvoltage. intros Hrun Hpos.
  destruct (negb (MIDPOINT_ENABLE cfg)); [discriminate |].
  destruct (cell_count s) as [n |]; [| discriminate].
  destruct (_ || _); [discriminate |].
  set (h1 := py_sum (known_voltages (firstn (Z.to_nat (n / 2)) (cells s)))) in *.
  set (h2 := py_sum (known_voltages
                       (skipn (Z.to_nat (n / 2) + Z.to_nat (n mod 2))
                          (cells s)))) in *.
  assert (H1 : 0 <= h1)
    by (apply py_sum_nonneg, known_voltages_firstn, Hpos).
  assert (H2 : 0 <= h2)
    by (apply py_sum_nonneg, known_voltages_skipn, Hpos).
  destruct (if (n mod 2 =? 0)%Z then _ else _) as [extra | e];
    [| discriminate].
  cbn [rbind] in Hrun. unfold py_div in Hrun.
  destruct (Qeqb (h2 + h1) 0) eqn:Hz; [discriminate |].
  apply Qeqb_neq in Hz. cbn [rbind] in Hrun.
  injection Hrun as <- <-. unfold py_abs.
  split; [apply Qabs_nonneg |]. split; [apply Qabs_nonneg |].
  assert (Hsum : 0 < h2 + h1).
  { destruct (Qeq_dec (h2 + h1) 0); [contradiction | lra]. }
  assert (Hlo : -1 <= (h2 - h1) / (h2 + h1))
    by (apply Qle_shift_div_l; [exact Hsum | lra]).
  assert (Hhi : (h2 - h1) / (h2 + h1) <= 1)
    by (apply Qle_shift_div_r; [exact Hsum | lra]).
  apply Qabs_case; intros; lra.
Qed.

Lemma get_midvoltage_deviation_range_witness :
  get_midvoltage example_readout (example_pack [3.3; 3.3; 3.3; 3.4] 20)
  = Ok (Some 6.60, Some (1000000000 # 1330000000))
  /\ 0 <= 6.60 /\ 0 <= 1000000000 # 1330000000 <= 100.
Proof.
  split; [vm_compute; reflexivity |].
  apply (get_midvoltage_deviation_range example_readout
           (example_pack [3.3; 3.3; 3.3; 3.4] 20));
    [vm_compute; reflexivity |].
  repeat constructor; apply Qle_bool_imp_le; reflexivity.
Defined.
(** ** Temperatures *)

Lemma py_insert_In (x y : Q) (l : list Q) :
  In y (py_insert x l) <-> y = x \/ In y l.
Proof.
  induction l as [| z l IH]; simpl; [intuition |].
  destruct (Qltb z x); simpl; rewrite ?IH; intuition.
Qed.

Lemma py_sorted_In (y : Q) (l : list Q) : In y (py_sorted l) <-> In y l.
Proof.
  induction l as [| x l IH]; simpl; [tauto |].
  rewrite py_insert_In, IH. intuition.
Qed.

Lemma py_insert_length (x : Q) (l : list Q) :
  List.length (py_insert x l) = S (List.length l).
Proof.
  induction l as [| z l IH]; simpl; [reflexivity |].
  destruct (Qltb z x); simpl; [now rewrite IH | reflexivity].
Qed.

Lemma py_sorted_length (l : list Q) : List.length (py_sorted l) = List.length l.
Proof.
  induction l as [| x l IH]; simpl; [reflexivity |].
  now rewrite py_insert_length, IH.
Qed.

(** X12: Without a sensor chosen by [TEMP_BATTERY], [get_temp] has no answer
    exactly when no sensor has a reading, and its answer lies between the
    lowest and the highest reading. *)
Theorem get_temp_between_extremes (cfg : Readout) (s : Battery) :
  (TEMP_BATTERY cfg < 1 \/ 4 < TEMP_BATTERY cfg)%Z ->
  match get_temp cfg s with
  | None => known_temps s = []
  | Some t =>
      exists lo hi,
        get_min_temp s = Some lo /\ get_max_temp s = Some hi /\ lo <= t <= hi
  end.
Proof.
  intros Hsel. unfold get_temp, get_min_temp, get_max_temp.
  replace (TEMP_BATTERY cfg =? 1)%Z with false by (symmetry; apply Z.eqb_neq; lia).
  replace (TEMP_BATTERY cfg =? 2)%Z with false by (symmetry; apply Z.eqb_neq; lia).
  replace (TEMP_BATTERY cfg =? 3)%Z with false by (symmetry; apply Z.eqb_neq; lia).
  replace (TEMP_BATTERY cfg =? 4)%Z with false by (symmetry; apply Z.eqb_neq; lia).
  destruct (known_temps s) as [| x l] eqn:Htemps; [reflexivity |].
  set (temps := (x :: l)%list) in *.
  destruct (min_list temps) as [lo |] eqn:Hlo; [| discriminate].
  destruct (max_list temps) as [hi |] eqn:Hhi; [| discriminate].
  destruct (min_list_spec _ _ Hlo) as (_ & Hleast).
  destruct (max_list_spec _ _ Hhi) as (_ & Hmost).
  assert (Hnth : forall i, (i < List.length temps)%nat ->
                           lo <= nth i (py_sorted temps) 0 <= hi).
  { intros i Hi.
    assert (Hin : In (nth i (py_sorted temps) 0) temps).
    { apply py_sorted_In, nth_In. now rewrite py_sorted_length. }
    split; [now apply Hleast | now apply Hmost]. }
  assert (Hlen : (0 < List.length temps)%nat) by (simpl; lia).
  assert (Hhalf : (List.length temps / 2 < List.length temps)%nat)
    by (apply Nat.div_lt; lia).
  destruct (_ =? 1)%nat.
  - exists lo, hi. repeat split; apply Hnth; exact Hhalf.
  - exists lo, hi. split; [reflexivity |]. split; [reflexivity |].
    pose proof (Hnth (List.length temps / 2)%nat Hhalf) as Ha.
    pose proof (Hnth (List.length temps / 2 - 1)%nat ltac:(lia)) as Hb.
    split; [apply Qle_shift_div_l | apply Qle_shift_div_r]; lra.
Qed.

Lemma get_temp_between_extremes_witness :
  (TEMP_BATTERY example_readout < 1 \/ 4 < TEMP_BATTERY example_readout)%Z
  /\ match get_temp example_readout
             (set_temp2 (Some 30) (example_pack [3.3; 3.3; 3.3; 3.3] 20)) with
     | None =>
         known_temps (set_temp2 (Some 30) (example_pack [3.3; 3.3; 3.3; 3.3] 20))
         = []
     | Some t =>
         exists lo hi,
           get_min_temp
             (set_temp2 (Some 30) (example_pack [3.3; 3.3; 3.3; 3.3] 20))
           = Some lo
           /\ get_max_temp
                (set_temp2 (Some 30) (example_pack [3.3; 3.3; 3.3; 3.3] 20))
              = Some hi
           /\ lo <= t <= hi
     end.
Proof.
  split; [left; reflexivity |].
  apply (get_temp_between_extremes example_readout
           (set_temp2 (Some 30) (example_pack [3.3; 3.3; 3.3; 3.3] 20))).
  left. reflexivity.
Defined.

(** The order of [(t, i)] pairs. *)
Lemma pair_lt_irrefl (a : Q * nat) : pair_lt a a = false.
Proof.
  unfold pair_lt. replace (Qeqb (fst a) (fst a)) with true
    by (symmetry; apply Qeqb_eq; reflexivity).
  apply Nat.ltb_irrefl.
Qed.

Lemma pair_lt_asym (a b : Q * nat) : pair_lt a b = true -> pair_lt b a = false.
Proof.
  unfold pair_lt.
  destruct (Qeqb (fst a) (fst b)) eqn:E1; destruct (Qeqb (fst b) (fst a)) eqn:E2;
    rewrite ?Qeqb_eq, ?Qeqb_neq, ?Qltb_lt, ?Qltb_ge, ?Nat.ltb_lt, ?Nat.ltb_ge in *;
    intros H; try lia; try lra; exfalso; lra.
Qed.

Lemma pair_le_trans (a b c : Q * nat) :
  pair_lt b a = false -> pair_lt c b = false -> pair_lt c a = false.
Proof.
  unfold pair_lt.
  destruct (Qeqb (fst b) (fst a)) eqn:E1; destruct (Qeqb (fst c) (fst b)) eqn:E2;
    destruct (Qeqb (fst c) (fst a)) eqn:E3;
    rewrite ?Qeqb_eq, ?Qeqb_neq, ?Qltb_lt, ?Qltb_ge, ?Nat.ltb_lt, ?Nat.ltb_ge in *;
    intros H1 H2; try lia; try lra; exfalso; lra.
Qed.

(** [min] and [max] of a list of pairs: an element that none of the others
    is below, respectively above. *)
Lemma min_pair_spec (l : list (Q * nat)) (x : Q * nat) :
  In (min_pair x l) (x :: l)
  /\ forall z, In z (x :: l) -> pair_lt z (min_pair x l) = false.
Proof.
  unfold min_pair. revert x. induction l as [| y l IH]; intros x.
  - simpl. split; [now left |]. intros z [<- | []]. apply pair_lt_irrefl.
  - simpl fold_left. destruct (pair_lt y x) eqn:E.
    + destruct (IH y) as (Hin & Hall). split; [now right |].
      intros z [<- | Hz]; [| now apply Hall].
      apply (pair_le_trans _ y _); [apply Hall; now left |].
      now apply pair_lt_asym.
    + destruct (IH x) as (Hin & Hall). split.
      * destruct Hin as [Hin | Hin]; [now left | right; now right].
      * intros z [<- | [<- | Hz]];
          [apply Hall; now left | | apply Hall; now right].
        apply (pair_le_trans _ x _); [apply Hall; now left | exact E].
Qed.

Lemma max_pair_spec (l : list (Q * nat)) (x : Q * nat) :
  In (max_pair x l) (x :: l)
  /\ forall z, In z (x :: l) -> pair_lt (max_pair x l) z = false.
Proof.
  unfold max_pair. revert x. induction l as [| y l IH]; intros x.
  - simpl. split; [now left |]. intros z [<- | []]. apply pair_lt_irrefl.
  - simpl fold_left. destruct (pair_lt x y) eqn:E.
    + destruct (IH y) as (Hin & Hall). split; [now right |].
      intros z [<- | Hz]; [| now apply Hall].
      apply (pair_le_trans _ y _); [now apply pair_lt_asym |].
      apply Hall. now left.
    + destruct (IH x) as (Hin & Hall). split.
      * destruct Hin as [Hin | Hin]; [now left | right; now right].
      * intros z [<- | [<- | Hz]];
          [apply Hall; now left | | apply Hall; now right].
        apply (pair_le_trans _ x _); [exact E | apply Hall; now left].
Qed.

(** The pairs [(t, i)] are the readings of the four sensors. *)
Lemma indexed_temps_In (s : Battery) (t : Q) (i : nat) :
  In (t, i) (indexed_temps s) <-> sensor_temp s i = Some t.
Proof.
  unfold indexed_temps, sensor_temp. simpl.
  destruct (temp1 s), (temp2 s), (temp3 s), (temp4 s); simpl; split;
    try (intros H; repeat destruct H as [H | H]; try (now elim H);
         injection H as <- <-; reflexivity);
    try (intros H; do 4 (destruct i as [| i]; try discriminate H;
                         try (injection H as <-; simpl; tauto));
         destruct i; discriminate H).
Qed.

(** X13: [get_min_temp_id] names a sensor that has the lowest reading, and
    among the sensors with that reading the one with the lowest number. *)
Theorem get_min_temp_id_names_coldest (cfg : Readout) (s : Battery) (name : string) :
  get_min_temp_id cfg s = Some name ->
  exists i t,
    temp_name cfg i = Some name
    /\ sensor_temp s i = Some t
    /\ forall j u, sensor_temp s j = Some u ->
                   t <= u /\ (u == t -> (i <= j)%nat).
Proof.
  unfold get_min_temp_id. intros Hname.
  destruct (indexed_temps s) as [| x l] eqn:Hlist; [discriminate |].
  destruct (min_pair_spec l x) as (Hin & Hall).
  destruct (min_pair x l) as [t i] eqn:Hmin. simpl snd in Hname.
  rewrite <- Hlist in Hin, Hall.
  exists i, t. split; [exact Hname |].
  split; [now apply indexed_temps_In |].
  intros j u Hj. apply indexed_temps_In in Hj. specialize (Hall _ Hj).
  unfold pair_lt in Hall. simpl in Hall.
  destruct (Qeqb u t) eqn:E;
    rewrite ?Qeqb_eq, ?Qeqb_neq, ?Qltb_ge, ?Nat.ltb_ge in *.
  - split; [lra | intros _; exact Hall].
  - split; [exact Hall | intros Heq; contradiction].
Qed.

Lemma get_min_temp_id_names_coldest_witness :
  get_min_temp_id example_readout
    (set_temp2 (Some 25) (example_pack [3.3; 3.3; 3.3; 3.3] 20))
  = Some "Temp 1"
  /\ exists i t,
       temp_name example_readout i = Some "Temp 1"
       /\ sensor_temp (set_temp2 (Some 25) (example_pack [3.3; 3.3; 3.3; 3.3] 20)) i
          = Some t
       /\ forall j u,
            sensor_temp
              (set_temp2 (Some 25) (example_pack [3.3; 3.3; 3.3; 3.3] 20)) j
            = Some u ->
            t <= u /\ (u == t -> (i <= j)%nat).
Proof.
  split; [reflexivity |].
  apply (get_min_temp_id_names_coldest example_readout
           (set_temp2 (Some 25) (example_pack [3.3; 3.3; 3.3; 3.3] 20))).
  reflexivity.
Defined.

(** X14: [get_max_temp_id] names a sensor that has the highest reading, and
    among the sensors with that reading the one with the highest number. *)
Theorem get_max_temp_id_names_hottest (cfg : Readout) (s : Battery) (name : string) :
  get_max_temp_id cfg s = Some name ->
  exists i t,
    temp_name cfg i = Some name
    /\ sensor_temp s i = Some t
    /\ forall j u, sensor_temp s j = Some u ->
                   u <= t /\ (u == t -> (j <= i)%nat).
Proof.
  unfold get_max_temp_id. intros Hname.
  destruct (indexed_temps s) as [| x l] eqn:Hlist; [discriminate |].
  destruct (max_pair_spec l x) as (Hin & Hall).
  destruct (max_pair x l) as [t i] eqn:Hmax. simpl snd in Hname.
  rewrite <- Hlist in Hin, Hall.
  exists i, t. split; [exact Hname |].
  split; [now apply indexed_temps_In |].
  intros j u Hj. apply indexed_temps_In in Hj. specialize (Hall _ Hj).
  unfold pair_lt in Hall. simpl in Hall.
  destruct (Qeqb t u) eqn:E;
    rewrite ?Qeqb_eq, ?Qeqb_neq, ?Qltb_ge, ?Nat.ltb_ge in *.
  - split; [lra | intros _; exact Hall].
  - split; [exact Hall | intros Heq; elim E; lra].
Qed.

Lemma get_max_temp_id_names_hottest_witness :
  get_max_temp_id example_readout
    (set_temp2 (Some 25) (example_pack [3.3; 3.3; 3.3; 3.3] 20))
  = Some "Temp 2"
  /\ exists i t,
       temp_name example_readout i = Some "Temp 2"
       /\ sensor_temp (set_temp2 (Some 25) (example_pack [3.3; 3.3; 3.3; 3.3] 20)) i
          = Some t
       /\ forall j u,
            sensor_temp
              (set_temp2 (Some 25) (example_pack [3.3; 3.3; 3.3; 3.3] 20)) j
            = Some u ->
            u <= t /\ (u == t -> (j <= i)%nat).
Proof.
  split; [reflexivity |].
  apply (get_max_temp_id_names_hottest example_readout
           (set_temp2 (Some 25) (example_pack [3.3; 3.3; 3.3; 3.3] 20))).
  reflexivity.
Defined.
(** ** Remaining capacity *)

(** Taking apart a run of a method that returned. *)
Ltac run_inv H :=
  let a := fresh "a" in
  let s1 := fresh "s" in
  let H1 := fresh "Hstep" in
  apply bind_inv in H; destruct H as (a & s1 & H1 & H);
  try (unfold gets, eval, lift, modify, ret in H1;
       injection H1 as H1 <-; try subst a).

Ltac run_end H :=
  unfold gets, eval, lift, modify, ret in H; inversion H; subst; clear H.

Section CapacityRemain.

Variable utils : Config.
Variable calcLinearRelationship : option Q -> list Q -> list Q -> res Q.

(** X15: After [soc_calculation], on a pack whose BMS reports no remaining
    capacity, [get_capacity_remain] is the coulomb accumulator up to the
    rounding of [soc_calc]: at most 0.005 % of the capacity away. *)
Theorem get_capacity_remain_tracks_accumulator
    (now c r : Q) (s s' : Battery) :
  soc_calculation utils calcLinearRelationship now s = (Ok tt, s') ->
  capacity_remain s' = None ->
  capacity s' = Some c ->
  0 < c ->
  soc_calc_capacity_remain s' = Some r ->
  0 <= r <= c ->
  exists g,
    get_capacity_remain s' = Some g /\ Qabs (g - r) <= c * (1 # 20000).
Proof.
  intros Hrun Hbms Hcap Hc Hr Hrange. unfold soc_calculation in Hrun.
  do 6 run_inv Hrun. run_end Hrun. simpl in Hbms, Hcap, Hr.
  unfold soc_percentage in Hstep1. rewrite Hr, Hcap in Hstep1.
  unfold py_div in Hstep1. simpl in Hstep1.
  assert (Hnz : Qeqb c 0 = false) by (apply Qeqb_neq; lra).
  rewrite Hnz in Hstep1. simpl in Hstep1. injection Hstep1 as <-.
  unfold get_capacity_remain. simpl. rewrite Hbms, Hcap.
  eexists. split; [reflexivity |].
  set (x := r / c * 100).
  assert (Hx : 0 <= x <= 100).
  { unfold x. split.
    - apply Qmult_le_0_compat; [apply Qle_shift_div_l; lra | lra].
    - assert (r / c <= 1) by (apply Qle_shift_div_r; lra). lra. }
  assert (Hclamp : py_max (py_min x 100) 0 == x).
  { destruct (py_min_spec x 100) as [[E | E] [? ?]];
      destruct (py_max_spec (py_min x 100) 0) as [[E' | E'] [? ?]]; lra. }
  pose proof (py_round_error (py_max (py_min x 100) 0) 2) as Herr.
  assert (Hu : (1 # 2) / pow10 2 == 1 # 200) by reflexivity.
  rewrite Hu in Herr. clear Hu.
  set (p := py_round (py_max (py_min x 100) 0) 2) in *.
  assert (Hrx : r == c * x / 100) by (unfold x; field; lra).
  apply Qabs_Qle_condition in Herr. apply Qabs_Qle_condition.
  assert (E : c * p / 100 - r == c * (p - x) / 100) by (rewrite Hrx at 1; field).
  rewrite E.
  assert (Hd : - (1 # 200) <= p - x <= 1 # 200) by lra.
  split.
  - apply Qle_shift_div_l; [lra |]. nra.
  - apply Qle_shift_div_r; [lra |]. nra.
Qed.

End CapacityRemain.

Lemma get_capacity_remain_tracks_accumulator_witness :
  soc_calculation example_config calcLinearRelationship_model 1000
    (nearly_full_pack 1 940)
  = (Ok tt, state_after
              (soc_calculation example_config calcLinearRelationship_model 1000)
              (nearly_full_pack 1 940))
  /\ exists g,
       get_capacity_remain
         (state_after
            (soc_calculation example_config calcLinearRelationship_model 1000)
            (nearly_full_pack 1 940)) = Some g
       /\ Qabs (g - integrated_remain 92 (corrected_current 1) 1000 999 100)
          <= 100 * (1 # 20000).
Proof.
  split; [vm_compute; reflexivity |].
  apply (get_capacity_remain_tracks_accumulator example_config
           calcLinearRelationship_model 1000 100
           (integrated_remain 92 (corrected_current 1) 1000 999 100)
           (nearly_full_pack 1 940)).
  - vm_compute. reflexivity.
  - reflexivity.
  - vm_compute. reflexivity.
  - reflexivity.
  - vm_compute. reflexivity.
  - split; apply Qle_bool_imp_le; vm_compute; reflexivity.
Defined.
(** ** Voltage preparation *)

(** Reduction of the projections of a [Battery] under its field updates. *)
Ltac battery_fields :=
  lazy beta iota delta
    [port baud_rate role type poll_interval online hardware_version
     cell_count max_battery_charge_current max_battery_discharge_current
     has_settings soc_calc_capacity_remain
     soc_calc_capacity_remain_lasttime soc_calc_reset_starttime soc_calc
     soc charge_fet discharge_fet balance_fet block_because_disconnect
     control_charge_current control_discharge_current control_allow_charge
     control_allow_discharge custom_field voltage current current_avg
     current_avg_lst current_corrected capacity_remain capacity cycles
     total_ah_drawn production protection version time_to_soc_update
     temp_sensors temp1 temp2 temp3 temp4 temp_mos cells control_voltage
     soc_reset_requested soc_reset_last_reached soc_reset_battery_voltage
     max_battery_voltage min_battery_voltage allow_max_voltage
     max_voltage_start_time transition_start_time charge_mode
     charge_mode_debug charge_limitation discharge_limitation
     linear_cvl_last_set linear_ccl_last_set linear_dcl_last_set
     available_callbacks initial_control_voltage cell_min_voltage
     cell_max_voltage
     set_soc_reset_requested set_soc_reset_battery_voltage
     set_max_battery_voltage set_min_battery_voltage].

Section Preparation.

Variable utils : Config.

(** [prepare_voltage_management] on a pack with a cell count. *)
Lemma prepare_voltage_management_run (now n : Z) (s : Battery) :
  cell_count s = Some n ->
  prepare_voltage_management utils now s = (Ok tt, prepared utils now n s).
Proof.
  intros Hn. destruct s. simpl in Hn. subst.
  unfold prepare_voltage_management, prepared, soc_reset_due. munfold. simpl.
  destruct (SOC_RESET_AFTER_DAYS utils) as [days |];
    destruct soc_reset_requested0, allow_max_voltage0; simpl;
    try destruct (_ || _); reflexivity.
Qed.

(** The three fields that decide whether an excursion is due, after the
    preparation. *)
Lemma prepared_fields (now n : Z) (s : Battery) :
  soc_reset_requested (prepared utils now n s)
  = soc_reset_requested s || soc_reset_due utils now s
  /\ allow_max_voltage (prepared utils now n s) = allow_max_voltage s
  /\ soc_reset_last_reached (prepared utils now n s) = soc_reset_last_reached s
  /\ cell_count (prepared utils now n s) = cell_count s.
Proof.
  unfold prepared. destruct (soc_reset_due utils now s);
    rewrite ?orb_true_r, ?orb_false_r; destruct s; repeat split.
Qed.

(** Once prepared, no excursion is due at the same second. *)
Lemma soc_reset_due_prepared (now n : Z) (s : Battery) :
  soc_reset_due utils now (prepared utils now n s) = false.
Proof.
  destruct (prepared_fields now n s) as (Hreq & Hallow & Hlast & _).
  unfold soc_reset_due at 1. rewrite Hreq, Hallow, Hlast. clear.
  unfold soc_reset_due.
  destruct (SOC_RESET_AFTER_DAYS utils) as [days |]; [| reflexivity].
  set (late := ((soc_reset_last_reached s =? 0)%Z || _)).
  destruct (soc_reset_requested s), (allow_max_voltage s), late; reflexivity.
Qed.

(** X16: Preparing twice at the same second is preparing once: the method
    accumulates nothing. *)
Theorem prepare_voltage_management_idempotent (now n : Z) (s : Battery) :
  cell_count s = Some n ->
  state_after (prepare_voltage_management utils now)
    (state_after (prepare_voltage_management utils now) s)
  = state_after (prepare_voltage_management utils now) s.
Proof.
  intros Hn.
  destruct (prepared_fields now n s) as (Hreq & _ & _ & Hcount).
  assert (Hagain : prepared utils now n (prepared utils now n s)
                   = prepared utils now n s).
  { unfold prepared at 1. rewrite soc_reset_due_prepared, Hreq.
    unfold prepared. clear.
    destruct (soc_reset_due utils now s); rewrite ?orb_true_r, ?orb_false_r;
      destruct s; battery_fields; [reflexivity |].
    destruct soc_reset_requested0; reflexivity. }
  unfold state_after.
  rewrite (prepare_voltage_management_run now n s Hn). cbn [snd].
  rewrite (prepare_voltage_management_run now n (prepared utils now n s))
    by (rewrite Hcount; exact Hn).
  cbn [snd]. exact Hagain.
Qed.

(** X17: After [init_values], when excursions are configured, the first
    preparation asks for one: the target is
    [round(SOC_RESET_VOLTAGE * cell_count, 2)]. *)
Theorem prepare_voltage_management_after_init_values
    (now n : Z) (days : Q) (s : Battery) :
  SOC_RESET_AFTER_DAYS utils = Some days ->
  cell_count s = Some n ->
  let s' := state_after (prepare_voltage_management utils now) (init_values s) in
  soc_reset_requested s' = true
  /\ max_battery_voltage s'
     = Some (py_round (SOC_RESET_VOLTAGE utils * inject_Z n) 2)
  /\ max_battery_voltage s' = soc_reset_battery_voltage s'.
Proof.
  intros Hdays Hn s'. unfold s', state_after.
  rewrite (prepare_voltage_management_run now n (init_values s)) by exact Hn.
  unfold prepared, soc_reset_due. rewrite Hdays. simpl. repeat split.
Qed.

(** X18: Once prepared, the floor of the pack voltage is not above its
    target, provided the floor per cell is above neither ceiling. *)
Theorem prepare_voltage_management_orders_limits (now n : Z) (s : Battery) :
  cell_count s = Some n ->
  (0 <= n)%Z ->
  MIN_CELL_VOLTAGE utils <= MAX_CELL_VOLTAGE utils ->
  MIN_CELL_VOLTAGE utils <= SOC_RESET_VOLTAGE utils ->
  let s' := state_after (prepare_voltage_management utils now) s in
  exists lo hi,
    min_battery_voltage s' = Some lo /\ max_battery_voltage s' = Some hi
    /\ lo <= hi.
Proof.
  intros Hn Hpos Hmax Hreset s'. unfold s', state_after.
  rewrite (prepare_voltage_management_run now n s Hn).
  unfold prepared. simpl.
  assert (Hz : 0 <= inject_Z n)
    by (change 0 with (inject_Z 0); now rewrite <- Zle_Qle).
  eexists. eexists. split; [reflexivity |]. split; [reflexivity |].
  destruct (soc_reset_requested _); apply py_round_mono;
    apply Qmult_le_compat_r; assumption.
Qed.

End Preparation.

Lemma prepare_voltage_management_idempotent_witness :
  cell_count (example_pack [3.3; 3.3; 3.3; 3.3] 20) = Some 4%Z
  /\ state_after (prepare_voltage_management excursion_config 1000)
       (state_after (prepare_voltage_management excursion_config 1000)
          (example_pack [3.3; 3.3; 3.3; 3.3] 20))
     = state_after (prepare_voltage_management excursion_config 1000)
         (example_pack [3.3; 3.3; 3.3; 3.3] 20).
Proof.
  split; [reflexivity |].
  apply (prepare_voltage_management_idempotent excursion_config 1000 4
           (example_pack [3.3; 3.3; 3.3; 3.3] 20)).
  reflexivity.
Defined.

Lemma prepare_voltage_management_after_init_values_witness :
  SOC_RESET_AFTER_DAYS excursion_config = Some 30
  /\ soc_reset_requested
       (state_after (prepare_voltage_management excursion_config 1000)
          (init_values absorbing_pack)) = true.
Proof.
  split; [reflexivity |].
  apply (prepare_voltage_management_after_init_values excursion_config 1000 4 30
           absorbing_pack); reflexivity.
Defined.

Lemma prepare_voltage_management_orders_limits_witness :
  MIN_CELL_VOLTAGE example_config <= MAX_CELL_VOLTAGE example_config
  /\ exists lo hi,
       min_battery_voltage
         (state_after (prepare_voltage_management example_config 1000)
            (example_pack [3.3; 3.3; 3.3; 3.3] 20)) = Some lo
       /\ max_battery_voltage
            (state_after (prepare_voltage_management example_config 1000)
               (example_pack [3.3; 3.3; 3.3; 3.3] 20)) = Some hi
       /\ lo <= hi.
Proof.
  split; [apply Qle_bool_imp_le; reflexivity |].
  apply (prepare_voltage_management_orders_limits example_config 1000 4
           (example_pack [3.3; 3.3; 3.3; 3.3] 20));
    [reflexivity | lia | apply Qle_bool_imp_le; reflexivity
    | apply Qle_bool_imp_le; reflexivity].
Defined.
(** ** The controllers on incomplete data, and the step controller *)

Lemma py_round_2_3 (x : Q) : py_round (py_round x 2) 3 == py_round x 2.
Proof.
  unfold py_round at 2. set (k := round_half_even (x * pow10 2)).
  unfold py_round.
  assert (E : inject_Z k / pow10 2 * pow10 3 == inject_Z (k * 10)).
  { rewrite inject_Z_mult. change (pow10 2) with 100.
    change (pow10 3) with 1000. change (inject_Z 10) with 10. field. }
  rewrite (round_half_even_comp _ _ E), round_half_even_Z, inject_Z_mult.
  change (pow10 2) with 100. change (pow10 3) with 1000.
  change (inject_Z 10) with 10.
  change (round_half_even (x * 100)) with k. field.
Qed.

Section Controllers.

Variable utils : Config.
Variable calcLinearRelationship : option Q -> list Q -> list Q -> res Q.
Variable format_charge_mode_debug : Battery -> Q -> Q -> Q -> Z -> Z -> string.

Local Abbreviation linear_controller :=
  (manage_charge_voltage_linear utils format_charge_mode_debug).
Local Abbreviation step_controller := (manage_charge_voltage_step utils).

(** Without a cell count the step controller returns normally and
    publishes no voltage. *)
Lemma step_controller_without_cell_count (now : Z) (s : Battery) :
  cell_count s = None ->
  step_controller now s = (Ok tt, dashed s).
Proof.
  intros Hn.
  unfold manage_charge_voltage_step, try_except_TypeError,
    manage_charge_voltage_step_body.
  erewrite bind_eval_Raise
    by (unfold sum_cell_voltages; rewrite Hn; reflexivity).
  reflexivity.
Qed.

(** X19: Without a cell count, or without a single cell reading, the linear
    controller returns normally and publishes no voltage: the CVL is
    [None], the mode is "--", and nothing else changes. *)
Theorem linear_controller_without_data (now now_cvl : Z) (s : Battery) :
  cell_count s = None \/ get_max_cell_voltage s = None
  \/ get_min_cell_voltage s = None ->
  linear_controller now now_cvl s = (Ok tt, dashed s).
Proof.
  intros Hblind.
  unfold manage_charge_voltage_linear, try_except_TypeError,
    manage_charge_voltage_linear_body.
  destruct (cell_count s) as [n |] eqn:Hn.
  - destruct (penalty_scan_spec utils s n Hn) as (vs & ps & Hscan & _).
    assert (Hdiff : cell_voltage_diff s = Raise TypeError).
    { unfold cell_voltage_diff.
      destruct Hblind as [Hnone | [-> | Hmin]];
        [discriminate Hnone | reflexivity |].
      rewrite Hmin. destruct (get_max_cell_voltage s); reflexivity. }
    erewrite bind_eval_Ok by exact Hscan. cbv beta iota.
    erewrite bind_eval_Raise by exact Hdiff. reflexivity.
  - erewrite bind_eval_Raise
      by (unfold penalty_scan; rewrite Hn; reflexivity).
    reflexivity.
Qed.

(** X20: The step controller, once Absorption has lasted more than
    [MAX_VOLTAGE_TIME_SEC]: it goes to Float, the CVL is
    [FLOAT_CELL_VOLTAGE * cell_count] (not rounded), and a pending excursion
    request is cleared. *)
Theorem step_controller_timer_expired
    (now start n : Z) (m : string) (s : Battery) :
  cell_count s = Some n ->
  max_voltage_start_time s = Some start ->
  MAX_VOLTAGE_TIME_SEC utils < inject_Z (now - start) ->
  charge_mode s = Some m ->
  let s' := state_after (step_controller now) s in
  outcome (step_controller now) s = Ok tt
  /\ allow_max_voltage s' = false
  /\ max_voltage_start_time s' = None
  /\ control_voltage s' = Some (FLOAT_CELL_VOLTAGE utils * inject_Z n)
  /\ charge_mode s' = Some "Float (Step Mode)"
  /\ soc_reset_requested s' = false.
Proof.
  intros Hn Hstart Hlate Hm s'.
  destruct (sum_cell_voltages_total s n Hn) as (vsum & Hsum).
  apply Qltb_lt in Hlate.
  assert (Hrun : exists s2,
             step_controller now s = (Ok tt, s2)
             /\ allow_max_voltage s2 = false
             /\ max_voltage_start_time s2 = None
             /\ control_voltage s2 = Some (FLOAT_CELL_VOLTAGE utils * inject_Z n)
             /\ charge_mode s2 = Some "Float (Step Mode)"
             /\ soc_reset_requested s2 = false).
  { unfold manage_charge_voltage_step, try_except_TypeError,
      manage_charge_voltage_step_body.
    erewrite bind_eval_Ok by exact Hsum.
    rewrite bind_gets, Hstart.
    unfold charge_mode_startswith, append_charge_mode. munfold.
    rewrite Hlate. simpl. rewrite Hm, Hn. simpl.
    destruct (soc_reset_requested s) eqn:Hreq; simpl;
      eexists; repeat split; assumption. }
  destruct Hrun as (s2 & Hrun & H).
  unfold s', outcome, state_after. rewrite Hrun. simpl. exact (conj eq_refl H).
Qed.

(** X21: The step controller on a pack that is past Absorption
    ([allow_max_voltage] false) but has no charge mode yet, as after a
    restart that restored the flag: [charge_mode.startswith] raises
    [AttributeError], which the [except TypeError] clause lets through. *)
Theorem step_controller_float_without_mode
    (now n : Z) (mbv level : Q) (s : Battery) :
  cell_count s = Some n ->
  max_voltage_start_time s = None ->
  allow_max_voltage s = false ->
  max_battery_voltage s = Some mbv ->
  soc_calc s = Some level ->
  SOC_LEVEL_TO_RESET_VOLTAGE_LIMIT utils <= level ->
  charge_mode s = None ->
  outcome (step_controller now) s = Raise AttributeError.
Proof.
  intros Hn Hstart Hallow Hmbv Hlevel Hhigh Hm.
  destruct (sum_cell_voltages_total s n Hn) as (vsum & Hsum).
  apply Qltb_ge in Hhigh.
  unfold outcome, manage_charge_voltage_step, try_except_TypeError,
    manage_charge_voltage_step_body.
  erewrite bind_eval_Ok by exact Hsum.
  rewrite bind_gets, Hstart.
  unfold charge_mode_startswith. munfold.
  rewrite Hmbv, Hallow. simpl. rewrite andb_false_r.
  rewrite Hlevel. simpl. rewrite Hhigh. simpl. rewrite Hallow, Hm. reflexivity.
Qed.

(** X22: With [CVCM_ENABLE] and [SOC_CALCULATION] off, [manage_charge_voltage]
    copies the SoC of the BMS and publishes the prepared target as the CVL:
    rounding it to 3 places changes nothing, it has 2. *)
Theorem manage_charge_voltage_without_cvcm
    (t_soc : Q) (t_prepare t_control t_cvl n : Z) (s : Battery) :
  CVCM_ENABLE utils = false ->
  SOC_CALCULATION utils = false ->
  cell_count s = Some n ->
  let run := manage_charge_voltage utils calcLinearRelationship
               format_charge_mode_debug t_soc t_prepare t_control t_cvl in
  outcome run s = Ok tt
  /\ charge_mode (state_after run s) = Some "Keep always max voltage"
  /\ soc_calc (state_after run s) = soc s
  /\ exists v hi,
       control_voltage (state_after run s) = Some v
       /\ max_battery_voltage (state_after run s) = Some hi
       /\ v == hi.
Proof.
  intros Hcvcm Hsoc Hn run.
  assert (Hrun : run s
                 = (Ok tt,
                    set_charge_mode (Some "Keep always max voltage")
                      (set_control_voltage
                         (match max_battery_voltage
                                  (prepared utils t_prepare n
                                     (set_soc_calc (soc s) s)) with
                          | Some hi => Some (py_round hi 3)
                          | None => None
                          end)
                         (prepared utils t_prepare n (set_soc_calc (soc s) s))))).
  { unfold run, manage_charge_voltage. rewrite Hcvcm, Hsoc.
    erewrite bind_run by reflexivity.
    erewrite bind_run
      by (apply (prepare_voltage_management_run utils t_prepare n); exact Hn).
    reflexivity. }
  unfold outcome, state_after. rewrite Hrun. simpl fst. simpl snd.
  split; [reflexivity |]. split; [reflexivity |].
  split; [unfold prepared; destruct (soc_reset_due _ _ _); reflexivity |].
  unfold prepared. simpl.
  eexists. eexists. split; [reflexivity |]. split; [reflexivity |].
  destruct (soc_reset_requested _); apply py_round_2_3.
Qed.

(** X23: A CVL that [set_cvl_linear] has just set stays until
    [LINEAR_RECALCULATION_EVERY] seconds have passed: an earlier call
    returns [False] and changes nothing. *)
Theorem set_cvl_linear_holds (t t' : Z) (v v' : Q) (s : Battery) :
  outcome (set_cvl_linear utils t v) s = Ok true ->
  inject_Z (t' - t) < LINEAR_RECALCULATION_EVERY utils ->
  let s1 := state_after (set_cvl_linear utils t v) s in
  set_cvl_linear utils t' v' s1 = (Ok false, s1)
  /\ control_voltage s1 = Some v.
Proof.
  unfold outcome, state_after, set_cvl_linear. munfold. intros Hset Hearly.
  destruct (Qleb _ (inject_Z (t - linear_cvl_last_set s))); [| discriminate].
  cbn [snd]. cbn [linear_cvl_last_set set_linear_cvl_last_set].
  apply Qleb_gt in Hearly. rewrite Hearly. split; reflexivity.
Qed.

End Controllers.

Lemma linear_controller_without_data_witness :
  get_max_cell_voltage (example_pack [] 0) = None
  /\ manage_charge_voltage_linear example_config no_debug_text 1000 1000
       (example_pack [] 0)
     = (Ok tt, dashed (example_pack [] 0)).
Proof.
  split; [reflexivity |].
  apply (linear_controller_without_data example_config no_debug_text
           1000 1000 (example_pack [] 0)).
  right. left. reflexivity.
Defined.

(** A freshly constructed battery, which has no cell count yet. *)
Example linear_controller_fresh_battery :
  manage_charge_voltage_linear example_config no_debug_text 1000 1000
    (Battery_init "/dev/ttyUSB0" 9600 "0")
  = (Ok tt, dashed (Battery_init "/dev/ttyUSB0" 9600 "0")).
Proof. vm_compute. reflexivity. Qed.

Lemma step_controller_timer_expired_witness :
  MAX_VOLTAGE_TIME_SEC example_config < inject_Z (1301 - 400)
  /\ control_voltage
       (state_after (manage_charge_voltage_step example_config 1301)
          (set_charge_mode (Some "Absorption (Step Mode)") absorbing_pack))
     = Some (FLOAT_CELL_VOLTAGE example_config * inject_Z 4).
Proof.
  split; [reflexivity |].
  refine (proj1 (proj2 (proj2 (proj2
            (step_controller_timer_expired example_config 1301 400 4
               "Absorption (Step Mode)"
               (set_charge_mode (Some "Absorption (Step Mode)") absorbing_pack)
               _ _ _ _))))); reflexivity.
Defined.

Lemma step_controller_float_without_mode_witness :
  charge_mode
    (set_allow_max_voltage false
       (set_soc_calc (Some 99) (example_pack [3.4; 3.4; 3.4; 3.4] 0))) = None
  /\ outcome (manage_charge_voltage_step example_config 1000)
       (set_allow_max_voltage false
          (set_soc_calc (Some 99) (example_pack [3.4; 3.4; 3.4; 3.4] 0)))
     = Raise AttributeError.
Proof.
  split; [reflexivity |].
  apply (step_controller_float_without_mode example_config 1000 4 13.8 99
           (set_allow_max_voltage false
              (set_soc_calc (Some 99) (example_pack [3.4; 3.4; 3.4; 3.4] 0))));
    try reflexivity.
  apply Qle_bool_imp_le. reflexivity.
Defined.

Lemma manage_charge_voltage_without_cvcm_witness :
  CVCM_ENABLE (without_cvcm example_config) = false
  /\ charge_mode
       (state_after
          (manage_charge_voltage (without_cvcm example_config)
             calcLinearRelationship_model no_debug_text 1000 1000 1000 1000)
          (example_pack [3.3; 3.3; 3.3; 3.3] 20))
     = Some "Keep always max voltage".
Proof.
  split; [reflexivity |].
  refine (proj1 (proj2
            (manage_charge_voltage_without_cvcm (without_cvcm example_config)
               calcLinearRelationship_model no_debug_text 1000 1000 1000 1000 4
               (example_pack [3.3; 3.3; 3.3; 3.3] 20) _ _ _))); reflexivity.
Defined.

Lemma set_cvl_linear_holds_witness :
  outcome (set_cvl_linear example_config 1000 13.8)
    (example_pack [3.3; 3.3; 3.3; 3.3] 20) = Ok true
  /\ control_voltage
       (state_after (set_cvl_linear example_config 1000 13.8)
          (example_pack [3.3; 3.3; 3.3; 3.3] 20)) = Some 13.8.
Proof.
  split; [vm_compute; reflexivity |].
  apply (proj2 (set_cvl_linear_holds example_config 1000 1030 13.8 13.5
                  (example_pack [3.3; 3.3; 3.3; 3.3] 20)
                  ltac:(vm_compute; reflexivity)
                  ltac:(vm_compute; reflexivity))).
Defined.
(** ** Current limiter: bounds, permissions, throttle of the discharge side *)

Lemma dict_update_keeps_keys (k k' : option Q) (v : string) (d : dict) :
  In k (map fst d) -> In k (map fst (dict_update k' v d)).
Proof.
  induction d as [| [k0 v0] d IH]; simpl; [tauto |].
  destruct (py_eq k0 k'); simpl; tauto.
Qed.

Lemma add_limit_keeps_keys (k own tmp : option Q) (global rule : string) (d : dict) :
  In k (map fst d) -> In k (map fst (add_limit own tmp global rule d)).
Proof.
  intros H. unfold add_limit. destruct (py_ne own tmp); [| exact H].
  destruct (dict_get tmp d); [destruct (String.eqb _ _) |];
    auto using dict_update_keeps_keys.
Qed.

Lemma add_zero_keeps_keys (k : option Q) (d : dict) :
  In k (map fst d) -> In k (map fst (add_zero d)).
Proof.
  intros H. unfold add_zero.
  destruct (dict_get (Some 0) d); auto using dict_update_keeps_keys.
Qed.

Lemma base_limits_has_ceiling (ceiling : Q) (own : option Q) (global : string) :
  In (Some ceiling) (map fst (base_limits ceiling own global)).
Proof.
  unfold base_limits. destruct own as [m |]; [| now left].
  destruct (Qltb m ceiling); [| now left].
  apply dict_update_keeps_keys. now left.
Qed.

(** When [min] of a dictionary returns a number, every key is a number
    and none is below it. *)
Lemma min_scan_least (d : dict) (a : option Q) (m : Q) :
  for_each (fun m kv => let? b := key_lt (fst kv) m in
                        Ok (if b then fst kv else m)) d a
  = Ok (Some m) ->
  (exists qa, a = Some qa /\ m <= qa)
  /\ forall k, In k (map fst d) -> exists q, k = Some q /\ m <= q.
Proof.
  revert a. induction d as [| [k v] d IH]; intros a; simpl.
  - intros H. injection H as ->. split; [exists m; split; [reflexivity | lra] |].
    intros k [].
  - destruct k as [q |]; [| discriminate].
    destruct a as [qa |]; [| discriminate]. simpl.
    destruct (Qltb q qa) eqn:E; intros H; apply IH in H;
      destruct H as ((q' & Hq' & Hle) & Hall); injection Hq' as <-;
      [apply Qltb_lt in E | apply Qltb_ge in E].
    + split; [exists qa; split; [reflexivity | lra] |].
      intros k [<- | Hk]; [exists q; split; [reflexivity | lra] | auto].
    + split; [exists qa; split; [reflexivity | lra] |].
      intros k [<- | Hk]; [exists q; split; [reflexivity | lra] | auto].
Qed.

Lemma rounded_minimum_below_key (d : dict) (limit key : Q) :
  rounded_minimum d = Ok limit ->
  In (Some key) (map fst d) ->
  limit <= py_round key 3.
Proof.
  unfold rounded_minimum, dict_min. intros Hmin Hin.
  destruct d as [| [k v] d]; [discriminate |].
  destruct (for_each _ d k) as [[m |] | e] eqn:Hscan; try discriminate.
  simpl in Hmin. injection Hmin as <-. apply py_round_mono.
  apply min_scan_least in Hscan. destruct Hscan as ((qa & -> & Hle) & Hall).
  destruct Hin as [Hin | Hin].
  - simpl in Hin. injection Hin as <-. exact Hle.
  - destruct (Hall _ Hin) as (q & Hq & Hle'). injection Hq as <-. exact Hle'.
Qed.

Section LimiterBounds.

Variable utils : Config.
Variable calcLinearRelationship : option Q -> list Q -> list Q -> res Q.
Variable calcStepRelationship : option Q -> list Q -> list Q -> bool -> res Q.

Local Abbreviation charge_side :=
  (manage_charge_side utils calcLinearRelationship calcStepRelationship).
Local Abbreviation discharge_side :=
  (manage_discharge_side utils calcLinearRelationship calcStepRelationship).
Local Abbreviation current_manager :=
  (manage_charge_current utils calcLinearRelationship calcStepRelationship).

(** One derating rule entering the dictionary removes no key. *)
Lemma rule_stage_keys (enabled : bool) (r : res (option Q)) (own : option Q)
    (global rule : string) (limits d : dict) (k : option Q) :
  (if enabled then let? tmp := r in Ok (add_limit own tmp global rule limits)
   else Ok limits) = Ok d ->
  In k (map fst limits) -> In k (map fst d).
Proof.
  destruct enabled; [destruct r; simpl; [| discriminate] |];
    intros H; injection H as <-; auto using add_limit_keeps_keys.
Qed.

Lemma charge_limits_has_maximum (s : Battery) (d : dict) :
  charge_limits utils calcLinearRelationship calcStepRelationship s = Ok d ->
  In (Some (MAX_BATTERY_CHARGE_CURRENT utils)) (map fst d).
Proof.
  unfold charge_limits, charge_candidates.
  pose proof (base_limits_has_ceiling (MAX_BATTERY_CHARGE_CURRENT utils)
                (max_battery_charge_current s) "Max Battery Charge Current")
    as Hbase.
  intros H.
  match type of H with
  | rbind (rbind ?X _) _ = _ => destruct X as [l1 | e] eqn:H1; [| discriminate]
  end.
  cbn [rbind] in H.
  match type of H with
  | rbind (rbind ?X _) _ = _ => destruct X as [l2 | e] eqn:H2; [| discriminate]
  end.
  cbn [rbind] in H.
  match type of H with
  | rbind ?X _ = _ => destruct X as [l3 | e] eqn:H3; [| discriminate]
  end.
  cbn [rbind] in H. injection H as <-.
  apply (rule_stage_keys _ _ _ _ _ _ _ _ H1) in Hbase.
  apply (rule_stage_keys _ _ _ _ _ _ _ _ H2) in Hbase.
  apply (rule_stage_keys _ _ _ _ _ _ _ _ H3) in Hbase.
  destruct (_ || _); [apply add_zero_keeps_keys |]; exact Hbase.
Qed.

Lemma discharge_limits_has_maximum (s : Battery) (d : dict) :
  discharge_limits utils calcLinearRelationship calcStepRelationship s = Ok d ->
  In (Some (MAX_BATTERY_DISCHARGE_CURRENT utils)) (map fst d).
Proof.
  unfold discharge_limits, discharge_candidates.
  pose proof (base_limits_has_ceiling (MAX_BATTERY_DISCHARGE_CURRENT utils)
                (max_battery_discharge_current s)
                "Max Battery Discharge Current") as Hbase.
  intros H.
  match type of H with
  | rbind (rbind ?X _) _ = _ => destruct X as [l1 | e] eqn:H1; [| discriminate]
  end.
  cbn [rbind] in H.
  match type of H with
  | rbind (rbind ?X _) _ = _ => destruct X as [l2 | e] eqn:H2; [| discriminate]
  end.
  cbn [rbind] in H.
  match type of H with
  | rbind ?X _ = _ => destruct X as [l3 | e] eqn:H3; [| discriminate]
  end.
  cbn [rbind] in H. injection H as <-.
  apply (rule_stage_keys _ _ _ _ _ _ _ _ H1) in Hbase.
  apply (rule_stage_keys _ _ _ _ _ _ _ _ H2) in Hbase.
  apply (rule_stage_keys _ _ _ _ _ _ _ _ H3) in Hbase.
  destruct (_ || _); [apply add_zero_keeps_keys |]; exact Hbase.
Qed.

Lemma charge_side_bound (t1 t2 : Z) (s : Battery) :
  at_most (py_round (MAX_BATTERY_CHARGE_CURRENT utils) 3)
    (control_charge_current s) ->
  at_most (py_round (MAX_BATTERY_CHARGE_CURRENT utils) 3)
    (control_charge_current (state_after (charge_side t1 t2) s)).
Proof.
  intros Hold. unfold manage_charge_side, state_after. munfold.
  destruct (charge_limits _ _ _ s) as [limits | e] eqn:Hl; [| exact Hold].
  destruct (rounded_minimum limits) as [ccl | e] eqn:Hm; [| exact Hold].
  pose proof (rounded_minimum_below_key _ _ _ Hm
                (charge_limits_has_maximum s limits Hl)) as Hnew.
  destruct (commit_due _ _ _ _ _) as [[|] | e]; [| exact Hold | exact Hold].
  cbn [fst snd]. destruct (rbind _ _); exact Hnew.
Qed.

Lemma discharge_side_bound (t3 t4 : Z) (s : Battery) :
  at_most (py_round (MAX_BATTERY_DISCHARGE_CURRENT utils) 3)
    (control_discharge_current s) ->
  at_most (py_round (MAX_BATTERY_DISCHARGE_CURRENT utils) 3)
    (control_discharge_current (state_after (discharge_side t3 t4) s)).
Proof.
  intros Hold. unfold manage_discharge_side, state_after. munfold.
  destruct (discharge_limits _ _ _ s) as [limits | e] eqn:Hl; [| exact Hold].
  destruct (rounded_minimum limits) as [dcl | e] eqn:Hm; [| exact Hold].
  pose proof (rounded_minimum_below_key _ _ _ Hm
                (discharge_limits_has_maximum s limits Hl)) as Hnew.
  destruct (commit_due _ _ _ _ _) as [[|] | e]; [| exact Hold | exact Hold].
  cbn [fst snd]. destruct (rbind _ _); exact Hnew.
Qed.

(** The state after [manage_charge_current] in terms of its two halves. *)
Lemma current_manager_state (t1 t2 t3 t4 : Z) (s : Battery) :
  state_after (current_manager t1 t2 t3 t4) s
  = match outcome (charge_side t1 t2) s with
    | Ok _ => state_after (discharge_side t3 t4) (state_after (charge_side t1 t2) s)
    | Raise _ => state_after (charge_side t1 t2) s
    end.
Proof.
  unfold manage_charge_current, outcome, state_after, bind.
  destruct (charge_side t1 t2 s) as [[[] | e] s1]; reflexivity.
Qed.

(** X24: However [manage_charge_current] ends, the limits it leaves do not
    exceed the configured maxima (rounded as the limits are), if they did
    not before. *)
Theorem current_limits_stay_below_maxima (t1 t2 t3 t4 : Z) (s : Battery) :
  at_most (py_round (MAX_BATTERY_CHARGE_CURRENT utils) 3)
    (control_charge_current s) ->
  at_most (py_round (MAX_BATTERY_DISCHARGE_CURRENT utils) 3)
    (control_discharge_current s) ->
  at_most (py_round (MAX_BATTERY_CHARGE_CURRENT utils) 3)
    (control_charge_current (state_after (current_manager t1 t2 t3 t4) s))
  /\ at_most (py_round (MAX_BATTERY_DISCHARGE_CURRENT utils) 3)
       (control_discharge_current
          (state_after (current_manager t1 t2 t3 t4) s)).
Proof.
  intros Hc Hd. rewrite current_manager_state.
  pose proof (charge_side_bound t1 t2 s Hc) as Hc1.
  destruct (charge_side_frame utils calcLinearRelationship calcStepRelationship
              t1 t2 s) as (_ & Hd1 & _).
  cbv zeta in Hd1.
  destruct (outcome (charge_side t1 t2) s).
  - destruct (discharge_side_frame utils calcLinearRelationship
                calcStepRelationship t3 t4 (state_after (charge_side t1 t2) s))
      as (Hkeep & _).
    cbv zeta in Hkeep. rewrite Hkeep. split; [exact Hc1 |].
    apply discharge_side_bound. rewrite Hd1. exact Hd.
  - split; [exact Hc1 | rewrite Hd1; exact Hd].
Qed.

Lemma charge_side_flag (t1 t2 : Z) (s : Battery) :
  outcome (charge_side t1 t2) s = Ok tt ->
  control_allow_charge (state_after (charge_side t1 t2) s)
  = allowed_by (control_charge_current (state_after (charge_side t1 t2) s)).
Proof.
  unfold manage_charge_side, outcome, state_after. munfold.
  repeat (simpl; try break_match); intros H; try discriminate H; reflexivity.
Qed.

Lemma discharge_side_flag (t3 t4 : Z) (s : Battery) :
  outcome (discharge_side t3 t4) s = Ok tt ->
  control_allow_discharge (state_after (discharge_side t3 t4) s)
  = allowed_by (control_discharge_current (state_after (discharge_side t3 t4) s)).
Proof.
  unfold manage_discharge_side, outcome, state_after. munfold.
  repeat (simpl; try break_match); intros H; try discriminate H; reflexivity.
Qed.

Lemma allowed_by_false (o : option Q) :
  allowed_by o = Some false <-> is_num o 0.
Proof.
  unfold allowed_by, is_num, py_eq. destruct o as [x |]; simpl.
  - rewrite <- Qeqb_eq. destruct (Qeqb x 0); simpl; split; congruence.
  - split; [discriminate | tauto].
Qed.

(** X25: When [manage_charge_current] returns, each permission is false
    exactly when the limit of its side is 0. *)
Theorem permissions_follow_limits (t1 t2 t3 t4 : Z) (s : Battery) :
  outcome (current_manager t1 t2 t3 t4) s = Ok tt ->
  let s' := state_after (current_manager t1 t2 t3 t4) s in
  (control_allow_charge s' = Some false <-> is_num (control_charge_current s') 0)
  /\ (control_allow_discharge s' = Some false
      <-> is_num (control_discharge_current s') 0).
Proof.
  intros Hrun s'.
  assert (Hcharge : outcome (charge_side t1 t2) s = Ok tt).
  { revert Hrun. unfold manage_charge_current, outcome, bind.
    destruct (charge_side t1 t2 s) as [[[] | e] s1]; simpl;
      [reflexivity | discriminate]. }
  destruct (current_manager_run utils calcLinearRelationship calcStepRelationship
              t1 t2 t3 t4 s Hcharge) as (Hout & Hstate).
  rewrite Hout in Hrun. unfold s'. rewrite Hstate.
  destruct (discharge_side_frame utils calcLinearRelationship
              calcStepRelationship t3 t4 (state_after (charge_side t1 t2) s))
    as (Hkeep & _ & Hflag & _).
  cbv zeta in Hkeep, Hflag. rewrite Hkeep, Hflag.
  rewrite (charge_side_flag t1 t2 s Hcharge).
  rewrite (discharge_side_flag t3 t4 _ Hrun).
  split; apply allowed_by_false.
Qed.

Lemma charge_side_keeps_discharge_limitation (t1 t2 : Z) (s : Battery) :
  discharge_limitation (state_after (charge_side t1 t2) s)
  = discharge_limitation s.
Proof.
  unfold manage_charge_side. munfold.
  repeat (simpl; try break_match); reflexivity.
Qed.

(** X26: The throttle of the discharge side: a nonzero new limit that comes too
    early and differs too little from the committed one is not committed. *)
Theorem discharge_throttle_holds
    (t1 t2 t3 t4 : Z) (s : Battery) (limits : dict) (dcl previous : Q) :
  discharge_limits utils calcLinearRelationship calcStepRelationship s
  = Ok limits ->
  rounded_minimum limits = Ok dcl ->
  ~ dcl == 0 ->
  inject_Z (t3 - linear_dcl_last_set s) < LINEAR_RECALCULATION_EVERY utils ->
  control_discharge_current s = Some previous ->
  Qabs (previous - dcl)
  < previous * LINEAR_RECALCULATION_ON_PERC_CHANGE utils / 100 ->
  control_discharge_current (state_after (current_manager t1 t2 t3 t4) s)
  = control_discharge_current s
  /\ discharge_limitation (state_after (current_manager t1 t2 t3 t4) s)
     = discharge_limitation s.
Proof.
  intros Hlimits Hmin Hnz Hearly Hprev Hsmall.
  rewrite current_manager_state.
  destruct (charge_side_frame utils calcLinearRelationship calcStepRelationship
              t1 t2 s) as (Hl1 & Hd1 & Hlast1 & _).
  pose proof (charge_side_keeps_discharge_limitation t1 t2 s) as Hlab1.
  cbv zeta in Hl1, Hd1, Hlast1.
  destruct (outcome (charge_side t1 t2) s); [| split; assumption].
  set (s1 := state_after (charge_side t1 t2) s) in *.
  assert (Hside : discharge_side t3 t4 s1
                  = (Ok tt, set_control_allow_discharge
                              (allowed_by (control_discharge_current s1)) s1)).
  { unfold manage_discharge_side, commit_due. munfold.
    rewrite Hl1, Hlimits, Hmin, Hd1, Hlast1, Hprev. simpl.
    apply Qleb_gt in Hearly. rewrite Hearly.
    apply Qeqb_neq in Hnz. rewrite Hnz. simpl.
    unfold py_abs. apply Qleb_gt in Hsmall. rewrite Hsmall. simpl.
    now rewrite Hd1, Hprev. }
  unfold state_after. rewrite Hside. cbn [snd].
  split; [rewrite <- Hd1 | rewrite <- Hlab1]; reflexivity.
Qed.

(** X27: Rules that cannot be evaluated put no limit on the charge current:
    when both interpolations raise and no temperature is known, the only
    candidates are the configured maximum and the limit of the BMS. *)
Theorem charge_candidates_without_telemetry (s : Battery) (e1 e2 : exn) :
  derate utils calcLinearRelationship calcStepRelationship
    (get_max_cell_voltage s) (CELL_VOLTAGES_WHILE_CHARGING utils)
    (MAX_CHARGE_CURRENT_CV utils) false = Raise e1 ->
  get_max_temp s = None ->
  derate utils calcLinearRelationship calcStepRelationship
    (soc_calc s) (SOC_WHILE_CHARGING utils)
    (MAX_CHARGE_CURRENT_SOC utils) true = Raise e2 ->
  charge_candidates utils calcLinearRelationship calcStepRelationship s
  = Ok (base_limits (MAX_BATTERY_CHARGE_CURRENT utils)
          (max_battery_charge_current s) "Max Battery Charge Current").
Proof.
  intros Hcv Htemp Hsoc.
  unfold charge_candidates, calcMaxChargeCurrentReferringToCellVoltage,
    calcMaxChargeCurrentReferringToTemperature,
    calcMaxChargeCurrentReferringToSoc.
  rewrite Hcv, Htemp, Hsoc.
  assert (Hskip : forall global rule limits,
             add_limit (max_battery_charge_current s)
               (max_battery_charge_current s) global rule limits = limits).
  { intros. unfold add_limit, py_ne. now rewrite py_eq_refl. }
  destruct (CCCM_CV_ENABLE utils), (CCCM_T_ENABLE utils),
    (CCCM_SOC_ENABLE utils); simpl; rewrite ?Hskip; reflexivity.
Qed.

End LimiterBounds.

Lemma current_limits_stay_below_maxima_witness :
  at_most (py_round (MAX_BATTERY_CHARGE_CURRENT example_config) 3)
    (control_charge_current settled_pack)
  /\ at_most (py_round (MAX_BATTERY_CHARGE_CURRENT example_config) 3)
       (control_charge_current
          (state_after
             (manage_charge_current example_config calcLinearRelationship_model
                calcStepRelationship_model 1000 1000 1000 1000) settled_pack)).
Proof.
  split; [apply Qle_bool_imp_le; vm_compute; reflexivity |].
  apply (proj1 (current_limits_stay_below_maxima example_config
                  calcLinearRelationship_model calcStepRelationship_model
                  1000 1000 1000 1000 settled_pack
                  ltac:(apply Qle_bool_imp_le; vm_compute; reflexivity)
                  I)).
Defined.

Lemma permissions_follow_limits_witness :
  outcome (manage_charge_current example_config calcLinearRelationship_model
             calcStepRelationship_model 1000 1000 1000 1000)
          disconnected_pack = Ok tt
  /\ (control_allow_charge
        (state_after
           (manage_charge_current example_config calcLinearRelationship_model
              calcStepRelationship_model 1000 1000 1000 1000)
           disconnected_pack) = Some false
      <-> is_num
            (control_charge_current
               (state_after
                  (manage_charge_current example_config
                     calcLinearRelationship_model calcStepRelationship_model
                     1000 1000 1000 1000) disconnected_pack)) 0).
Proof.
  split; [vm_compute; reflexivity |].
  apply (proj1 (permissions_follow_limits example_config
                  calcLinearRelationship_model calcStepRelationship_model
                  1000 1000 1000 1000 disconnected_pack
                  ltac:(vm_compute; reflexivity))).
Defined.

Lemma discharge_throttle_holds_witness :
  control_discharge_current settled_discharging_pack = Some 119.9
  /\ control_discharge_current
       (state_after
          (manage_charge_current example_config calcLinearRelationship_model
             calcStepRelationship_model 1000 1000 1000 1000)
          settled_discharging_pack)
     = control_discharge_current settled_discharging_pack.
Proof.
  split; [reflexivity |].
  refine (proj1 (discharge_throttle_holds example_config
                   calcLinearRelationship_model calcStepRelationship_model
                   1000 1000 1000 1000 settled_discharging_pack
                   settled_discharge_limits settled_dcl 119.9 _ _ _ _ _ _)).
  - vm_compute. reflexivity.
  - vm_compute. reflexivity.
  - intros H. apply Qeq_bool_iff in H. vm_compute in H. discriminate H.
  - vm_compute. reflexivity.
  - reflexivity.
  - vm_compute. reflexivity.
Defined.

Lemma charge_candidates_without_telemetry_witness :
  get_max_temp (set_temp1 None (example_pack [] 0)) = None
  /\ charge_candidates example_config calcLinearRelationship_model
       calcStepRelationship_model (set_temp1 None (example_pack [] 0))
     = Ok (base_limits (MAX_BATTERY_CHARGE_CURRENT example_config)
             (max_battery_charge_current (set_temp1 None (example_pack [] 0)))
             "Max Battery Charge Current").
Proof.
  split; [reflexivity |].
  apply (charge_candidates_without_telemetry example_config
           calcLinearRelationship_model calcStepRelationship_model
           (set_temp1 None (example_pack [] 0)) TypeError TypeError);
    reflexivity.
Defined.
(** ** The empty end point of the coulomb counter *)

Section EmptyEndpoint.

Variable utils : Config.
Variable calcLinearRelationship : option Q -> list Q -> list Q -> res Q.

(** Away from the full rail the check of the full end point does nothing. *)
Lemma soc_full_check_skip (now v vsum : Q) (s : Battery) :
  v <= MAX_CELL_VOLTAGE utils * (99 # 100) ->
  soc_full_check utils now (Some v) vsum s = (Ok tt, s).
Proof.
  intros Hv. apply Qltb_ge in Hv.
  unfold soc_full_check. munfold. cbn. now rewrite Hv.
Qed.

(** The check of the empty end point, run on a pack near the empty rail. *)
Lemma soc_empty_check_run (now v i r : Q) (n : Z) (s : Battery) :
  v < MIN_CELL_VOLTAGE utils * (101 # 100) ->
  current s = Some i ->
  cell_count s = Some n ->
  n <> 0%Z ->
  soc_calc_capacity_remain s = Some r ->
  soc_empty_check utils now (Some v) s
  = (Ok tt, after_empty_check utils now v i n r s).
Proof.
  intros Hv Hi Hn Hnz Hr. apply Qltb_lt in Hv.
  assert (Hdiv : Qeqb (inject_Z n) 0 = false).
  { apply Qeqb_neq. intros H. apply Hnz.
    unfold Qeq, inject_Z in H. cbn [Qnum Qden] in H. lia. }
  unfold soc_empty_check, soc_empty_condition, soc_dwell_elapsed,
    after_empty_check, empty_dwell_holds, dwell_exceeds, py_ne, py_div.
  munfold. cbn. rewrite Hv, Hi. cbn.
  destruct (Qltb i _); cbn; [| reflexivity].
  rewrite Hn. cbn. rewrite Hdiv. cbn.
  destruct (Qleb _ (MIN_CELL_VOLTAGE utils)); cbn; [| reflexivity].
  destruct (soc_calc_reset_starttime s) as [t0 |] eqn:Hstart; cbn;
    [| reflexivity].
  destruct (Z.eqb t0 0); cbn; [reflexivity |].
  rewrite Hstart, Hr. cbn.
  destruct (Qltb _ _ && negb _); cbn; reflexivity.
Qed.

Lemma after_empty_check_fields (now v i r : Q) (n : Z) (s : Battery) :
  soc_calc_capacity_remain s = Some r ->
  soc_calc_capacity_remain (after_empty_check utils now v i n r s)
  = Some (if empty_snap_due utils now v i n (soc_calc_reset_starttime s) r
          then 0 else r)
  /\ soc_calc_reset_starttime (after_empty_check utils now v i n r s)
     = (if empty_dwell_holds utils v i n (soc_calc_reset_starttime s)
        then soc_calc_reset_starttime s else Some (py_int now))
  /\ capacity (after_empty_check utils now v i n r s) = capacity s.
Proof.
  intros Hr. unfold after_empty_check, empty_snap_due.
  destruct (empty_dwell_holds _ _ _ _ _); simpl andb; cbv iota;
    [| repeat split; exact Hr].
  destruct (dwell_exceeds _ _ _); simpl andb; cbv iota;
    [| repeat split; exact Hr].
  destruct (negb _); repeat split; exact Hr.
Qed.

(** The integrating branch, run on a pack near the empty rail only. *)
Lemma soc_integrate_run_empty
    (now : Q) (s : Battery) (vsum corrected last r0 c v i : Q) (n : Z) :
  calcLinearRelationship (current s)
    (SOC_CALC_CURRENT_REPORTED_BY_BMS utils)
    (SOC_CALC_CURRENT_MEASURED_BY_USER utils) = Ok corrected ->
  soc_calc_capacity_remain_lasttime s = Some last ->
  capacity s = Some c ->
  v <= MAX_CELL_VOLTAGE utils * (99 # 100) ->
  v < MIN_CELL_VOLTAGE utils * (101 # 100) ->
  current s = Some i ->
  cell_count s = Some n ->
  n <> 0%Z ->
  soc_integrate utils calcLinearRelationship now (Some v) vsum r0 s
  = (Ok tt,
     after_empty_check utils now v i n
       (integrated_remain r0 corrected now last c)
       (set_soc_calc_capacity_remain_lasttime (Some now)
          (set_soc_calc_capacity_remain
             (Some (integrated_remain r0 corrected now last c))
             (set_soc_calc_capacity_remain
                (Some (r0 + py_round corrected 2 * (now - last) / 3600))
                (set_current_corrected (Some (py_round corrected 2)) s))))).
Proof.
  intros Hcorr Hlast Hcap Hfull Hempty Hi Hn Hnz.
  unfold soc_integrate.
  erewrite bind_eval_Ok by exact Hcorr.
  rewrite bind_modify.
  erewrite bind_eval_Ok by (simpl; rewrite Hlast; reflexivity).
  rewrite bind_modify.
  erewrite bind_eval_Ok by (simpl; rewrite Hcap; reflexivity).
  rewrite !bind_modify.
  erewrite bind_run by (apply soc_full_check_skip; exact Hfull).
  apply soc_empty_check_run; [exact Hempty | exact Hi | exact Hn | exact Hnz |].
  reflexivity.
Qed.

(** X28: On a call that finds the accumulator, on a pack with a capacity
    and a cell count other than 0 whose corrected current can be computed
    and whose lowest cell is below [1.01 * MIN_CELL_VOLTAGE] (and not above
    [0.99 * MAX_CELL_VOLTAGE]), [soc_calculation] returns; the accumulator
    becomes 0 exactly when the signed current is below [SOC_RESET_CURRENT],
    the lowest cell less [VOLTAGE_DROP / cell_count] is at or below
    [MIN_CELL_VOLTAGE], the dwell timer runs and is more than
    [SOC_RESET_TIME] seconds old, and the integrated accumulator is not 0
    already; otherwise it is the integrated, clamped value.  The dwell
    start is kept when the first three clauses hold and is set to the
    current second as soon as one of them fails.  The numbers that the
    tests compare after computing them are apart: a pack of ten cells whose
    lowest reads 2.91 V, where [2.91 - 0.1 / 10] is [MIN_CELL_VOLTAGE]
    itself, is not covered. *)
Theorem soc_calculation_empty_endpoint
    (now : Q) (s : Battery) (vsum corrected last r0 c v i : Q) (n : Z) :
  soc_calc_capacity_remain s = Some r0 ->
  sum_cell_voltages s = Ok vsum ->
  calcLinearRelationship (current s)
    (SOC_CALC_CURRENT_REPORTED_BY_BMS utils)
    (SOC_CALC_CURRENT_MEASURED_BY_USER utils) = Ok corrected ->
  soc_calc_capacity_remain_lasttime s = Some last ->
  capacity s = Some c ->
  ~ c == 0 ->
  get_min_cell_voltage s = Some v ->
  v <= MAX_CELL_VOLTAGE utils * (99 # 100) ->
  v < MIN_CELL_VOLTAGE utils * (101 # 100) ->
  current s = Some i ->
  cell_count s = Some n ->
  n <> 0%Z ->
  integration_clear utils now last r0 corrected v 0 ->
  empty_threshold_clear utils v n ->
  let remain := integrated_remain r0 corrected now last c in
  let start := soc_calc_reset_starttime s in
  let run := soc_calculation utils calcLinearRelationship now in
  outcome run s = Ok tt
  /\ soc_calc_capacity_remain (state_after run s)
     = Some (if empty_snap_due utils now v i n start remain then 0 else remain)
  /\ soc_calc_reset_starttime (state_after run s)
     = (if empty_dwell_holds utils v i n start
        then start else Some (py_int now)).
Proof.
  intros Hr0 Hsum Hcorr Hlast Hcap Hnz Hv Hfull Hempty Hi Hn Hn0 _ _
    remain start run.
  pose proof (soc_integrate_run_empty now (set_current_corrected (Some 0) s)
                vsum corrected last r0 c v i n
                Hcorr Hlast Hcap Hfull Hempty Hi Hn Hn0) as Hbranch.
  fold remain in Hbranch.
  match type of Hbranch with
  | _ = (_, after_empty_check _ _ _ _ _ _ ?s2) =>
      destruct (after_empty_check_fields now v i remain n s2 eq_refl)
        as (Hremain & Hstart & Hcap3)
  end.
  assert (Hrun : exists p,
             run s
             = (Ok tt, set_soc_calc (Some p)
                         (snd (soc_integrate utils calcLinearRelationship now
                                 (Some v) vsum r0
                                 (set_current_corrected (Some 0) s))))).
  { unfold run, soc_calculation.
    rewrite bind_modify, bind_gets.
    erewrite bind_eval_Ok by exact Hsum. rewrite bind_gets.
    simpl soc_calc_capacity_remain. simpl get_min_cell_voltage.
    rewrite Hr0. change (get_min_cell_voltage (set_current_corrected (Some 0) s))
      with (get_min_cell_voltage s). rewrite Hv.
    erewrite bind_run by exact Hbranch.
    rewrite Hbranch. simpl snd.
    unfold soc_percentage.
    erewrite bind_eval_Ok;
      [| rewrite Hremain, Hcap3; simpl; rewrite Hcap; simpl; unfold py_div;
         apply Qeqb_neq in Hnz; rewrite Hnz; reflexivity].
    eexists. reflexivity. }
  destruct Hrun as (p & Hrun). unfold outcome, state_after.
  rewrite Hrun, Hbranch. simpl fst. simpl snd.
  split; [reflexivity |]. split; [exact Hremain | exact Hstart].
Qed.

End EmptyEndpoint.

Lemma soc_calculation_empty_endpoint_witness :
  soc_calc_capacity_remain (nearly_empty_pack (-2) 900) = Some 3
  /\ outcome (soc_calculation example_config calcLinearRelationship_model 1000)
             (nearly_empty_pack (-2) 900) = Ok tt
  /\ soc_calc_capacity_remain
       (state_after
          (soc_calculation example_config calcLinearRelationship_model 1000)
          (nearly_empty_pack (-2) 900))
     = Some (if empty_snap_due example_config 1000 2.91 (-2) 4
                  (soc_calc_reset_starttime (nearly_empty_pack (-2) 900))
                  (integrated_remain 3 (corrected_current (-2)) 1000 999 100)
             then 0
             else integrated_remain 3 (corrected_current (-2)) 1000 999 100).
Proof.
  split; [reflexivity |].
  refine (let H := soc_calculation_empty_endpoint example_config
                     calcLinearRelationship_model 1000 (nearly_empty_pack (-2) 900)
                     nearly_empty_sum (corrected_current (-2)) 999 3 100 2.91
                     (-2) 4 _ _ _ _ _ _ _ _ _ _ _ _ _ _ in
          conj (proj1 H) (proj1 (proj2 H))).
  - reflexivity.
  - vm_compute. reflexivity.
  - vm_compute. reflexivity.
  - reflexivity.
  - reflexivity.
  - intros H. apply Qeq_bool_iff in H. vm_compute in H. discriminate H.
  - vm_compute. reflexivity.
  - apply Qle_bool_imp_le. vm_compute. reflexivity.
  - vm_compute. reflexivity.
  - reflexivity.
  - reflexivity.
  - discriminate.
  - computed.
  - computed.
Defined.

(** The snap of the witness does fire: the pack is declared empty. *)
Example soc_calculation_snaps_to_empty :
  soc_calc_capacity_remain
    (state_after
       (soc_calculation example_config calcLinearRelationship_model 1000)
       (nearly_empty_pack (-2) 900)) = Some 0
  /\ is_num (soc_calc
               (state_after
                  (soc_calculation example_config calcLinearRelationship_model 1000)
                  (nearly_empty_pack (-2) 900))) 0.
Proof. split; vm_compute; reflexivity. Qed.

(** On a pack of ten cells whose lowest reads 2.91 V, that cell less its
    share of [VOLTAGE_DROP] is [MIN_CELL_VOLTAGE] itself: the pack is not
    among those of the theorem. *)
Example empty_threshold_on_the_boundary :
  ~ empty_threshold_clear example_config 2.91 10.
Proof. refuted. Qed.

(** ** The linear controller at the target and on entering Float *)

Lemma prefix_append (p m x : string) :
  String.prefix p m = true -> String.prefix p (m ++ x) = true.
Proof.
  revert m. induction p as [| a p IH]; intros m;
    [intros _; destruct (m ++ x); reflexivity |].
  destruct m as [| b m]; intros H; [discriminate H |].
  change (String.prefix (String a p) (String b m))
    with (if Ascii.ascii_dec a b then String.prefix p m else false) in H.
  change (String.prefix (String a p) (String b m ++ x))
    with (if Ascii.ascii_dec a b then String.prefix p (m ++ x) else false).
  destruct (Ascii.ascii_dec a b); [apply IH; exact H | discriminate H].
Qed.

Lemma string_append_assoc (a b c : string) : (a ++ b) ++ c = a ++ (b ++ c).
Proof.
  induction a as [| x a IH]; cbn [append]; [reflexivity | now rewrite IH].
Qed.

Section Regimes.

Variable utils : Config.
Variable format_charge_mode_debug : Battery -> Q -> Q -> Q -> Z -> Z -> string.

Local Abbreviation controller :=
  (manage_charge_voltage_linear utils format_charge_mode_debug).
Local Abbreviation controller_body :=
  (manage_charge_voltage_linear_body utils format_charge_mode_debug).
Local Abbreviation annotate :=
  (annotate_charge_mode utils format_charge_mode_debug).

(** The suffixes, under the [try], on a pack that has a mode and a CVL:
    the mode is extended, the fields of the transition are not touched. *)
Lemma annotate_guarded_mode (now : Z) (vs ps vd : Q) (td : Z) (s : Battery)
    (m : string) (n : Z) (hi cv : Q) :
  charge_mode s = Some m ->
  cell_count s = Some n ->
  max_battery_voltage s = Some hi ->
  control_voltage s = Some cv ->
  let s' := state_after
              (try_except_TypeError (annotate now vs ps vd td) on_TypeError) s in
  (exists suffix, charge_mode s' = Some (m ++ suffix))
  /\ transition_start_time s' = transition_start_time s
  /\ initial_control_voltage s' = initial_control_voltage s
  /\ soc_reset_requested s' = soc_reset_requested s.
Proof.
  intros Hm Hn Hhi Hcv.
  unfold try_except_TypeError, on_TypeError, annotate_charge_mode,
    append_charge_mode, get_balancing, cells_in_use.
  munfold. simpl. rewrite Hn. simpl.
  destruct (allow_max_voltage s); simpl.
  - destruct (existsb _ _ && _); simpl; rewrite Hm; simpl;
      destruct (LOGGER_DEBUG utils); simpl; rewrite ?Hhi; simpl;
      rewrite ?Hcv; simpl;
      (split; [eexists; rewrite ?string_append_assoc; reflexivity |]);
      repeat split.
  - rewrite Hm. simpl.
    destruct (LOGGER_DEBUG utils); simpl; rewrite ?Hhi; simpl;
      rewrite ?Hcv; simpl; (split; [eexists; reflexivity |]); repeat split.
Qed.

(** The branch of the target voltage, with the I-controller off. *)
Lemma emit_max_run (cv_ hi : Q) (s : Battery) :
  CVL_ICONTROLLER_MODE utils = false ->
  max_battery_voltage s = Some hi ->
  exists m,
    emit_max utils cv_ s
    = (Ok tt, set_charge_mode (Some m)
                (set_control_voltage (Some (py_round hi 3)) s))
    /\ String.prefix (match max_voltage_start_time s with
                      | None => "Bulk"
                      | Some _ => "Absorption"
                      end) m = true.
Proof.
  intros Hmode Hhi. unfold emit_max, soc_reset_suffix. munfold.
  rewrite Hmode, Hhi. simpl.
  destruct (py_eq _ _); eexists; (split; [reflexivity |]);
    destruct (max_voltage_start_time s); reflexivity.
Qed.

(** X29: In Bulk and in Absorption, with the I-controller off and no polled
    cell above the ceiling in force, the linear controller returns and asks
    for the target itself, [round(max_battery_voltage, 3)], at once; the
    mode starts with "Bulk" while the Absorption timer has not started and
    with "Absorption" once it runs.  The target is off the ties of the
    rounding and the comparisons of the timer are clear: eight cells at
    3.45 V, whose sum is the target 27.6 V itself, are not covered (the
    doubles of the source add them up to 27.599999999999998 V and stay in
    Bulk). *)
Theorem linear_controller_holds_target
    (now now_cvl : Z) (s s1 : Battery) (n td : Z) (vd lo hi : Q) :
  CVL_ICONTROLLER_MODE utils = false ->
  cell_count s = Some n ->
  Forall (fun v => v <= active_ceiling utils s)
    (live_voltages (cells_polled n s)) ->
  cell_voltage_diff s = Ok vd ->
  absorption_timer utils now (Qsum_scanned utils s) vd s = (Ok td, s1) ->
  allow_max_voltage s1 = true ->
  timer_clear utils n s ->
  min_battery_voltage s = Some lo ->
  max_battery_voltage s = Some hi ->
  off_ties [hi] hi 3 ->
  outcome (controller now now_cvl) s = Ok tt
  /\ control_voltage (state_after (controller now now_cvl) s)
     = Some (py_round hi 3)
  /\ exists m,
       charge_mode (state_after (controller now now_cvl) s) = Some m
       /\ String.prefix (match max_voltage_start_time s1 with
                         | None => "Bulk"
                         | Some _ => "Absorption"
                         end) m = true.
Proof.
  intros Hmode Hn Hlow Hdiff Htimer Hallow _ Hlo Hhi _.
  destruct (penalty_scan_spec utils s n Hn) as (vs & ps & Hscan & _).
  assert (Hnone : existsb (Qltb (active_ceiling utils s))
                    (live_voltages (cells_polled n s)) = false).
  { clear - Hlow. induction Hlow as [| v l Hv Hl IH]; [reflexivity |].
    simpl. apply Qltb_ge in Hv. now rewrite Hv. }
  rewrite Hnone in Hscan.
  assert (Hvs : Qsum_scanned utils s = vs)
    by (unfold Qsum_scanned; now rewrite Hscan).
  rewrite Hvs in Htimer.
  pose proof (absorption_timer_frame utils now vs vd s) as Hframe.
  rewrite (state_after_run _ _ _ _ Htimer) in Hframe. cbv zeta in Hframe.
  rewrite Hallow in Hframe.
  set (s1' := set_allow_max_voltage true
                (set_max_voltage_start_time (max_voltage_start_time s1) s))
    in Hframe.
  destruct (cell_voltage_diff_top s vd Hdiff) as (top & Htop).
  destruct (icontroller_total utils s1' lo hi top Hlo Hhi Htop) as (cv_ & Hicv).
  destruct (emit_max_run cv_ hi s1' Hmode Hhi) as (m & Hemit & Hprefix).
  change (max_voltage_start_time s1') with (max_voltage_start_time s1)
    in Hprefix.
  set (s2 := set_charge_mode (Some m)
               (set_control_voltage (Some (py_round hi 3)) s1')) in Hemit.
  destruct (annotate_guarded utils format_charge_mode_debug now vs ps vd td s2
              m n hi eq_refl Hn Hhi) as (Hok & Hkeep & _).
  destruct (annotate_guarded_mode now vs ps vd td s2 m n hi (py_round hi 3)
              eq_refl Hn Hhi eq_refl) as ((suffix & Hm2) & _).
  assert (Hbody : controller_body now now_cvl s
                  = annotate now vs ps vd td s2).
  { unfold manage_charge_voltage_linear_body.
    erewrite bind_eval_Ok by exact Hscan. cbv beta iota.
    erewrite bind_eval_Ok by exact Hdiff.
    erewrite bind_run by exact Htimer. rewrite Hframe.
    erewrite bind_eval_Ok by exact Hicv.
    erewrite bind_run; [reflexivity |].
    unfold emit_control_voltage. rewrite bind_gets.
    change (allow_max_voltage s1') with true. cbn [andb]. exact Hemit. }
  unfold manage_charge_voltage_linear.
  unfold outcome, state_after in *.
  rewrite (try_except_run_eq _ _ _ _ _ Hbody).
  split; [exact Hok |]. split; [rewrite Hkeep; reflexivity |].
  exists (m ++ suffix). split; [exact Hm2 | now apply prefix_append].
Qed.

(** The Float branch on the tick that leaves Bulk or Absorption. *)
Lemma emit_float_entry_run (now now_cvl : Z) (s : Battery) (n : Z)
    (m : string) (cv : Q) :
  cell_count s = Some n ->
  charge_mode s = Some m ->
  String.prefix "Float" m = false ->
  control_voltage s = Some cv ->
  ~ cv == 0 ->
  exists s2,
    emit_float utils now now_cvl s = (Ok tt, s2)
    /\ control_voltage s2 = Some cv
    /\ charge_mode s2 = Some "Float Transition"
    /\ transition_start_time s2 = Some now
    /\ initial_control_voltage s2 = Some cv
    /\ soc_reset_requested s2 = false
    /\ cell_count s2 = Some n
    /\ allow_max_voltage s2 = allow_max_voltage s
    /\ max_battery_voltage s2 = max_battery_voltage s.
Proof.
  intros Hn Hm Hprefix Hcv Hnz. apply Qeqb_neq in Hnz.
  unfold emit_float, charge_mode_startswith. munfold. simpl.
  rewrite Hn. simpl.
  destruct (soc_reset_requested s) eqn:Hreq;
    repeat (progress (simpl; rewrite ?Hcv, ?Hnz, ?Hm, ?Hprefix));
    eexists; repeat split; assumption.
Qed.

(** X30: The tick on which the linear controller leaves Bulk or Absorption
    ([allow_max_voltage] false after the timer, a mode that does not start
    with "Float", a CVL in force): the mode becomes "Float Transition", the
    CVL is kept, and the start of the ramp is recorded: the second and the
    CVL it starts from.  The comparisons of the timer are clear: cells at
    3.5, 3.4, 3.4 and 3.4 V, whose spread is the restart threshold 0.1 V
    itself, are not covered (the doubles of the source find
    0.10000000000000009 V, restart the timer and stay in Absorption). *)
Theorem linear_controller_enters_float
    (now now_cvl : Z) (s s1 : Battery) (n td : Z)
    (m : string) (vd lo hi cv : Q) :
  cell_count s = Some n ->
  cell_voltage_diff s = Ok vd ->
  absorption_timer utils now (Qsum_scanned utils s) vd s = (Ok td, s1) ->
  allow_max_voltage s1 = false ->
  timer_clear utils n s ->
  min_battery_voltage s = Some lo ->
  max_battery_voltage s = Some hi ->
  charge_mode s = Some m ->
  String.prefix "Float" m = false ->
  control_voltage s = Some cv ->
  ~ cv == 0 ->
  let s' := state_after (controller now now_cvl) s in
  outcome (controller now now_cvl) s = Ok tt
  /\ control_voltage s' = Some cv
  /\ charge_mode s' = Some "Float Transition (Linear Mode)"
  /\ transition_start_time s' = Some now
  /\ initial_control_voltage s' = Some cv
  /\ soc_reset_requested s' = false.
Proof.
  intros Hn Hdiff Htimer Hallow _ Hlo Hhi Hm Hprefix Hcv Hnz s'.
  destruct (penalty_scan_spec utils s n Hn) as (vs & ps & Hscan & _).
  assert (Hvs : Qsum_scanned utils s = vs)
    by (unfold Qsum_scanned; now rewrite Hscan).
  rewrite Hvs in Htimer.
  pose proof (absorption_timer_frame utils now vs vd s) as Hframe.
  rewrite (state_after_run _ _ _ _ Htimer) in Hframe. cbv zeta in Hframe.
  rewrite Hallow in Hframe.
  set (s1' := set_allow_max_voltage false
                (set_max_voltage_start_time (max_voltage_start_time s1) s))
    in Hframe.
  destruct (cell_voltage_diff_top s vd Hdiff) as (top & Htop).
  destruct (icontroller_total utils s1' lo hi top Hlo Hhi Htop) as (cv_ & Hicv).
  destruct (emit_float_entry_run now now_cvl s1' n m cv Hn Hm Hprefix Hcv Hnz)
    as (s2 & Hemit & Hcv2 & Hm2 & Ht2 & Hi2 & Hreq2 & Hn2 & Hallow2 & Hhi2).
  destruct (annotate_guarded utils format_charge_mode_debug now vs ps vd td s2
              _ n hi Hm2 Hn2) as (Hok & Hkeep & Hmode);
    [rewrite Hhi2; exact Hhi |].
  destruct (annotate_guarded_mode now vs ps vd td s2 _ n hi cv Hm2 Hn2)
    as (_ & Htk & Hik & Hrk); [rewrite Hhi2; exact Hhi | exact Hcv2 |].
  assert (Hbody : controller_body now now_cvl s
                  = annotate now vs ps vd td s2).
  { unfold manage_charge_voltage_linear_body.
    erewrite bind_eval_Ok by exact Hscan. cbv beta iota.
    erewrite bind_eval_Ok by exact Hdiff.
    erewrite bind_run by exact Htimer. rewrite Hframe.
    erewrite bind_eval_Ok by exact Hicv.
    erewrite bind_run; [reflexivity |].
    unfold emit_control_voltage. rewrite bind_gets.
    change (allow_max_voltage s1') with false.
    rewrite andb_false_r. exact Hemit. }
  unfold s'. unfold manage_charge_voltage_linear.
  unfold outcome, state_after in *.
  rewrite (try_except_run_eq _ _ _ _ _ Hbody).
  split; [exact Hok |].
  split; [rewrite Hkeep; exact Hcv2 |].
  split; [apply Hmode; [rewrite Hallow2; reflexivity
                       | rewrite Hcv2; discriminate] |].
  split; [rewrite Htk; exact Ht2 |].
  split; [rewrite Hik; exact Hi2 | rewrite Hrk; exact Hreq2].
Qed.

End Regimes.

Lemma linear_controller_holds_target_witness :
  allow_max_voltage
    (state_after
       (absorption_timer example_config 1000
          (Qsum_scanned example_config bulk_pack) bulk_diff) bulk_pack) = true
  /\ control_voltage
       (state_after
          (manage_charge_voltage_linear example_config no_debug_text 1000 1000)
          bulk_pack)
     = Some (py_round 13.8 3).
Proof.
  split; [vm_compute; reflexivity |].
  refine (proj1 (proj2
            (linear_controller_holds_target example_config no_debug_text
               1000 1000 bulk_pack
               (state_after
                  (absorption_timer example_config 1000
                     (Qsum_scanned example_config bulk_pack) bulk_diff) bulk_pack)
               4 0 bulk_diff 11.6 13.8 _ _ _ _ _ _ _ _ _ _))).
  - reflexivity.
  - reflexivity.
  - repeat constructor; apply Qle_bool_imp_le; vm_compute; reflexivity.
  - vm_compute. reflexivity.
  - vm_compute. reflexivity.
  - vm_compute. reflexivity.
  - computed.
  - reflexivity.
  - reflexivity.
  - computed.
Defined.

Lemma linear_controller_enters_float_witness :
  allow_max_voltage
    (state_after
       (absorption_timer example_config 1301
          (Qsum_scanned example_config expiring_pack) expiring_diff)
       expiring_pack) = false
  /\ charge_mode
       (state_after
          (manage_charge_voltage_linear example_config no_debug_text 1301 1301)
          expiring_pack)
     = Some "Float Transition (Linear Mode)".
Proof.
  split; [vm_compute; reflexivity |].
  refine (proj1 (proj2 (proj2
            (linear_controller_enters_float example_config no_debug_text
               1301 1301 expiring_pack
               (state_after
                  (absorption_timer example_config 1301
                     (Qsum_scanned example_config expiring_pack)
                     expiring_diff) expiring_pack)
               4 901 "Absorption (Linear Mode)" expiring_diff
               11.6 13.8 13.8 _ _ _ _ _ _ _ _ _ _ _)))).
  - reflexivity.
  - vm_compute. reflexivity.
  - vm_compute. reflexivity.
  - vm_compute. reflexivity.
  - computed.
  - reflexivity.
  - reflexivity.
  - reflexivity.
  - reflexivity.
  - reflexivity.
  - intros H. apply Qeq_bool_iff in H. vm_compute in H. discriminate H.
Defined.

(** The same tick, run: the ramp starts from 13.80 V at second 1301. *)
Example linear_controller_enters_float_example :
  transition_start_time
    (state_after
       (manage_charge_voltage_linear example_config no_debug_text 1301 1301)
       expiring_pack) = Some 1301%Z
  /\ initial_control_voltage
       (state_after
          (manage_charge_voltage_linear example_config no_debug_text 1301 1301)
          expiring_pack) = Some 13.8.
Proof. split; vm_compute; reflexivity. Qed.

(** Eight cells at 3.45 V add up to the target 27.6 V itself, and cells at
    3.5, 3.4, 3.4 and 3.4 V are spread by the restart threshold 0.1 V
    itself: neither pack is among those of the two theorems. *)
Example timer_on_the_boundary :
  ~ timer_clear example_config 8
      (set_max_battery_voltage (Some 27.6)
         (set_cell_count (Some 8%Z)
            (example_pack [3.45; 3.45; 3.45; 3.45; 3.45; 3.45; 3.45; 3.45] 20)))
  /\ ~ timer_clear example_config 4
        (set_max_voltage_start_time (Some 400%Z)
           (example_pack [3.5; 3.4; 3.4; 3.4] 2)).
Proof. split; refuted. Qed.
